(** * maescraper3: the forex batch jobs, embedded and verified

    The repository holds four independent Go programs (each a [package main]):

    - [Legacy]    : the old scraper (LeerForexPrecios -> public.forex3),
    - [Current]   : the current-quotes scraper (-> public.forex),
    - [Historico] : the historical backfill (historicoforex -> public.forex),
    - [Sync]      : the local -> cloud copy of public.forex.

    Each program is embedded as Rocq functions over an explicit model of
    what it talks to: the PostgreSQL tables it reads and writes, the
    connections it opens and closes, and the HTTP API it calls.  The Go
    standard library functions the programs call ([time.Parse],
    [strconv.Atoi], [strings.TrimSuffix], [fmt.Sprintf]) are modelled in
    [GoTime], [Strconv], [Strings]. *)

From Stdlib Require Import ZArith Ascii.
From stdpp Require Import base numbers list strings gmap sorting.

Local Open Scope Z_scope.

(* ===================================================================== *)
(** * Go's [strings] package *)
(* ===================================================================== *)

Module Strings.

(** [s[lo:hi]] on a Go string (a sequence of bytes). *)
Definition slice (s : string) (lo hi : nat) : string :=
  String.substring lo (hi - lo) s.

(** [func HasSuffix(s, suffix string) bool {
       return len(s) >= len(suffix) && s[len(s)-len(suffix):] == suffix }] *)
Definition HasSuffix (s suffix : string) : bool :=
  bool_decide (String.length suffix <= String.length s)%nat
  && bool_decide
       (slice s (String.length s - String.length suffix) (String.length s)
        = suffix).

(** [func TrimSuffix(s, suffix string) string {
       if HasSuffix(s, suffix) { return s[:len(s)-len(suffix)] }
       return s }] *)
Definition TrimSuffix (s suffix : string) : string :=
  if HasSuffix s suffix
  then slice s 0 (String.length s - String.length suffix)
  else s.

End Strings.

(* ===================================================================== *)
(** * Go's [strconv.Atoi] *)
(* ===================================================================== *)

Module Strconv.

(** The value of a decimal digit byte, if it is one. *)
Definition digit (c : ascii) : option Z :=
  let n := Z.of_N (Ascii.N_of_ascii c) in
  if (48 <=? n) && (n <=? 57) then Some (n - 48) else None.

(** The digits of [s] read in base 10 onto the accumulator [acc];
    [None] at the first byte that is not a digit. *)
Fixpoint digits (acc : Z) (s : string) : option Z :=
  match s with
  | EmptyString => Some acc
  | String c s' =>
      match digit c with
      | Some d => digits (acc * 10 + d) s'
      | None => None
      end
  end.

Definition minInt : Z := - 2 ^ 63.
Definition maxInt : Z := 2 ^ 63 - 1.

(** [strconv.Atoi] on a 64-bit platform: an optional sign, then one or
    more decimal digits, the value within [int]; every other input is an
    error (syntax or range), which the callers do not tell apart. *)
Definition Atoi (s : string) : option Z :=
  let body (neg : bool) (ds : string) : option Z :=
    match ds with
    | EmptyString => None
    | _ =>
        match digits 0 ds with
        | Some n =>
            let v := if neg then - n else n in
            if (minInt <=? v) && (v <=? maxInt) then Some v else None
        | None => None
        end
    end in
  match s with
  | EmptyString => None
  | String "-" ds => body true ds
  | String "+" ds => body false ds
  | _ => body false s
  end.

End Strconv.

(* ===================================================================== *)
(** * Go's [time] package *)
(* ===================================================================== *)

Module GoTime.

(** A [time.Time] is an instant: here the number of nanoseconds since
    the zero time, January 1 of year 1, 00:00:00 UTC.  Locations are not
    modelled; every instant the jobs compare is produced in UTC. *)
Abbreviation Time := Z.

Definition nsPerSecond : Z := 1000000000.
Definition Hour : Z := 3600 * nsPerSecond.
Definition nsPerDay : Z := 24 * Hour.

(** The zero value [time.Time{}]. *)
Definition zero : Time := 0.

Definition IsZero (t : Time) : bool := t =? 0.
Definition After (t u : Time) : bool := u <? t.
Definition Before (t u : Time) : bool := t <? u.

(** [t.AddDate(0, 0, days)]: the same clock time [days] calendar days
    later; in UTC a calendar day is 24 hours. *)
Definition AddDays (t : Time) (days : Z) : Time := t + days * nsPerDay.

(** [t.Truncate(d)]: [t] rounded down to a multiple of [d] since the
    zero time; [t] itself when [d <= 0]. *)
Definition Truncate (t : Time) (d : Z) : Time :=
  if d <=? 0 then t else t - t mod d.

(** ** Civil dates *)

Definition isLeap (year : Z) : bool :=
  (year mod 4 =? 0) && (negb (year mod 100 =? 0) || (year mod 400 =? 0)).

Definition daysIn (month year : Z) : Z :=
  if month =? 2 then (if isLeap year then 29 else 28)
  else if (month =? 4) || (month =? 6) || (month =? 9) || (month =? 11)
       then 30 else 31.

(** Days from January 1 of year 1 to January 1 of [year]. *)
Definition daysBeforeYear (year : Z) : Z :=
  let y := year - 1 in
  365 * y + y / 4 - y / 100 + y / 400.

(** Days from January 1 of [year] to the first of [month]. *)
Definition daysBeforeMonth (month year : Z) : Z :=
  foldr (fun m acc => daysIn m year + acc) 0
        (seqZ 1 (month - 1)).

(** [time.Date(year, month, day, hour, min, sec, nsec, time.UTC)] for a
    date and clock already in range. *)
Definition Date (year month day hour min sec nsec : Z) : Time :=
  ((daysBeforeYear year + daysBeforeMonth month year + (day - 1)) * 86400
   + hour * 3600 + min * 60 + sec) * nsPerSecond + nsec.

(** ** [time.Parse]

    A layout is a sequence of chunks; the jobs use three layouts, made
    of the chunks below. *)
Inductive chunk :=
| Lit (c : ascii)   (* a byte that must match *)
| stdLongYear       (* "2006" *)
| stdYear           (* "06" *)
| stdZeroMonth      (* "01" *)
| stdZeroDay        (* "02" *)
| stdHour           (* "15" *)
| stdZeroMinute     (* "04" *)
| stdZeroSecond.    (* "05" *)

Definition layoutChunks (layout : string) : option (list chunk) :=
  if bool_decide (layout = "2006-01-02T15:04:05") then
    Some [stdLongYear; Lit "-"; stdZeroMonth; Lit "-"; stdZeroDay; Lit "T";
          stdHour; Lit ":"; stdZeroMinute; Lit ":"; stdZeroSecond]
  else if bool_decide (layout = "2006-01-02") then
    Some [stdLongYear; Lit "-"; stdZeroMonth; Lit "-"; stdZeroDay]
  else if bool_decide (layout = "060102") then
    Some [stdYear; stdZeroMonth; stdZeroDay]
  else None.

(** [getnum(s, fixed)]: one or two leading digits; two are required
    when [fixed]. *)
Definition getnum (s : string) (fixed : bool) : option (Z * string) :=
  match s with
  | String c0 s1 =>
      match Strconv.digit c0 with
      | None => None
      | Some d0 =>
          match s1 with
          | String c1 s2 =>
              match Strconv.digit c1 with
              | Some d1 => Some (d0 * 10 + d1, s2)
              | None => if fixed then None else Some (d0, s1)
              end
          | EmptyString => if fixed then None else Some (d0, s1)
          end
      end
  | EmptyString => None
  end.

(** The fields read so far. *)
Record fields := mkFields {
  f_year : Z; f_month : Z; f_day : Z;
  f_hour : Z; f_min : Z; f_sec : Z; f_nsec : Z
}.

Definition fields0 : fields := mkFields 0 (-1) (-1) 0 0 0 0.

(** The leading run of digits of [s] and what follows it. *)
Fixpoint spanDigits (s : string) : list Z * string :=
  match s with
  | String c s' =>
      match Strconv.digit c with
      | Some d => let '(ds, r) := spanDigits s' in (d :: ds, r)
      | None => ([], s)
      end
  | EmptyString => ([], s)
  end.

(** [parseNanoseconds]: at most nine digits count, scaled to
    nanoseconds. *)
Definition nanoseconds (ds : list Z) : Z :=
  let kept := take 9 ds in
  foldl (fun acc d => acc * 10 + d) 0 kept * 10 ^ Z.of_nat (9 - length kept).

Definition commaOrPeriod (c : ascii) : bool :=
  bool_decide (c = "."%char) || bool_decide (c = ","%char).

(** One chunk of the layout consumed from the head of [value]. *)
Definition parseChunk (ch : chunk) (f : fields) (value : string)
  : option (fields * string) :=
  match ch with
  | Lit c =>
      match value with
      | String c' rest => if bool_decide (c = c') then Some (f, rest) else None
      | EmptyString => None
      end
  | stdLongYear =>
      match value with
      | String c0 (String c1 (String c2 (String c3 rest))) =>
          match Strconv.digit c0, Strconv.digit c1,
                Strconv.digit c2, Strconv.digit c3 with
          | Some d0, Some d1, Some d2, Some d3 =>
              Some (mkFields (((d0 * 10 + d1) * 10 + d2) * 10 + d3)
                      (f_month f) (f_day f) (f_hour f) (f_min f) (f_sec f)
                      (f_nsec f), rest)
          | _, _, _, _ => None
          end
      | _ => None
      end
  | stdYear =>
      match value with
      | String c0 (String c1 rest) =>
          let yy :=
            if bool_decide (c0 = "-"%char) then
              (fun d => - d) <$> Strconv.digit c1
            else if bool_decide (c0 = "+"%char) then Strconv.digit c1
            else match Strconv.digit c0, Strconv.digit c1 with
                 | Some d0, Some d1 => Some (d0 * 10 + d1)
                 | _, _ => None
                 end in
          match yy with
          | Some y =>
              let year := if 69 <=? y then y + 1900 else y + 2000 in
              Some (mkFields year (f_month f) (f_day f) (f_hour f)
                      (f_min f) (f_sec f) (f_nsec f), rest)
          | None => None
          end
      | _ => None
      end
  | stdZeroMonth =>
      match getnum value true with
      | Some (m, rest) =>
          if (m <=? 0) || (12 <? m) then None
          else Some (mkFields (f_year f) m (f_day f) (f_hour f) (f_min f)
                       (f_sec f) (f_nsec f), rest)
      | None => None
      end
  | stdZeroDay =>
      match getnum value true with
      | Some (d, rest) =>
          Some (mkFields (f_year f) (f_month f) d (f_hour f) (f_min f)
                  (f_sec f) (f_nsec f), rest)
      | None => None
      end
  | stdHour =>
      match getnum value false with
      | Some (h, rest) =>
          if 24 <=? h then None
          else Some (mkFields (f_year f) (f_month f) (f_day f) h (f_min f)
                       (f_sec f) (f_nsec f), rest)
      | None => None
      end
  | stdZeroMinute =>
      match getnum value true with
      | Some (m, rest) =>
          if 60 <=? m then None
          else Some (mkFields (f_year f) (f_month f) (f_day f) (f_hour f) m
                       (f_sec f) (f_nsec f), rest)
      | None => None
      end
  | stdZeroSecond =>
      match getnum value true with
      | Some (s, rest) =>
          if 60 <=? s then None
          else
            (* a fractional second is accepted after the seconds even
               though the layout has none *)
            match rest with
            | String c0 (String c1 _ as frac) =>
                if commaOrPeriod c0 && bool_decide (is_Some (Strconv.digit c1))
                then let '(ds, rest') := spanDigits frac in
                     Some (mkFields (f_year f) (f_month f) (f_day f)
                             (f_hour f) (f_min f) s (nanoseconds ds), rest')
                else Some (mkFields (f_year f) (f_month f) (f_day f)
                             (f_hour f) (f_min f) s (f_nsec f), rest)
            | _ => Some (mkFields (f_year f) (f_month f) (f_day f)
                           (f_hour f) (f_min f) s (f_nsec f), rest)
            end
      | None => None
      end
  end.

Fixpoint parseChunks (chs : list chunk) (f : fields) (value : string)
  : option (fields * string) :=
  match chs with
  | [] => Some (f, value)
  | ch :: chs' =>
      match parseChunk ch f value with
      | Some (f', value') => parseChunks chs' f' value'
      | None => None
      end
  end.

(** [time.Parse(layout, value)]: [None] is a non-nil error.  Text left
    over after the layout and a day outside its month are errors. *)
Definition Parse (layout value : string) : option Time :=
  match layoutChunks layout with
  | None => None
  | Some chs =>
      match parseChunks chs fields0 value with
      | Some (f, EmptyString) =>
          let month := if f_month f <? 0 then 1 else f_month f in
          let day := if f_day f <? 0 then 1 else f_day f in
          if (day <? 1) || (daysIn month (f_year f) <? day) then None
          else Some (Date (f_year f) month day
                       (f_hour f) (f_min f) (f_sec f) (f_nsec f))
      | _ => None
      end
  end.

End GoTime.


(* ===================================================================== *)
(** * The process and what it talks to *)
(* ===================================================================== *)

Module Proc.
Import GoTime.

(** A Go [float64]; the jobs only carry these values from the JSON
    response to the INSERT, so the model keeps the bit pattern. *)
Abbreviation float64 := Z.

(** What pgx sends and receives for one column. *)
Inductive Value :=
| VNull                 (* nil / SQL NULL *)
| VTime (t : Time)      (* time.Time / date *)
| VText (s : string)
| VInt (n : Z)
| VFloat (x : float64).

(** A stored row: column name to value. *)
Abbreviation Row := (gmap string Value).

Definition col (r : Row) (c : string) : Value := default VNull (r !! c).

(** The [date] column of a row, when it holds a date. *)
Definition rowDate (r : Row) : option Time :=
  match r !! "date" with
  | Some (VTime t) => Some t
  | _ => None
  end.

(** [SELECT MAX(date) FROM t]: NULL ([None]) when no row has a date. *)
Definition maxDate (t : list Row) : option Time :=
  foldl (fun acc r =>
           match rowDate r, acc with
           | Some d, Some m => Some (Z.max m d)
           | Some d, None => Some d
           | None, _ => acc
           end) None t.

(** The two database servers a job may connect to. *)
Inductive Db := Local | Cloud.

#[global] Instance Db_eq_dec : EqDecision Db.
Proof. solve_decision. Defined.

(** What a run does not control on the database side: the clock,
    whether the servers answer each kind of request, and which rows the
    destination's constraints accept. *)
Record Env := mkEnv {
  now : Time;
  connect_ok : Db -> bool;
  last_date_ok : bool;
  select_ok : bool;
  prepare_ok : bool;
  accepts : Db -> list Row -> Row -> bool
}.

(** The state a run changes: the forex table of each server, the
    connections that are open, and (as a trace) every INSERT executed
    and every history request sent. *)
Record World := mkWorld {
  table : Db -> list Row;
  open_conns : list Db;
  exec_log : list (Db * list Value);
  api_log : list (Time * Time)
}.

(** How a Go function ends: it returns, or [log.Fatal] ends the
    process with [os.Exit(1)]. *)
Inductive Res (A : Type) :=
| Ok (a : A) (w : World)
| Fatal (w : World).
Arguments Ok {A}. Arguments Fatal {A}.

Definition M (A : Type) : Type := World -> Res A.

Definition ret {A} (a : A) : M A := fun w => Ok a w.

Definition bind {A B} (m : M A) (k : A -> M B) : M B :=
  fun w => match m w with
           | Ok a w' => k a w'
           | Fatal w' => Fatal w'
           end.

(** [log.Fatal], [log.Fatalf]. *)
Definition fatal {A} : M A := fun w => Fatal w.

(** [defer f(); body]: [f] runs when the function returns.  [os.Exit]
    does not run deferred calls. *)
Definition defer {A} (f : World -> World) (body : M A) : M A :=
  fun w => match body w with
           | Ok a w' => Ok a (f w')
           | Fatal w' => Fatal w'
           end.

(** The world a run ends in, however it ends. *)
Definition final {A} (r : Res A) : World :=
  match r with Ok _ w => w | Fatal w => w end.

Definition returned {A} (r : Res A) : bool :=
  match r with Ok _ _ => true | Fatal _ => false end.

Section pgx.
Context (env : Env).

(** [pgx.Connect]: the connection, or an error. *)
Definition Connect (db : Db) : M (option Db) :=
  fun w =>
    if connect_ok env db
    then Ok (Some db)
            (mkWorld (table w) (db :: open_conns w) (exec_log w) (api_log w))
    else Ok None w.

(** [conn.Close]. *)
Definition Close (conn : Db) (w : World) : World :=
  mkWorld (table w) (List.remove Db_eq_dec conn (open_conns w))
          (exec_log w) (api_log w).

(** [conn.QueryRow(ctx, "SELECT MAX(date) FROM ...").Scan(&lastDate)]:
    the date scanned, or an error; scanning NULL into a [time.Time]
    is an error. *)
Definition scanMaxDate (conn : Db) (w : World) : option Time :=
  if last_date_ok env then maxDate (table w conn) else None.

(** The same with [COALESCE(MAX(date), '1900-01-01')]. *)
Definition scanMaxDateOr1900 (conn : Db) (w : World) : option Time :=
  if last_date_ok env
  then Some (default (Date 1900 1 1 0 0 0 0) (maxDate (table w conn)))
  else None.

(** [conn.Prepare]: [true] when it returns no error. *)
Definition Prepare (conn : Db) : bool := prepare_ok env.

(** The row an [INSERT INTO t (cols) VALUES ($1, ..., $n)] stores for
    the arguments [args]. *)
Definition insertedRow (cols : list string) (args : list Value) : Row :=
  list_to_map (zip cols args).

(** [conn.Exec(ctx, stmt, args...)] for a prepared INSERT with columns
    [cols]: [true] when it returns no error.  The row is stored when
    the argument count matches and the server accepts it. *)
Definition Exec (conn : Db) (cols : list string) (args : list Value)
           (w : World) : bool * World :=
  let w1 := mkWorld (table w) (open_conns w)
                    (exec_log w ++ [(conn, args)]) (api_log w) in
  let r := insertedRow cols args in
  if bool_decide (length cols = length args)
     && accepts env conn (table w conn) r
  then (true,
        mkWorld (fun db => if bool_decide (db = conn)
                           then table w db ++ [r] else table w db)
                (open_conns w1) (exec_log w1) (api_log w1))
  else (false, w1).
End pgx.

End Proc.

Declare Scope proc_scope.
Delimit Scope proc_scope with proc.
Notation "x <- m ;; k" := (Proc.bind m (fun x => k))
  (at level 100, m at next level, right associativity) : proc_scope.

Local Open Scope proc_scope.

(* ===================================================================== *)
(** * The current-quotes scraper *)
(* ===================================================================== *)

Module Current.
Import GoTime Proc.

(** [type ForexData struct]: one element of the API's JSON array. *)
Record ForexData := mkForexData {
  Fecha : string;
  Ticker : string;
  Descripcion : string;
  TipoEmision : string;
  Segmento : string;
  CodigoSegmento : string;
  Plazo : string;
  CodigoPlazo : string;
  Moneda : string;
  FechaLiquidacion : string;
  VolumenAcumulado : Z;
  MontoAcumulado : float64;
  PrecioUltimo : float64;
  UltimaTasa : float64;
  PrecioCierreAnterior : float64;
  PrecioMinimo : float64;
  PrecioMaximo : float64;
  OpenInterest : Z;
  PrecioCierre : float64;
  Variacion : float64
}.

Definition deriveCurrencyOut (ticker : string) : string :=
  Strings.TrimSuffix ticker "$T".

Definition deriveCurrencyIn (moneda : string) : string :=
  if bool_decide (moneda = "T") then "ART" else moneda.

Definition deriveRueda (segmento : string) : string :=
  if bool_decide (segmento = "Minorista") then "CAM2"
  else if bool_decide (segmento = "Mayorista") then "CAM1"
  else segmento.

(** [fmt.Sprintf("%s / %s %s", currencyOut, currencyIn, plazo)] *)
Definition buildInstrumento (currencyOut currencyIn plazo : string) : string :=
  currencyOut +:+ " / " +:+ currencyIn +:+ " " +:+ plazo.

(** [fetchForexData]: [log.Fatal] without an API key; otherwise the
    decoded array, or [nil] ([None]) on a failed request, a status
    other than 200, a body that does not decode, or an empty array. *)
Definition fetchForexData (apiKey : string)
           (response : option (list ForexData)) : M (option (list ForexData)) :=
  if bool_decide (apiKey = "") then fatal
  else match response with
       | Some [] => ret None
       | r => ret r
       end.

(** The columns of the prepared INSERT, in the order of its
    placeholders [$1 .. $23]. *)
Definition insertCols : list string :=
  ["date"; "rueda"; "instrumento"; "currency_out"; "currency_in"; "settle";
   "settle_date"; "monto"; "cotizacion"; "hora";
   "descripcion"; "tipo_emision"; "codigo_segmento"; "codigo_plazo"; "moneda";
   "monto_acumulado";
   "precio_ultimo"; "ultima_tasa"; "precio_cierre_anterior"; "precio_minimo";
   "precio_maximo";
   "open_interest"; "variacion"].

(** A [*int] or [*time.Time] argument: [nil] is NULL. *)
Definition ptrInt (p : option Z) : Value :=
  match p with Some n => VInt n | None => VNull end.
Definition ptrTime (p : option Time) : Value :=
  match p with Some t => VTime t | None => VNull end.

(** [settleVal]: the term as an integer, [nil] when it is empty or
    [strconv.Atoi] fails. *)
Definition settleVal (d : ForexData) : option Z :=
  if bool_decide (Plazo d <> "") then Strconv.Atoi (Plazo d) else None.

(** [settleDateVal]: the settlement date, [nil] when the field is
    empty, is "0001-01-01T00:00:00", or does not parse. *)
Definition settleDateVal (d : ForexData) : option Time :=
  if bool_decide (FechaLiquidacion d <> "")
     && bool_decide (FechaLiquidacion d <> "0001-01-01T00:00:00")
  then Parse "2006-01-02T15:04:05" (FechaLiquidacion d)
  else None.

(** The arguments of the [conn.Exec] call for record [d] with parsed
    date [fecha], in the order they are passed. *)
Definition execArgs (fecha : Time) (d : ForexData) : list Value :=
  let currencyOut := deriveCurrencyOut (Ticker d) in
  let currencyIn := deriveCurrencyIn (Moneda d) in
  let rueda := deriveRueda (Segmento d) in
  let instrumento := buildInstrumento currencyOut currencyIn (Plazo d) in
  [ VTime fecha;
    VText rueda;
    VText instrumento;
    VText currencyOut;
    VText currencyIn;
    ptrInt (settleVal d);
    ptrTime (settleDateVal d);
    VInt (VolumenAcumulado d);
    VFloat (PrecioCierre d);
    VNull;
    VText (Descripcion d);
    VText (TipoEmision d);
    VText (CodigoSegmento d);
    VText (CodigoPlazo d);
    VText (Moneda d);
    VFloat (MontoAcumulado d);
    VFloat (PrecioUltimo d);
    VFloat (UltimaTasa d);
    VFloat (PrecioCierreAnterior d);
    VFloat (PrecioMinimo d);
    VFloat (PrecioMaximo d);
    VInt (OpenInterest d);
    VFloat (Variacion d) ].

(** The two counters of the loop. *)
Record Counters := mkCounters { successfulInserts : nat; skipped : nat }.

(** One iteration of [for _, d := range data]. *)
Definition loopBody (env : Env) (conn : Db) (lastDate : Time)
           (st : Counters * World) (d : ForexData) : Counters * World :=
  let '(n, w) := st in
  match Parse "2006-01-02T15:04:05" (Fecha d) with
  | None => st                                               (* continue *)
  | Some fecha =>
      if negb (IsZero lastDate) && negb (After fecha lastDate)
      then (mkCounters (successfulInserts n) (S (skipped n)), w)   (* continue *)
      else
        let '(ok, w') := Exec env conn insertCols (execArgs fecha d) w in
        if ok then (mkCounters (S (successfulInserts n)) (skipped n), w')
        else (n, w')
  end.

(** What [saveToDatabase] reports before it returns. *)
Inductive Report :=
| NoData                     (* "No data to save." *)
| PrepareFailed
| Loaded (n : Counters).     (* "Skipped ..." / "Inserted ..." *)

Definition saveToDatabase (env : Env) (data : list ForexData) : M Report :=
  if bool_decide (length data = 0%nat) then ret NoData
  else
    c <- Connect env Local ;;
    match c with
    | None => fatal
    | Some conn =>
        defer (Close conn) (fun w =>
          let lastDate := default zero (scanMaxDate env conn w) in
          if negb (Prepare env conn) then Ok PrepareFailed w
          else
            let '(n, w') :=
              foldl (loopBody env conn lastDate) (mkCounters 0 0, w) data in
            Ok (Loaded n) w')
    end.

Definition main (env : Env) (apiKey : string)
           (response : option (list ForexData)) : M unit :=
  forexData <- fetchForexData apiKey response ;;
  match forexData with
  | Some data => _ <- saveToDatabase env data ;; ret tt
  | None => ret tt
  end.

End Current.

(* ===================================================================== *)
(** * The historical backfill *)
(* ===================================================================== *)

Module Historico.
Import GoTime Proc.

(** [type ForexDetail struct]: one record within a date group. *)
Record ForexDetail := mkForexDetail {
  Fecha : string;
  Ticker : string;
  Descripcion : string;
  Moneda : string;
  Plazo : string;
  CodigoPlazo : string;
  Segmento : string;
  CodigoSegmento : string;
  Volumen : float64;
  Monto : float64;
  Minimo : float64;
  Maximo : float64;
  Ultimo : float64;
  Variacion : float64;
  TipoEmision : string;
  PrecioCierre : float64;
  FechaLiquidacion : string;
  UltimaTasa : float64;
  CierreAnterior : float64;
  OpenInterest : Z
}.

(** [type HistoricoResponse struct]: a date group of the response. *)
Record HistoricoResponse := mkHistoricoResponse {
  day_Fecha : string;
  day_Volumen : float64;
  Details : list ForexDetail
}.

Definition deriveCurrencyOut (ticker : string) : string :=
  Strings.TrimSuffix ticker "$T".

Definition deriveCurrencyIn (moneda : string) : string :=
  if bool_decide (moneda = "T") then "ART" else moneda.

Definition deriveRueda (segmento : string) : string :=
  if bool_decide (segmento = "Minorista") then "CAM2"
  else if bool_decide (segmento = "Mayorista") then "CAM1"
  else segmento.

Definition buildInstrumento (currencyOut currencyIn plazo : string) : string :=
  currencyOut +:+ " / " +:+ currencyIn +:+ " " +:+ plazo.

(** [getLastDate]: the scanned date, or [time.Time{}] when the query
    fails. *)
Definition getLastDate (env : Env) (conn : Db) (w : World) : Time :=
  match scanMaxDateOr1900 env conn w with
  | Some lastDate => lastDate
  | None => zero
  end.

(** [fetchHistoricoForex]: one GET with the range as its parameter;
    [nil] ([None]) when the request fails, the status is not 200 or the
    body does not decode. *)
Definition fetchHistoricoForex
           (api : Time -> Time -> option (list HistoricoResponse))
           (desde hasta : Time) : M (option (list HistoricoResponse)) :=
  fun w => Ok (api desde hasta)
              (mkWorld (table w) (open_conns w) (exec_log w)
                       (api_log w ++ [(desde, hasta)])).

(** The columns of the prepared INSERT, in the order of its
    placeholders. *)
Definition insertCols : list string :=
  ["date"; "rueda"; "instrumento"; "currency_out"; "currency_in"; "settle";
   "settle_date";
   "monto"; "cotizacion"; "hora";
   "descripcion"; "tipo_emision"; "codigo_segmento"; "codigo_plazo"; "moneda";
   "precio_ultimo"; "ultima_tasa"; "precio_cierre_anterior";
   "precio_minimo"; "precio_maximo"; "open_interest"; "variacion";
   "monto_acumulado"].

Definition settleVal (d : ForexDetail) : option Z :=
  if bool_decide (Plazo d <> "") then Strconv.Atoi (Plazo d) else None.

Definition settleDateVal (d : ForexDetail) : option Time :=
  if bool_decide (FechaLiquidacion d <> "")
     && bool_decide (FechaLiquidacion d <> "0001-01-01T00:00:00")
  then Parse "2006-01-02T15:04:05" (FechaLiquidacion d)
  else None.

(** The arguments of the [conn.Exec] call, in the order passed. *)
Definition execArgs (fecha : Time) (d : ForexDetail) : list Value :=
  let currencyOut := deriveCurrencyOut (Ticker d) in
  let currencyIn := deriveCurrencyIn (Moneda d) in
  let rueda := deriveRueda (Segmento d) in
  let instrumento := buildInstrumento currencyOut currencyIn (Plazo d) in
  [ VTime fecha;
    VText rueda;
    VText instrumento;
    VText currencyOut;
    VText currencyIn;
    Current.ptrInt (settleVal d);
    Current.ptrTime (settleDateVal d);
    VFloat (Volumen d);
    VFloat (PrecioCierre d);
    VNull;
    VText (Descripcion d);
    VText (TipoEmision d);
    VText (CodigoSegmento d);
    VText (CodigoPlazo d);
    VText (Moneda d);
    VFloat (Ultimo d);
    VFloat (UltimaTasa d);
    VFloat (CierreAnterior d);
    VFloat (Minimo d);
    VFloat (Maximo d);
    VInt (OpenInterest d);
    VFloat (Variacion d);
    VFloat (Monto d) ].

(** One iteration of the inner loop [for _, d := range day.Details]. *)
Definition detailBody (env : Env) (conn : Db)
           (st : nat * World) (d : ForexDetail) : nat * World :=
  let '(inserted, w) := st in
  match Parse "2006-01-02T15:04:05" (Fecha d) with
  | None => st                                               (* continue *)
  | Some fecha =>
      let '(ok, w') := Exec env conn insertCols (execArgs fecha d) w in
      if ok then (S inserted, w') else (inserted, w')
  end.

(** [insertData]: the number of rows inserted. *)
Definition insertData (env : Env) (conn : Db)
           (data : list HistoricoResponse) (w : World) : nat * World :=
  if negb (Prepare env conn) then (0%nat, w)
  else
    foldl (fun st day => foldl (detailBody env conn) st (Details day))
          (0%nat, w) data.

(** What [main] prints before it returns. *)
Inductive Report :=
| UpToDate                 (* "Database is up to date. Nothing to do." *)
| FetchFailed              (* "Data fetching failed." *)
| NoNewData                (* "No new data to insert." *)
| Inserted (n : nat).      (* "Inserted %d rows into forex table." *)

(** [connectDB]: [log.Fatalf] when the connection fails. *)
Definition connectDB (env : Env) : M Db :=
  c <- Connect env Local ;;
  match c with
  | None => fatal
  | Some conn => ret conn
  end.

Definition main (env : Env)
           (api : Time -> Time -> option (list HistoricoResponse)) : M Report :=
  conn <- connectDB env ;;
  defer (Close conn) (fun w =>
    let today := Truncate (now env) (24 * Hour) in
    let lastDate := getLastDate env conn w in
    if negb (IsZero lastDate) && negb (Before lastDate today)
    then Ok UpToDate w
    else
      let fechaDesde :=
        if IsZero lastDate then today else AddDays lastDate 1 in
      let fechaHasta := today in
      (data <- fetchHistoricoForex api fechaDesde fechaHasta ;;
       match data with
       | None => ret FetchFailed
       | Some data =>
           let totalDetails :=
             foldl (fun n day => (n + length (Details day))%nat) 0%nat data in
           if bool_decide (totalDetails = 0%nat) then ret NoNewData
           else fun w1 =>
                  let '(inserted, w2) := insertData env conn data w1 in
                  Ok (Inserted inserted) w2
       end) w).

End Historico.

(* ===================================================================== *)
(** * The local -> cloud copy *)
(* ===================================================================== *)

Module Sync.
Import GoTime Proc.

(** The column list of the SELECT, and of the INSERT. *)
Definition selectCols : list string :=
  ["date"; "rueda"; "instrumento"; "currency_out"; "currency_in"; "settle";
   "settle_date";
   "monto"; "cotizacion"; "hora"; "descripcion"; "tipo_emision";
   "codigo_segmento";
   "codigo_plazo"; "moneda"; "monto_acumulado"; "precio_ultimo"; "ultima_tasa";
   "precio_cierre_anterior"; "precio_minimo"; "precio_maximo"; "open_interest";
   "variacion"].

Definition insertCols : list string :=
  ["date"; "rueda"; "instrumento"; "currency_out"; "currency_in"; "settle";
   "settle_date";
   "monto"; "cotizacion"; "hora"; "descripcion"; "tipo_emision";
   "codigo_segmento";
   "codigo_plazo"; "moneda"; "monto_acumulado"; "precio_ultimo"; "ultima_tasa";
   "precio_cierre_anterior"; "precio_minimo"; "precio_maximo"; "open_interest";
   "variacion"].

(** [WHERE date > $1]. *)
Definition newer (cutoff : Time) (r : Row) : bool :=
  match rowDate r with
  | Some t => cutoff <? t
  | None => false
  end.

(** [ORDER BY date]. *)
Definition dateLe (r1 r2 : Row) : Prop :=
  default 0 (rowDate r1) <= default 0 (rowDate r2).

#[global] Instance dateLe_dec : RelDecision dateLe.
Proof. intros r1 r2. unfold dateLe. apply _. Defined.

(** [localConn.Query(ctx, query, lastDate)]: the result set, one tuple
    per row in the order of [selectCols], or an error. *)
Definition Query (env : Env) (conn : Db) (lastDate : Time) (w : World)
  : option (list (list Value)) :=
  if select_ok env
  then Some ((fun r => col r <$> selectCols)
               <$> merge_sort dateLe (List.filter (newer lastDate) (table w conn)))
  else None.

(** A destination of [rows.Scan]: a plain variable cannot take NULL, a
    pointer can. *)
Inductive Dest := Plain (var : string) | Pointer (var : string).

Definition destVar (d : Dest) : string :=
  match d with Plain v => v | Pointer v => v end.

Definition destTakes (d : Dest) (v : Value) : bool :=
  match d, v with
  | Plain _, VNull => false
  | _, _ => true
  end.

(** [rows.Scan(dests...)]: the local variables after the scan, or an
    error. *)
Definition Scan (dests : list Dest) (tuple : list Value)
  : option (gmap string Value) :=
  if bool_decide (length dests = length tuple)
     && forallb (fun dv => destTakes dv.1 dv.2) (zip dests tuple)
  then Some (list_to_map (zip (destVar <$> dests) tuple))
  else None.

(** The destinations of the [rows.Scan] call. *)
Definition scanDests : list Dest :=
  [Plain "date"; Pointer "rueda"; Pointer "instrumento"; Pointer "currencyOut";
   Pointer "currencyIn";
   Pointer "settle"; Pointer "settleDate"; Pointer "monto"; Pointer "cotizacion";
   Pointer "hora";
   Pointer "descripcion"; Pointer "tipoEmision"; Pointer "codigoSegmento";
   Pointer "codigoPlazo"; Pointer "moneda";
   Pointer "montoAcumulado"; Pointer "precioUltimo"; Pointer "ultimaTasa";
   Pointer "precioCierreAnterior"; Pointer "precioMinimo"; Pointer "precioMaximo";
   Pointer "openInterest"; Pointer "variacion"].

(** The variables passed to [cloudConn.Exec], in order. *)
Definition execVars : list string :=
  ["date"; "rueda"; "instrumento"; "currencyOut"; "currencyIn";
   "settle"; "settleDate"; "monto"; "cotizacion"; "hora";
   "descripcion"; "tipoEmision"; "codigoSegmento"; "codigoPlazo"; "moneda";
   "montoAcumulado"; "precioUltimo"; "ultimaTasa";
   "precioCierreAnterior"; "precioMinimo"; "precioMaximo";
   "openInterest"; "variacion"].

Definition execArgs (locals : gmap string Value) : list Value :=
  (fun v => default VNull (locals !! v)) <$> execVars.

(** One iteration of [for rows.Next()]. *)
Definition rowBody (env : Env) (cloudConn : Db)
           (st : nat * World) (tuple : list Value) : nat * World :=
  let '(inserted, w) := st in
  match Scan scanDests tuple with
  | None => st                                               (* continue *)
  | Some locals =>
      let '(ok, w') := Exec env cloudConn insertCols (execArgs locals) w in
      if ok then (S inserted, w') else (inserted, w')
  end.

(** [connectDB]: [log.Fatalf] when the connection fails. *)
Definition connectDB (env : Env) (db : Db) : M Db :=
  c <- Connect env db ;;
  match c with
  | None => fatal
  | Some conn => ret conn
  end.

(** [main]: the number of rows synced. *)
Definition main (env : Env) : M nat :=
  localConn <- connectDB env Local ;;
  defer (Close localConn) (
    cloudConn <- connectDB env Cloud ;;
    defer (Close cloudConn) (fun w =>
      match scanMaxDateOr1900 env cloudConn w with
      | None => Fatal w
      | Some lastDate =>
          match Query env localConn lastDate w with
          | None => Fatal w
          | Some rows =>
              (* defer rows.Close() *)
              if negb (Prepare env cloudConn) then Fatal w
              else
                let '(inserted, w') :=
                  foldl (rowBody env cloudConn) (0%nat, w) rows in
                Ok inserted w'
          end
      end)).

End Sync.

(* ===================================================================== *)
(** * The legacy scraper *)
(* ===================================================================== *)

Module Legacy.
Import GoTime Proc.

(** One row of the DataFrame [fetchForexData] builds: what
    [df.Col(name).Val(i)] returns for each column ([VNull] for a missing
    element); the [date] column always holds a string. *)
Record FrameRow := mkFrameRow {
  df_date : string;
  df_rueda : Value;
  df_instrumento : Value;
  df_currency_out : Value;
  df_currency_in : Value;
  df_settle : Value;
  df_settle_date : Value;
  df_monto : Value;
  df_cotizacion : Value;
  df_hora : Value
}.

(** [v.(string)] with the comma-ok form. *)
Definition asString (v : Value) : string * bool :=
  match v with
  | VText s => (s, true)
  | _ => ("", false)
  end.

Definition insertCols : list string :=
  ["date"; "rueda"; "instrumento"; "currency_out"; "currency_in"; "settle";
   "settle_date"; "monto"; "cotizacion"; "hora"].

(** [settleVal]: an [int] or [nil]. *)
Definition settleVal (r : FrameRow) : Value :=
  let '(settleStr, settleOk) := asString (df_settle r) in
  if settleOk && bool_decide (settleStr <> "") then
    match Strconv.Atoi settleStr with
    | None => VNull
    | Some settleInt => VInt settleInt
    end
  else VNull.

(** [settleDateVal]: a [time.Time] or [nil]. *)
Definition settleDateVal (r : FrameRow) : Value :=
  let '(settleDateStr, settleDateOk) := asString (df_settle_date r) in
  if settleDateOk && bool_decide (settleDateStr <> "") then
    match Parse "060102" settleDateStr with
    | None => VNull
    | Some settleDateTime => VTime settleDateTime
    end
  else VNull.

Definition rowValues (date : Time) (r : FrameRow) : list Value :=
  [ VTime date;
    df_rueda r;
    df_instrumento r;
    df_currency_out r;
    df_currency_in r;
    settleVal r;
    settleDateVal r;
    df_monto r;
    df_cotizacion r;
    df_hora r ].

(** One iteration of the first loop, which collects [rowsToInsert]. *)
Definition collectBody (lastDate : Time)
           (rowsToInsert : list (list Value)) (r : FrameRow)
  : list (list Value) :=
  match Parse "2006-01-02" (df_date r) with
  | None => rowsToInsert                                     (* continue *)
  | Some date =>
      if IsZero lastDate || After date lastDate
      then rowsToInsert ++ [rowValues date r]
      else rowsToInsert
  end.

(** One iteration of the second loop, which inserts. *)
Definition insertBody (env : Env) (conn : Db)
           (st : nat * World) (row : list Value) : nat * World :=
  let '(successfulInserts, w) := st in
  let '(ok, w') := Exec env conn insertCols row w in
  if ok then (S successfulInserts, w') else (successfulInserts, w').

Inductive Report :=
| NoData                   (* "No data to save." *)
| NoNewData                (* "No new data to insert." *)
| PrepareFailed
| InsertedRows (n : nat).  (* "Inserted %d rows into forex3 table." *)

Definition saveToDatabase (env : Env) (df : option (list FrameRow)) : M Report :=
  match df with
  | None | Some [] => ret NoData
  | Some rows =>
      c <- Connect env Local ;;
      match c with
      | None => fatal
      | Some conn =>
          defer (Close conn) (fun w =>
            let lastDate := default zero (scanMaxDate env conn w) in
            let rowsToInsert := foldl (collectBody lastDate) [] rows in
            if bool_decide (length rowsToInsert = 0%nat) then Ok NoNewData w
            else if negb (Prepare env conn) then Ok PrepareFailed w
            else
              let '(n, w') := foldl (insertBody env conn) (0%nat, w) rowsToInsert in
              Ok (InsertedRows n) w')
      end
  end.

Definition main (env : Env) (forexData : option (list FrameRow)) : M unit :=
  match forexData with
  | Some _ => _ <- saveToDatabase env forexData ;; ret tt
  | None => ret tt
  end.

End Legacy.

(* ===================================================================== *)
(** * Vocabulary of the statements *)
(* ===================================================================== *)

Module Spec.
Import GoTime Proc.

(** The table after the INSERTs with arguments [argss] are executed in
    order: each row is appended when its argument count matches the
    column list and the server accepts it. *)
Definition store (env : Env) (conn : Db) (cols : list string)
           (tbl : list Row) (argss : list (list Value)) : list Row :=
  foldl (fun t args =>
           if bool_decide (length cols = length args)
              && accepts env conn t (insertedRow cols args)
           then t ++ [insertedRow cols args] else t)
        tbl argss.

(** [Exec] on each argument list in turn, counting the successes. *)
Definition execCount (env : Env) (conn : Db) (cols : list string)
           (st : nat * World) (args : list Value) : nat * World :=
  let '(ok, w') := Exec env conn cols args st.2 in
  (if ok then S st.1 else st.1, w').

Definition execAll (env : Env) (conn : Db) (cols : list string)
           (st : nat * World) (argss : list (list Value)) : nat * World :=
  foldl (execCount env conn cols) st argss.

(** The incremental load as the specification words it: a record is
    inserted when its date parses and is strictly greater than the
    table's maximum stored date; with no stored date every record whose
    date parses qualifies. *)
Definition newerThan (cutoff : option Time) (fecha : Time) : bool :=
  match cutoff with
  | None => true
  | Some c => bool_decide (c < fecha)
  end.

Definition currentSelected (cutoff : option Time) (d : Current.ForexData)
  : option (list Value) :=
  match Parse "2006-01-02T15:04:05" (Current.Fecha d) with
  | Some fecha =>
      if newerThan cutoff fecha then Some (Current.execArgs fecha d) else None
  | None => None
  end.

Definition legacySelected (cutoff : option Time) (r : Legacy.FrameRow)
  : option (list Value) :=
  match Parse "2006-01-02" (Legacy.df_date r) with
  | Some date =>
      if newerThan cutoff date then Some (Legacy.rowValues date r) else None
  | None => None
  end.

(** The records of a batch that the cut-off leaves out. *)
Definition currentStale (cutoff : option Time) (d : Current.ForexData) : bool :=
  match Parse "2006-01-02T15:04:05" (Current.Fecha d) with
  | Some fecha => negb (newerThan cutoff fecha)
  | None => false
  end.

(** The cut-off the code works with: the scanned date, where the zero
    time stands for "none". *)
Definition codeCutoff (lastDate : Time) : option Time :=
  if IsZero lastDate then None else Some lastDate.

(** The world right after [pgx.Connect] succeeds. *)
Definition connected (db : Db) (w : World) : World :=
  mkWorld (table w) (db :: open_conns w) (exec_log w) (api_log w).

(** The cut-off the load compares with: the stored maximum, except that
    a maximum equal to the zero time, like an empty table or a failed
    query, leaves [lastDate] zero, which the code reads as "none". *)
Definition effectiveCutoff (env : Env) (w : World) : option Time :=
  codeCutoff (default zero (scanMaxDate env Local w)).

(** What "the load inserts exactly the records [sel]" means for a run
    from world [w] to world [w']: one INSERT is executed per element of
    [sel], in order and no other; each row is stored unless the server
    rejects it; so when the server accepts every row, the table grows by
    exactly those rows. *)
Definition loads (env : Env) (db : Db) (cols : list string) (w w' : World)
           (sel : list (list Value)) : Prop :=
  exec_log w' = exec_log w ++ ((fun a => (db, a)) <$> sel)
  /\ table w' db = store env db cols (table w db) sel
  /\ ((forall t r, accepts env db t r = true) ->
      table w' db = table w db ++ (insertedRow cols <$> sel)).

(** The world in which the backfill has sent its request. *)
Definition requested (desde hasta : Time) (w : World) : World :=
  mkWorld (table w) (open_conns w) (exec_log w) (api_log w ++ [(desde, hasta)]).

(** The cut-off of the copy: the destination's maximum date, 1900-01-01
    when it has none. *)
Definition syncCutoff (w : World) : Time :=
  default (Date 1900 1 1 0 0 0 0) (maxDate (table w Cloud)).

(** What the copy job does for a cut-off: it reads exactly the source
    rows dated strictly after the cut-off, in ascending date order, and
    executes one INSERT on the destination per row read, with the values
    of the row's columns as read. *)
Definition syncCopies (env : Env) (w w' : World) (cutoff : Time) : Prop :=
  let rows := merge_sort Sync.dateLe
                         (List.filter (Sync.newer cutoff) (table w Local)) in
  rows ≡ₚ List.filter (Sync.newer cutoff) (table w Local)
  /\ Sorted Sync.dateLe rows
  /\ loads env Cloud Sync.insertCols w w'
            ((fun r => col r <$> Sync.selectCols) <$> rows).

(** The backfill's insertion pass as the code has it: every detail
    record whose date parses. *)
Definition historicoAttempt (d : Historico.ForexDetail) : option (list Value) :=
  match Parse "2006-01-02T15:04:05" (Historico.Fecha d) with
  | Some fecha => Some (Historico.execArgs fecha d)
  | None => None
  end.

(** All detail records of a response, day after day. *)
Definition allDetails (data : list Historico.HistoricoResponse)
  : list Historico.ForexDetail :=
  concat (Historico.Details <$> data).

End Spec.

(* ===================================================================== *)
(** * Sample runs *)
(* ===================================================================== *)

Module Samples.
Import GoTime Proc.

(** A run started on 2024-11-13 at 10:30 UTC in which every request
    succeeds and every row is accepted. *)
Definition env : Env :=
  mkEnv (Date 2024 11 13 10 30 0 0) (fun _ => true) true true true
        (fun _ _ _ => true).

(** The same run when the cloud server refuses the connection. *)
Definition envCloudDown : Env :=
  mkEnv (Date 2024 11 13 10 30 0 0) (fun db => bool_decide (db = Local))
        true true true (fun _ _ _ => true).

(** The same run when the last-date query fails. *)
Definition envQueryDown : Env :=
  mkEnv (Date 2024 11 13 10 30 0 0) (fun _ => true) false true true
        (fun _ _ _ => true).

(** A world with the given tables, no connection open and empty
    traces. *)
Definition world (local cloud : list Row) : World :=
  mkWorld (fun db => match db with Local => local | Cloud => cloud end)
          [] [] [].

(** A record of the current-quotes API. *)
Definition quote (fecha ticker plazo fechaLiquidacion : string)
  : Current.ForexData :=
  Current.mkForexData fecha ticker "DOLAR" "FX" "Mayorista" "2" plazo "0" "T"
                      fechaLiquidacion 100 0 0 0 0 0 0 0 0 0.

(** A detail record of the history API. *)
Definition detail (fecha ticker plazo fechaLiquidacion : string)
  : Historico.ForexDetail :=
  Historico.mkForexDetail fecha ticker "DOLAR" "T" plazo "0" "Mayorista" "2"
                          0 0 0 0 0 0 "FX" 0 fechaLiquidacion 0 0 0.

(** A row of the legacy DataFrame. *)
Definition frameRow (date : string) (settle settle_date : Value)
  : Legacy.FrameRow :=
  Legacy.mkFrameRow date (VText "CAM1") (VText "USD / ART 000 241115")
                    (VText "USD") (VText "ART") settle settle_date
                    (VFloat 0) (VFloat 0) (VText "15:00:00").

(** A stored row of public.forex dated [t]. *)
Definition storedOn (t : Time) : Row :=
  insertedRow Current.insertCols
              (Current.execArgs t (quote "" "USB$T" "000" "")).

Definition day (y m d : Z) : Time := Date y m d 0 0 0 0.

End Samples.

(* ===================================================================== *)
(** * Go's [time.Format] and the clock layout *)
(* ===================================================================== *)

Module GoTimeFormat.
Import GoTime.

(** The civil date (year, month, day) of an instant, in UTC. *)
Definition civil (t : Time) : Z * Z * Z :=
  let z := t / nsPerDay + 306 in          (* days since March 1 of year 0 *)
  let era := z / 146097 in
  let doe := z - era * 146097 in
  let yoe := (doe - doe / 1460 + doe / 36524 - doe / 146096) / 365 in
  let doy := doe - (365 * yoe + yoe / 4 - yoe / 100) in
  let mp := (5 * doy + 2) / 153 in
  let d := doy - (153 * mp + 2) / 5 + 1 in
  let m := if mp <? 10 then mp + 3 else mp - 9 in
  let y := yoe + era * 400 + (if m <=? 2 then 1 else 0) in
  (y, m, d).

(** The clock (hour, minute, second) of an instant, in UTC. *)
Definition clock (t : Time) : Z * Z * Z :=
  let s := (t / nsPerSecond) mod 86400 in
  (s / 3600, (s mod 3600) / 60, s mod 60).

Definition digitChar (d : Z) : ascii :=
  Ascii.ascii_of_N (Z.to_N (48 + d)).

(** The decimal digits of [n >= 0], most significant first. *)
Fixpoint decimal (fuel : nat) (n : Z) (acc : string) : string :=
  match fuel with
  | O => acc
  | S fuel' =>
      let acc' := String (digitChar (n mod 10)) acc in
      if n <? 10 then acc' else decimal fuel' (n / 10) acc'
  end.

Fixpoint zeros (k : nat) (s : string) : string :=
  match k with
  | O => s
  | S k' => String "0" (zeros k' s)
  end.

(** [appendInt(b, x, width)]: a minus sign for a negative [x], then its
    decimal digits padded with zeros to [width]. *)
Definition appendInt (x : Z) (width : nat) : string :=
  let ds := decimal 20 (Z.abs x) "" in
  let padded := zeros (width - String.length ds) ds in
  if x <? 0 then String "-" padded else padded.

Definition formatChunk (ch : chunk) (t : Time) : string :=
  let '(year, month, day) := civil t in
  let '(hour, min, sec) := clock t in
  match ch with
  | Lit c => String c ""
  | stdLongYear => appendInt year 4
  | stdYear => appendInt (Z.abs year mod 100) 2
  | stdZeroMonth => appendInt month 2
  | stdZeroDay => appendInt day 2
  | stdHour => appendInt hour 2
  | stdZeroMinute => appendInt min 2
  | stdZeroSecond => appendInt sec 2
  end.

(** The layouts the jobs use, with the clock layout "15:04:05". *)
Definition layoutChunks (layout : string) : option (list chunk) :=
  if bool_decide (layout = "15:04:05") then
    Some [stdHour; Lit ":"; stdZeroMinute; Lit ":"; stdZeroSecond]
  else GoTime.layoutChunks layout.

(** [t.Format(layout)]. *)
Definition Format (layout : string) (t : Time) : string :=
  match layoutChunks layout with
  | Some chs => foldr (fun ch acc => formatChunk ch t +:+ acc) "" chs
  | None => ""
  end.

(** [time.Parse(layout, value)], as [GoTime.Parse] with the clock
    layout added. *)
Definition Parse (layout value : string) : option Time :=
  match layoutChunks layout with
  | None => None
  | Some chs =>
      match parseChunks chs fields0 value with
      | Some (f, EmptyString) =>
          let month := if f_month f <? 0 then 1 else f_month f in
          let day := if f_day f <? 0 then 1 else f_day f in
          if (day <? 1) || (daysIn month (f_year f) <? day) then None
          else Some (Date (f_year f) month day
                       (f_hour f) (f_min f) (f_sec f) (f_nsec f))
      | _ => None
      end
  end.

End GoTimeFormat.

(* ===================================================================== *)
(** * The regular expression of the legacy scraper *)
(* ===================================================================== *)

Module Regexp.

(** The pieces the pattern is made of: a literal byte, and a greedy
    repetition [c{lo,hi}] of a character class ([hi = None]: unbounded),
    possibly a capture group. *)
Inductive atom :=
| Lit (c : ascii)
| Rep (cls : ascii -> bool) (lo : nat) (hi : option nat) (capture : bool).

Definition upper (c : ascii) : bool :=
  let n := Ascii.N_of_ascii c in ((65 <=? n) && (n <=? 90))%N.
Definition digit (c : ascii) : bool :=
  let n := Ascii.N_of_ascii c in ((48 <=? n) && (n <=? 57))%N.
(** [\s]: tab, line feed, form feed, carriage return, space. *)
Definition space (c : ascii) : bool :=
  let n := Ascii.N_of_ascii c in
  ((n =? 9) || (n =? 10) || (n =? 12) || (n =? 13) || (n =? 32))%N.

(** The length of the leading run of [cls] bytes of [s], at most [hi]. *)
Fixpoint run (cls : ascii -> bool) (hi : option nat) (s : string) : nat :=
  match hi with
  | Some O => O
  | _ =>
      match s with
      | String c s' =>
          if cls c then S (run cls (pred <$> hi) s') else O
      | EmptyString => O
      end
  end.

Fixpoint dropS (k : nat) (s : string) : string :=
  match k, s with
  | S k', String _ s' => dropS k' s'
  | _, _ => s
  end.

Fixpoint takeS (k : nat) (s : string) : string :=
  match k, s with
  | S k', String c s' => String c (takeS k' s')
  | _, _ => EmptyString
  end.

(** The first [k] among [lo + n], [lo + n - 1], ..., [lo] for which [f]
    succeeds: a greedy repetition gives back one byte at a time. *)
Fixpoint tryDown {A} (f : nat -> option A) (lo n : nat) : option A :=
  match f (lo + n)%nat with
  | Some r => Some r
  | None =>
      match n with
      | O => None
      | S n' => tryDown f lo n'
      end
  end.

(** A match of the atoms at the head of [s], in the order a backtracking
    matcher finds it: the captures, in order. *)
Fixpoint matchHere (atoms : list atom) (s : string) : option (list string) :=
  match atoms with
  | [] => Some []
  | Lit c :: rest =>
      match s with
      | String c' s' => if bool_decide (c = c') then matchHere rest s' else None
      | EmptyString => None
      end
  | Rep cls lo hi capture :: rest =>
      let n := run cls hi s in
      if (n <? lo)%nat then None
      else tryDown (fun k =>
                      match matchHere rest (dropS k s) with
                      | Some caps =>
                          Some (if capture then takeS k s :: caps else caps)
                      | None => None
                      end) lo (n - lo)
  end.

(** The leftmost match: the first start position at which the atoms
    match. *)
Fixpoint find (atoms : list atom) (s : string) : option (list string) :=
  match matchHere atoms s with
  | Some caps => Some caps
  | None =>
      match s with
      | String _ s' => find atoms s'
      | EmptyString => None
      end
  end.

End Regexp.

(* ===================================================================== *)
(** * The legacy scraper: from the API response to the DataFrame *)
(* ===================================================================== *)

Module LegacyFetch.
Import GoTime Proc.

(** [type ForexData struct]: one element of the response's [data]. *)
Record ForexData := mkForexData {
  Fecha : string;
  Titulo : string;
  Rueda : string;
  Monto : string;
  Cotizacion : float64;
  Hora : string
}.

(** The pattern
    [(?P<currency_out>[A-Z]+)\s*/\s*(?P<currency_in>[A-Z]+)\s*(?P<settle>\d+)\s*(?P<settle_date>\d{6})]. *)
Definition pattern : list Regexp.atom :=
  [ Regexp.Rep Regexp.upper 1 None true;
    Regexp.Rep Regexp.space 0 None false;
    Regexp.Lit "/";
    Regexp.Rep Regexp.space 0 None false;
    Regexp.Rep Regexp.upper 1 None true;
    Regexp.Rep Regexp.space 0 None false;
    Regexp.Rep Regexp.digit 1 None true;
    Regexp.Rep Regexp.space 0 None false;
    Regexp.Rep Regexp.digit 6 (Some 6%nat) true ].

(** [pattern.FindStringSubmatch(titulo)] without the whole match: the
    four groups, or [None] when there is no match. *)
Definition FindStringSubmatch (titulo : string) : option (list string) :=
  Regexp.find pattern titulo.

(** The date column: 'yymmdd' rewritten as 'yyyy-mm-dd', the empty
    string for a date that does not parse. *)
Definition processFecha (fecha : string) : string :=
  match GoTimeFormat.Parse "060102" fecha with
  | None => ""
  | Some t => GoTimeFormat.Format "2006-01-02" t
  end.

(** The hour column: 'HH:MM:SS', "00:00:00" for one that does not
    parse. *)
Definition processHora (hora : string) : string :=
  match GoTimeFormat.Parse "15:04:05" hora with
  | None => "00:00:00"
  | Some t => GoTimeFormat.Format "15:04:05" t
  end.

(** [strings.ReplaceAll(monto, ",", "")]. *)
Fixpoint removeCommas (s : string) : string :=
  match s with
  | EmptyString => EmptyString
  | String c s' =>
      if bool_decide (c = ","%char) then removeCommas s'
      else String c (removeCommas s')
  end.

(** A string element of a gota series: the string "NaN" is a missing
    value, for which [Val] returns [nil]. *)
Definition stringCell (s : string) : Value :=
  if bool_decide (s = "NaN") then VNull else VText s.

(** A float element of a gota series: a NaN is a missing value.  A
    [float64] is NaN when its exponent bits are all ones and its
    fraction is not zero. *)
Definition isNaN (x : float64) : bool :=
  (Z.land (Z.shiftr x 52) 2047 =? 2047) && negb (Z.land x (2 ^ 52 - 1) =? 0).

Definition floatCell (x : float64) : Value :=
  if isNaN x then VNull else VFloat x.

(** An element built from an [interface{}] that is a string or [nil]. *)
Definition groupCell (matches : option (list string)) (i : nat) : Value :=
  match matches with
  | Some [g1; g2; g3; g4] =>
      match [g1; g2; g3; g4] !! i with
      | Some g => stringCell g
      | None => VNull
      end
  | _ => VNull
  end.

Section fetch.
(** [strconv.ParseFloat(m, 64)], which the model does not compute. *)
Context (ParseFloat : string -> option float64).

(** The row of the processed DataFrame for one record. *)
Definition frameRow (d : ForexData) : Legacy.FrameRow :=
  let matches := FindStringSubmatch (Titulo d) in
  Legacy.mkFrameRow
    (processFecha (Fecha d))
    (stringCell (Rueda d))
    (stringCell (Titulo d))
    (groupCell matches 0)
    (groupCell matches 1)
    (groupCell matches 2)
    (groupCell matches 3)
    (floatCell (default 0 (ParseFloat (removeCommas (Monto d)))))
    (floatCell (Cotizacion d))
    (stringCell (processHora (Hora d))).

(** [fetchForexData]: [nil] when the request fails, the status is not
    200, the body does not decode or [data] is empty; otherwise the
    processed DataFrame. *)
Definition fetchForexData (response : option (list ForexData))
  : option (list Legacy.FrameRow) :=
  match response with
  | None | Some [] => None
  | Some data => Some (frameRow <$> data)
  end.

(** [main]: fetch, then save. *)
Definition main (env : Env) (response : option (list ForexData)) : M unit :=
  Legacy.main env (fetchForexData response).

End fetch.

End LegacyFetch.

(* ===================================================================== *)
(** * Checks by enumeration *)
(* ===================================================================== *)

Module Enumerate.
Import GoTime.

(** [civil] inverts [Date] at the date [y]-[m]-[d]. *)
Definition civilOK (y m d : Z) : bool :=
  if d <=? daysIn m y
  then (let '(y', m', d') := GoTimeFormat.civil (Date y m d 0 0 0 0) in
        (y' =? y) && (m' =? m) && (d' =? d))
  else true.

(** [appendInt n 2] is the two digits of [n]. *)
Definition twoDigitsOK (n : Z) : bool :=
  match GoTimeFormat.appendInt n 2 with
  | String c0 (String c1 EmptyString) =>
      bool_decide (Strconv.digit c0 = Some (n / 10))
      && bool_decide (Strconv.digit c1 = Some (n mod 10))
  | _ => false
  end.

(** [appendInt y 4] is the four digits of [y]. *)
Definition fourDigitsOK (y : Z) : bool :=
  match GoTimeFormat.appendInt y 4 with
  | String c0 (String c1 (String c2 (String c3 EmptyString))) =>
      match Strconv.digit c0, Strconv.digit c1,
            Strconv.digit c2, Strconv.digit c3 with
      | Some d0, Some d1, Some d2, Some d3 =>
          ((d0 * 10 + d1) * 10 + d2) * 10 + d3 =? y
      | _, _, _, _ => false
      end
  | _ => false
  end.

End Enumerate.

(* ===================================================================== *)
(** * Vocabulary of the statements on the legacy scraper *)
(* ===================================================================== *)

Module LegacySpec.
Import GoTime Proc.

(** Every byte of [s] is in the class [cls]. *)
Fixpoint allOf (cls : ascii -> bool) (s : string) : bool :=
  match s with
  | EmptyString => true
  | String c s' => cls c && allOf cls s'
  end.

(** [s] does not start with a byte of the class [cls]. *)
Definition headNot (cls : ascii -> bool) (s : string) : bool :=
  match s with
  | EmptyString => true
  | String c _ => negb (cls c)
  end.

(** One or more capital letters. *)
Definition isCurrency (s : string) : Prop :=
  allOf Regexp.upper s = true /\ s <> "".

(** One or more digits. *)
Definition isNumber (s : string) : Prop :=
  allOf Regexp.digit s = true /\ s <> "".

(** Exactly six digits. *)
Definition isDate6 (s : string) : Prop :=
  allOf Regexp.digit s = true /\ String.length s = 6%nat.

(** Zero or more blanks. *)
Definition isBlank (s : string) : Prop := allOf Regexp.space s = true.

(** The record of a response that the legacy job inserts for a cut-off:
    its 'yymmdd' date parses and is newer than the cut-off. *)
Definition selected (ParseFloat : string -> option float64)
           (cutoff : option Time) (d : LegacyFetch.ForexData)
  : option (list Value) :=
  match GoTimeFormat.Parse "060102" (LegacyFetch.Fecha d) with
  | Some date =>
      if Spec.newerThan cutoff date
      then Some (Legacy.rowValues date (LegacyFetch.frameRow ParseFloat d))
      else None
  | None => None
  end.

End LegacySpec.
(* ===================================================================== *)
(** * What each job executes, on every path *)
(* ===================================================================== *)

Module Trace.
Import GoTime Proc Spec.

(** The INSERTs the current scraper executes: none unless the key is
    set, the fetch returned records, the connection opened and the
    statement was prepared. *)
Definition current (env : Env) (apiKey : string)
           (response : option (list Current.ForexData)) (w : World)
  : list (list Value) :=
  match response with
  | Some data =>
      if negb (bool_decide (apiKey = ""))
         && connect_ok env Local && prepare_ok env
      then omap (currentSelected (effectiveCutoff env w)) data
      else []
  | None => []
  end.

(** The INSERTs the legacy scraper executes. *)
Definition legacy (env : Env) (forexData : option (list Legacy.FrameRow))
           (w : World) : list (list Value) :=
  match forexData with
  | Some rows =>
      if connect_ok env Local && prepare_ok env
      then omap (legacySelected (effectiveCutoff env w)) rows
      else []
  | None => []
  end.

(** The INSERTs the backfill executes. *)
Definition historico (env : Env)
           (api : Time -> Time -> option (list Historico.HistoricoResponse))
           (w : World) : list (list Value) :=
  let today := Truncate (now env) (24 * Hour) in
  let lastDate := Historico.getLastDate env Local w in
  let desde := if IsZero lastDate then today else AddDays lastDate 1 in
  if connect_ok env Local
     && negb (negb (IsZero lastDate) && negb (Before lastDate today))
     && prepare_ok env
  then match api desde today with
       | Some data => omap historicoAttempt (allDetails data)
       | None => []
       end
  else [].

(** The INSERTs the copy job executes on the destination. *)
Definition sync (env : Env) (w : World) : list (list Value) :=
  if connect_ok env Local && connect_ok env Cloud && last_date_ok env
     && select_ok env && prepare_ok env
  then (fun r => col r <$> Sync.selectCols)
         <$> merge_sort Sync.dateLe
               (List.filter (Sync.newer (syncCutoff w)) (table w Local))
  else [].

(** A run from [w] to [w'] that only executes the INSERTs [sel] on
    [db]: the trace grows by them, the table of [db] is what storing
    them gives, and the other table is as it was. *)
Definition onlyInserts (env : Env) (db : Db) (cols : list string)
           (w w' : World) (sel : list (list Value)) : Prop :=
  exec_log w' = exec_log w ++ ((fun a => (db, a)) <$> sel)
  /\ table w' db = store env db cols (table w db) sel
  /\ (forall db', db' <> db -> table w' db' = table w db').

(** The environment [env] with another acceptance behaviour of the
    servers. *)
Definition withAccepts (env : Env) (acc : Db -> list Row -> Row -> bool) : Env :=
  mkEnv (now env) (connect_ok env) (last_date_ok env) (select_ok env)
        (prepare_ok env) acc.

(** One step of the fold that computes [maxDate]. *)
Definition maxStep (acc : option Time) (r : Row) : option Time :=
  match rowDate r, acc with
  | Some d, Some m => Some (Z.max m d)
  | Some d, None => Some d
  | None, _ => acc
  end.

End Trace.

(* ===================================================================== *)
(** * Verification: the field derivation rules *)
(* ===================================================================== *)

Section string_facts.

Lemma length_append (a b : string) :
  String.length (a +:+ b) = (String.length a + String.length b)%nat.
Proof. induction a as [|c a IH]; simpl; [done | by rewrite IH]. Qed.

Lemma substring_0_all (s : string) :
  String.substring 0 (String.length s) s = s.
Proof. induction s as [|c s IH]; simpl; [done | by rewrite IH]. Qed.

Lemma substring_0_0 (s : string) : String.substring 0 0 s = "".
Proof. by destruct s. Qed.

Lemma substring_prefix (a b : string) :
  String.substring 0 (String.length a) (a +:+ b) = a.
Proof.
  induction a as [|c a IH]; simpl; [apply substring_0_0 | by rewrite IH].
Qed.

Lemma substring_suffix (a b : string) :
  String.substring (String.length a) (String.length b) (a +:+ b) = b.
Proof. induction a as [|c a IH]; simpl; [apply substring_0_all | done]. Qed.

(** A string is its first [n] bytes followed by the rest. *)
Lemma substring_split (s : string) (n : nat) :
  (n <= String.length s)%nat ->
  String.substring 0 n s +:+ String.substring n (String.length s - n) s = s.
Proof.
  revert n; induction s as [|c s IH]; intros [|n] Hn; simpl in *;
    try done; try lia.
  - by rewrite substring_0_all.
  - change (String c (String.substring 0 n s
                      +:+ String.substring n (String.length s - n) s)
            = String c s).
    rewrite IH; [done | lia].
Qed.

Lemma HasSuffix_append (a suffix : string) :
  Strings.HasSuffix (a +:+ suffix) suffix = true.
Proof.
  unfold Strings.HasSuffix, Strings.slice. rewrite length_append.
  replace (String.length a + String.length suffix - String.length suffix)%nat
    with (String.length a) by lia.
  replace (String.length a + String.length suffix - String.length a)%nat
    with (String.length suffix) by lia.
  rewrite substring_suffix.
  rewrite !bool_decide_eq_true_2; [done | done | lia].
Qed.

Lemma TrimSuffix_append (a suffix : string) :
  Strings.TrimSuffix (a +:+ suffix) suffix = a.
Proof.
  unfold Strings.TrimSuffix. rewrite HasSuffix_append.
  unfold Strings.slice. rewrite length_append.
  replace (String.length a + String.length suffix - String.length suffix - 0)%nat
    with (String.length a) by lia.
  apply substring_prefix.
Qed.

(** [HasSuffix] holds only of strings that end in the suffix. *)
Lemma HasSuffix_inv (s suffix : string) :
  Strings.HasSuffix s suffix = true -> exists p, s = p +:+ suffix.
Proof.
  unfold Strings.HasSuffix, Strings.slice. intros H.
  apply andb_true_iff in H as [Hlen Heq].
  apply bool_decide_eq_true in Hlen. apply bool_decide_eq_true in Heq.
  set (k := (String.length s - String.length suffix)%nat) in *.
  exists (String.substring 0 k s).
  transitivity (String.substring 0 k s
                +:+ String.substring k (String.length s - k) s).
  - symmetry. apply substring_split. lia.
  - by rewrite Heq.
Qed.

Lemma TrimSuffix_no_suffix (s suffix : string) :
  (forall p, s <> p +:+ suffix) -> Strings.TrimSuffix s suffix = s.
Proof.
  intros Hno. unfold Strings.TrimSuffix.
  destruct (Strings.HasSuffix s suffix) eqn:E; [| done].
  apply HasSuffix_inv in E as [p ->]. by destruct (Hno p).
Qed.

End string_facts.

(** C7.  For every ticker [T], [deriveCurrencyOut (T + "$T")] is [T], and
    [deriveCurrencyOut T] is [T] whenever [T] does not end in "$T" (there
    is no [p] with [T = p + "$T"]): the suffix is removed if present and
    the ticker is returned unchanged otherwise.  Both programs that
    define the function agree. *)
Theorem C7_deriveCurrencyOut_trims_suffix (T : string) :
  (Current.deriveCurrencyOut (T +:+ "$T") = T
   /\ Historico.deriveCurrencyOut (T +:+ "$T") = T)
  /\ ((forall p, T <> p +:+ "$T") ->
      Current.deriveCurrencyOut T = T /\ Historico.deriveCurrencyOut T = T).
Proof.
  unfold Current.deriveCurrencyOut, Historico.deriveCurrencyOut.
  split; [split; apply TrimSuffix_append |].
  intros Hno. split; by apply TrimSuffix_no_suffix.
Qed.

Lemma no_suffix_USMEP : forall p, "USMEP" <> p +:+ "$T".
Proof.
  intros p Hp.
  assert (Hs : Strings.HasSuffix "USMEP" "$T" = true)
    by (rewrite Hp; apply HasSuffix_append).
  vm_compute in Hs. discriminate.
Qed.

Lemma C7_deriveCurrencyOut_witness :
  (Current.deriveCurrencyOut ("USB" +:+ "$T") = "USB"
   /\ Historico.deriveCurrencyOut ("USB" +:+ "$T") = "USB")
  /\ Current.deriveCurrencyOut "USMEP" = "USMEP"
  /\ Historico.deriveCurrencyOut "USMEP" = "USMEP".
Proof.
  split.
  - exact (proj1 (C7_deriveCurrencyOut_trims_suffix "USB")).
  - exact (proj2 (C7_deriveCurrencyOut_trims_suffix "USMEP") no_suffix_USMEP).
Defined.

(* ===================================================================== *)
(** * Verification: executing INSERTs *)
(* ===================================================================== *)

Section exec_facts.
Import GoTime Proc Spec.
Context (env : Env) (conn : Db) (cols : list string).

Lemma Exec_exec_log args w :
  exec_log (Exec env conn cols args w).2 = exec_log w ++ [(conn, args)].
Proof. unfold Exec. by case_match. Qed.

Lemma Exec_open_conns args w :
  open_conns (Exec env conn cols args w).2 = open_conns w.
Proof. unfold Exec. by case_match. Qed.

Lemma Exec_api_log args w :
  api_log (Exec env conn cols args w).2 = api_log w.
Proof. unfold Exec. by case_match. Qed.

Lemma Exec_table args w :
  table (Exec env conn cols args w).2 conn
  = store env conn cols (table w conn) [args].
Proof.
  unfold Exec, store. simpl. case_match; simpl; [| done].
  by rewrite bool_decide_eq_true_2.
Qed.

Lemma Exec_table_other args w db :
  db <> conn -> table (Exec env conn cols args w).2 db = table w db.
Proof.
  intros Hne. unfold Exec. case_match; simpl; [| done].
  by rewrite bool_decide_eq_false_2.
Qed.

Lemma Exec_ok args w :
  (Exec env conn cols args w).1
  = bool_decide (length cols = length args)
    && accepts env conn (table w conn) (insertedRow cols args).
Proof. unfold Exec. by case_match. Qed.

Lemma store_app tbl xs ys :
  store env conn cols tbl (xs ++ ys)
  = store env conn cols (store env conn cols tbl xs) ys.
Proof. unfold store. by rewrite foldl_app. Qed.

Lemma execAll_exec_log argss st :
  exec_log (execAll env conn cols st argss).2
  = exec_log st.2 ++ ((fun a => (conn, a)) <$> argss).
Proof.
  revert st. induction argss as [|a argss IH]; intros st; simpl.
  - by rewrite app_nil_r.
  - unfold execAll in *. simpl. rewrite IH. unfold execCount.
    destruct (Exec env conn cols a st.2) as [ok w'] eqn:E. simpl.
    replace w' with (Exec env conn cols a st.2).2 by (by rewrite E).
    rewrite Exec_exec_log. by rewrite <- app_assoc.
Qed.

Lemma execAll_open_conns argss st :
  open_conns (execAll env conn cols st argss).2 = open_conns st.2.
Proof.
  revert st. induction argss as [|a argss IH]; intros st; simpl; [done |].
  unfold execAll in *. simpl. rewrite IH. unfold execCount.
  destruct (Exec env conn cols a st.2) as [ok w'] eqn:E. simpl.
  replace w' with (Exec env conn cols a st.2).2 by (by rewrite E).
  apply Exec_open_conns.
Qed.

Lemma execAll_api_log argss st :
  api_log (execAll env conn cols st argss).2 = api_log st.2.
Proof.
  revert st. induction argss as [|a argss IH]; intros st; simpl; [done |].
  unfold execAll in *. simpl. rewrite IH. unfold execCount.
  destruct (Exec env conn cols a st.2) as [ok w'] eqn:E. simpl.
  replace w' with (Exec env conn cols a st.2).2 by (by rewrite E).
  apply Exec_api_log.
Qed.

Lemma execAll_table argss st :
  table (execAll env conn cols st argss).2 conn
  = store env conn cols (table st.2 conn) argss.
Proof.
  revert st. induction argss as [|a argss IH]; intros st; simpl; [done |].
  unfold execAll in *. simpl. rewrite IH. unfold execCount.
  destruct (Exec env conn cols a st.2) as [ok w'] eqn:E. simpl.
  replace w' with (Exec env conn cols a st.2).2 by (by rewrite E).
  rewrite Exec_table. symmetry. apply (store_app _ [a] argss).
Qed.

Lemma execAll_table_other argss st db :
  db <> conn -> table (execAll env conn cols st argss).2 db = table st.2 db.
Proof.
  intros Hne. revert st.
  induction argss as [|a argss IH]; intros st; simpl; [done |].
  unfold execAll in *. simpl. rewrite IH. unfold execCount.
  destruct (Exec env conn cols a st.2) as [ok w'] eqn:E. simpl.
  replace w' with (Exec env conn cols a st.2).2 by (by rewrite E).
  by apply Exec_table_other.
Qed.

(** The rows a sequence of INSERTs adds are appended to the table. *)
Lemma store_extends tbl argss :
  exists added, store env conn cols tbl argss = tbl ++ added
                /\ added ⊆ insertedRow cols <$> argss.
Proof.
  revert tbl. induction argss as [|a argss IH]; intros tbl.
  - exists []. split; [by rewrite app_nil_r | done].
  - change (a :: argss) with ([a] ++ argss). rewrite store_app.
    destruct (IH (store env conn cols tbl [a])) as (added & -> & Hsub).
    unfold store at 1. simpl. case_match.
    + exists (insertedRow cols a :: added). split.
      * by rewrite <- app_assoc.
      * simpl. intros r Hr.
        apply elem_of_cons in Hr as [-> | Hr]; [left | right; auto].
    + exists added. split; [done |].
      simpl. intros r Hr. right. auto.
Qed.

(** The success count is the number of rows added. *)
Lemma execAll_count argss st :
  ((execAll env conn cols st argss).1
   = st.1 + (length (store env conn cols (table st.2 conn) argss)
             - length (table st.2 conn)))%nat.
Proof.
  revert st. induction argss as [|a argss IH]; intros st.
  - unfold store. simpl. lia.
  - change (a :: argss) with ([a] ++ argss). rewrite store_app.
    unfold execAll in *. rewrite foldl_app, IH.
    simpl foldl. unfold execCount at 1 2 3.
    destruct (Exec env conn cols a st.2) as [ok w'] eqn:E.
    simpl fst; simpl snd.
    assert (Hw : w' = (Exec env conn cols a st.2).2) by (by rewrite E).
    assert (Hok : ok = (Exec env conn cols a st.2).1) by (by rewrite E).
    rewrite Hw, Exec_table. rewrite Hok, Exec_ok.
    destruct (store_extends (store env conn cols (table st.2 conn) [a]) argss)
      as (added & -> & _).
    unfold store. simpl. case_match; rewrite ?length_app; simpl; lia.
Qed.

(** When every row is accepted, each INSERT adds its row. *)
Lemma store_all_accepted tbl argss :
  (forall t r, accepts env conn t r = true) ->
  Forall (fun args => length cols = length args) argss ->
  store env conn cols tbl argss = tbl ++ (insertedRow cols <$> argss).
Proof.
  intros Hacc Hlen. revert tbl.
  induction Hlen as [|a argss Ha _ IH]; intros tbl.
  - simpl. by rewrite app_nil_r.
  - change (a :: argss) with ([a] ++ argss). rewrite store_app, IH.
    unfold store. simpl. rewrite Hacc, bool_decide_eq_true_2 by done.
    simpl. by rewrite <- app_assoc.
Qed.

End exec_facts.

(* ===================================================================== *)
(** * Verification: the loops of the four programs *)
(* ===================================================================== *)

Section loop_facts.
Import GoTime Proc Spec.
Context (env : Env) (conn : Db).

(** The skip test of the code is the negation of "strictly newer than
    the cut-off", with the zero time read as "no cut-off". *)
Lemma skip_test lastDate fecha :
  negb (IsZero lastDate) && negb (After fecha lastDate)
  = negb (newerThan (codeCutoff lastDate) fecha).
Proof.
  unfold codeCutoff, newerThan, After. destruct (IsZero lastDate); [done |].
  simpl. f_equal. apply eq_true_iff_eq.
  rewrite Z.ltb_lt, bool_decide_eq_true. done.
Qed.

Lemma keep_test lastDate fecha :
  IsZero lastDate || After fecha lastDate
  = newerThan (codeCutoff lastDate) fecha.
Proof.
  rewrite <- (negb_involutive (newerThan _ _)), <- skip_test.
  by destruct (IsZero lastDate), (After fecha lastDate).
Qed.

(** [Current]: one iteration either executes the INSERT of a selected
    record, counts a stale one, or drops one whose date does not parse. *)
Lemma current_body lastDate n w d :
  Current.loopBody env conn lastDate (n, w) d
  = match currentSelected (codeCutoff lastDate) d with
    | Some args =>
        let r := execCount env conn Current.insertCols
                           (Current.successfulInserts n, w) args in
        (Current.mkCounters r.1 (Current.skipped n), r.2)
    | None =>
        (Current.mkCounters (Current.successfulInserts n)
           (Current.skipped n
            + (if currentStale (codeCutoff lastDate) d then 1 else 0)), w)
    end.
Proof.
  unfold Current.loopBody, currentSelected, currentStale, execCount.
  destruct n as [ins sk].
  destruct (Parse "2006-01-02T15:04:05" (Current.Fecha d)) as [fecha|].
  - rewrite skip_test.
    destruct (newerThan (codeCutoff lastDate) fecha); simpl.
    + by destruct (Exec env conn Current.insertCols
                        (Current.execArgs fecha d) w) as [[] w'].
    + do 2 f_equal. lia.
  - simpl. do 2 f_equal. lia.
Qed.

(** [Current]: the loop executes one INSERT per selected record, in
    order, and counts the stale ones. *)
Lemma current_loop lastDate data n w :
  foldl (Current.loopBody env conn lastDate) (n, w) data
  = (Current.mkCounters
       (execAll env conn Current.insertCols (Current.successfulInserts n, w)
                (omap (currentSelected (codeCutoff lastDate)) data)).1
       (Current.skipped n
        + length (List.filter (currentStale (codeCutoff lastDate)) data)),
     (execAll env conn Current.insertCols (Current.successfulInserts n, w)
              (omap (currentSelected (codeCutoff lastDate)) data)).2).
Proof.
  revert n w. induction data as [|d data IH]; intros n w.
  - destruct n. simpl. by rewrite Nat.add_0_r.
  - cbn [foldl omap list_omap List.filter]. rewrite current_body.
    destruct (currentSelected (codeCutoff lastDate) d) as [args|] eqn:Hsel.
    + assert (Hst : currentStale (codeCutoff lastDate) d = false).
      { revert Hsel. unfold currentSelected, currentStale.
        destruct (Parse _ _); [| done]. by destruct (newerThan _ _). }
      rewrite Hst. cbv zeta. rewrite IH.
      cbn [Current.successfulInserts Current.skipped].
      unfold execAll. cbn [foldl].
      by destruct (execCount env conn Current.insertCols
                             (Current.successfulInserts n, w) args).
    + rewrite IH. cbn [Current.successfulInserts Current.skipped].
      destruct (currentStale (codeCutoff lastDate) d); cbn [length];
        do 2 f_equal; lia.
Qed.

(** [Historico]: the pass executes one INSERT per detail record whose
    date parses, day after day. *)
Lemma historico_details details k w :
  foldl (Historico.detailBody env conn) (k, w) details
  = execAll env conn Historico.insertCols (k, w) (omap historicoAttempt details).
Proof.
  revert k w. induction details as [|d details IH]; intros k w; [done |].
  cbn [foldl omap list_omap].
  assert (Hstep : Historico.detailBody env conn (k, w) d
                  = match historicoAttempt d with
                    | Some args => execCount env conn Historico.insertCols (k, w) args
                    | None => (k, w)
                    end).
  { unfold Historico.detailBody, historicoAttempt, execCount.
    destruct (Parse _ _) as [fecha|]; [| done]. simpl.
    by destruct (Exec env conn Historico.insertCols
                      (Historico.execArgs fecha d) w) as [[] w']. }
  rewrite Hstep. destruct (historicoAttempt d) as [args|]; [| apply IH].
  destruct (execCount env conn Historico.insertCols (k, w) args) as [k' w'] eqn:E.
  rewrite IH. unfold execAll. cbn [foldl]. by rewrite E.
Qed.

Lemma historico_days data st :
  foldl (fun st day => foldl (Historico.detailBody env conn) st
                             (Historico.Details day)) st data
  = execAll env conn Historico.insertCols st
            (omap historicoAttempt (allDetails data)).
Proof.
  revert st. induction data as [|day data IH]; intros [k w]; [done |].
  simpl foldl. rewrite IH, historico_details.
  unfold allDetails. simpl. rewrite omap_app.
  unfold execAll. by rewrite foldl_app.
Qed.

(** [Legacy]: the first loop collects the selected rows, in order. *)
Lemma legacy_collect lastDate rows acc :
  foldl (Legacy.collectBody lastDate) acc rows
  = acc ++ omap (legacySelected (codeCutoff lastDate)) rows.
Proof.
  revert acc. induction rows as [|r rows IH]; intros acc.
  - simpl. by rewrite app_nil_r.
  - cbn [foldl omap list_omap]. rewrite IH.
    unfold Legacy.collectBody, legacySelected.
    destruct (Parse "2006-01-02" (Legacy.df_date r)) as [date|]; [| done].
    rewrite keep_test.
    destruct (newerThan (codeCutoff lastDate) date); [| done].
    by rewrite <- app_assoc.
Qed.

Lemma legacy_insert rowsToInsert st :
  foldl (Legacy.insertBody env conn) st rowsToInsert
  = execAll env conn Legacy.insertCols st rowsToInsert.
Proof.
  unfold execAll. revert st.
  induction rowsToInsert as [|row rowsToInsert IH]; intros [k w]; [done |].
  cbn [foldl]. rewrite <- IH. f_equal.
  unfold Legacy.insertBody, execCount. simpl.
  by destruct (Exec env conn Legacy.insertCols row w) as [[] w'].
Qed.

End loop_facts.

(* ===================================================================== *)
(** * Verification: placeholders, columns and arguments *)
(* ===================================================================== *)

Section positional_facts.
Import GoTime Proc Spec.

Lemma zip_fst_elem (cols : list string) (args : list Value) c :
  c ∈ (zip cols args).*1 -> c ∈ cols.
Proof.
  revert args. induction cols as [|k cols IH]; intros [|a args] Hin;
    simpl in Hin; try by apply elem_of_nil in Hin.
  apply elem_of_cons in Hin as [-> | Hin]; [left | right; eauto].
Qed.

Lemma zip_fst_NoDup (cols : list string) (args : list Value) :
  NoDup cols -> NoDup (zip cols args).*1.
Proof.
  intros Hnd. revert args.
  induction Hnd as [|k cols Hk _ IH]; intros [|a args]; simpl;
    try apply NoDup_nil_2.
  apply NoDup_cons_2; [| apply IH].
  intros Hin. apply Hk. by apply zip_fst_elem in Hin.
Qed.

(** The column at position [i] of the column list receives the
    argument at position [i]. *)
Lemma insertedRow_lookup (cols : list string) (args : list Value) i c v :
  NoDup cols -> cols !! i = Some c -> args !! i = Some v ->
  insertedRow cols args !! c = Some v.
Proof.
  intros Hnd Hc Hv. unfold insertedRow.
  apply elem_of_list_to_map_1; [by apply zip_fst_NoDup |].
  apply list_elem_of_lookup. exists i.
  rewrite lookup_zip_with, Hc. simpl. by rewrite Hv.
Qed.

(** A column outside the column list is not set. *)
Lemma insertedRow_lookup_None (cols : list string) (args : list Value) c :
  c ∉ cols -> insertedRow cols args !! c = None.
Proof.
  intros Hc. unfold insertedRow. apply not_elem_of_list_to_map_1.
  intros Hin. apply Hc. by apply zip_fst_elem in Hin.
Qed.

(** Reading a row column by column and inserting the values under the
    same column list gives back each of those columns. *)
Lemma insertedRow_copy (cols : list string) (r : Row) c :
  NoDup cols -> c ∈ cols ->
  insertedRow cols (col r <$> cols) !! c = Some (col r c).
Proof.
  intros Hnd Hc. apply list_elem_of_lookup in Hc as [i Hi].
  apply (insertedRow_lookup cols _ i); [done | done |].
  by rewrite list_lookup_fmap, Hi.
Qed.

(** Binding values to distinct variables and reading the variables back
    in the same order returns the values. *)
Lemma bind_read_back (vars : list string) (vals : list Value) :
  NoDup vars -> length vars = length vals ->
  (fun v => default VNull ((list_to_map (zip vars vals) : gmap string Value) !! v))
    <$> vars = vals.
Proof.
  intros Hnd Hlen. apply list_eq. intros i.
  rewrite list_lookup_fmap.
  destruct (vars !! i) as [x|] eqn:Hx; simpl.
  - destruct (vals !! i) as [y|] eqn:Hy.
    + pose proof (insertedRow_lookup vars vals i x y Hnd Hx Hy) as Hl.
      unfold insertedRow in Hl. by rewrite Hl.
    + apply lookup_lt_Some in Hx. apply lookup_ge_None in Hy. lia.
  - symmetry. apply lookup_ge_None. apply lookup_ge_None in Hx. lia.
Qed.

Lemma current_cols_NoDup : NoDup Current.insertCols.
Proof. apply (bool_decide_unpack _). vm_compute. exact I. Qed.

Lemma historico_cols_NoDup : NoDup Historico.insertCols.
Proof. apply (bool_decide_unpack _). vm_compute. exact I. Qed.

Lemma legacy_cols_NoDup : NoDup Legacy.insertCols.
Proof. apply (bool_decide_unpack _). vm_compute. exact I. Qed.

Lemma sync_cols_NoDup : NoDup Sync.insertCols.
Proof. apply (bool_decide_unpack _). vm_compute. exact I. Qed.

Lemma sync_vars_NoDup : NoDup Sync.execVars.
Proof. apply (bool_decide_unpack _). vm_compute. exact I. Qed.

End positional_facts.

(** C8.  For every record, the [instrumento] column of the row inserted
    is the string "<currency_out> / <currency_in> <settle-term>", where
    [currency_out] and [currency_in] are the values stored in those two
    columns and the settle-term is the raw [Plazo] string of the API,
    while the [settle] column holds the integer parsed from the same
    string (or NULL).  Stated for both programs that build the field. *)
Theorem C8_instrumento_uses_raw_term :
  (forall (fecha : Z) (d : Current.ForexData),
     let row := Proc.insertedRow Current.insertCols (Current.execArgs fecha d) in
     let currency_out := Current.deriveCurrencyOut (Current.Ticker d) in
     let currency_in := Current.deriveCurrencyIn (Current.Moneda d) in
     row !! "instrumento"
     = Some (Proc.VText (currency_out +:+ " / " +:+ currency_in +:+ " "
                         +:+ Current.Plazo d))
     /\ row !! "currency_out" = Some (Proc.VText currency_out)
     /\ row !! "currency_in" = Some (Proc.VText currency_in)
     /\ row !! "settle" = Some (Current.ptrInt (Current.settleVal d)))
  /\ (forall (fecha : Z) (d : Historico.ForexDetail),
        let row := Proc.insertedRow Historico.insertCols
                                    (Historico.execArgs fecha d) in
        let currency_out := Historico.deriveCurrencyOut (Historico.Ticker d) in
        let currency_in := Historico.deriveCurrencyIn (Historico.Moneda d) in
        row !! "instrumento"
        = Some (Proc.VText (currency_out +:+ " / " +:+ currency_in +:+ " "
                            +:+ Historico.Plazo d))
        /\ row !! "currency_out" = Some (Proc.VText currency_out)
        /\ row !! "currency_in" = Some (Proc.VText currency_in)
        /\ row !! "settle" = Some (Current.ptrInt (Historico.settleVal d))).
Proof.
  split; intros fecha d; cbv zeta.
  - split_and!.
    + by apply (insertedRow_lookup _ _ 2%nat); [apply current_cols_NoDup | |].
    + by apply (insertedRow_lookup _ _ 3%nat); [apply current_cols_NoDup | |].
    + by apply (insertedRow_lookup _ _ 4%nat); [apply current_cols_NoDup | |].
    + by apply (insertedRow_lookup _ _ 5%nat); [apply current_cols_NoDup | |].
  - split_and!.
    + by apply (insertedRow_lookup _ _ 2%nat); [apply historico_cols_NoDup | |].
    + by apply (insertedRow_lookup _ _ 3%nat); [apply historico_cols_NoDup | |].
    + by apply (insertedRow_lookup _ _ 4%nat); [apply historico_cols_NoDup | |].
    + by apply (insertedRow_lookup _ _ 5%nat); [apply historico_cols_NoDup | |].
Qed.

(* ===================================================================== *)
(** * Verification: the incremental load *)
(* ===================================================================== *)

Section load_facts.
Import GoTime Proc Spec.
Context (env : Env).

Lemma effectiveCutoff_stored w c :
  last_date_ok env = true -> maxDate (table w Local) = Some c -> c <> 0 ->
  effectiveCutoff env w = Some c.
Proof.
  intros Hq Hmax Hc. unfold effectiveCutoff, scanMaxDate, codeCutoff, IsZero.
  rewrite Hq, Hmax. simpl. by rewrite (proj2 (Z.eqb_neq c 0)).
Qed.

Lemma effectiveCutoff_empty w :
  maxDate (table w Local) = None -> effectiveCutoff env w = None.
Proof.
  intros Hmax. unfold effectiveCutoff, scanMaxDate.
  rewrite Hmax. by destruct (last_date_ok env).
Qed.

Lemma effectiveCutoff_zero w :
  maxDate (table w Local) = Some 0 -> effectiveCutoff env w = None.
Proof.
  intros Hmax. unfold effectiveCutoff, scanMaxDate.
  rewrite Hmax. by destruct (last_date_ok env).
Qed.

(** [Current.saveToDatabase] on a batch that is not empty, when the
    connection and the prepare succeed. *)
Lemma current_save data w :
  data <> [] -> connect_ok env Local = true -> prepare_ok env = true ->
  Current.saveToDatabase env data w
  = Ok (Current.Loaded
          (Current.mkCounters
             (execAll env Local Current.insertCols (0%nat, connected Local w)
                      (omap (currentSelected (effectiveCutoff env w)) data)).1
             (length (List.filter (currentStale (effectiveCutoff env w)) data))))
       (Close Local
          (execAll env Local Current.insertCols (0%nat, connected Local w)
                   (omap (currentSelected (effectiveCutoff env w)) data)).2).
Proof.
  intros Hne Hconn Hprep.
  unfold Current.saveToDatabase, bind, Connect, defer, Prepare.
  rewrite bool_decide_eq_false_2 by (by destruct data).
  rewrite Hconn, Hprep. simpl negb. cbv iota.
  change (mkWorld (table w) (Local :: open_conns w) (exec_log w) (api_log w))
    with (connected Local w).
  change (default zero (scanMaxDate env Local (connected Local w)))
    with (default zero (scanMaxDate env Local w)).
  rewrite current_loop. reflexivity.
Qed.

(** [Legacy.saveToDatabase] on a frame that is not empty, when the
    connection and the prepare succeed. *)
Lemma legacy_save rows w :
  rows <> [] -> connect_ok env Local = true -> prepare_ok env = true ->
  final (Legacy.saveToDatabase env (Some rows) w)
  = Close Local
      (execAll env Local Legacy.insertCols (0%nat, connected Local w)
               (omap (legacySelected (effectiveCutoff env w)) rows)).2.
Proof.
  intros Hne Hconn Hprep.
  unfold Legacy.saveToDatabase, bind, Connect, defer, Prepare.
  destruct rows as [|r rows]; [done |].
  rewrite Hconn, Hprep. simpl negb. cbv iota.
  change (mkWorld (table w) (Local :: open_conns w) (exec_log w) (api_log w))
    with (connected Local w).
  change (default zero (scanMaxDate env Local (connected Local w)))
    with (default zero (scanMaxDate env Local w)).
  rewrite legacy_collect. rewrite app_nil_l.
  fold (effectiveCutoff env w).
  case_bool_decide as Hlen.
  - apply nil_length_inv in Hlen. rewrite Hlen. reflexivity.
  - rewrite legacy_insert.
    by destruct (execAll env Local Legacy.insertCols (0%nat, connected Local w)
                         (omap (legacySelected (effectiveCutoff env w)) (r :: rows))).
Qed.

(** A batch in which no record is newer than the cut-off selects
    nothing. *)
Lemma current_none_selected c data :
  (forall d fecha, d ∈ data ->
     Parse "2006-01-02T15:04:05" (Current.Fecha d) = Some fecha -> fecha <= c) ->
  omap (currentSelected (Some c)) data = [].
Proof.
  induction data as [|d data IH]; intros Hall; [done |].
  cbn [omap list_omap]. rewrite IH by (intros; eapply Hall; [by right | done]).
  unfold currentSelected, newerThan.
  destruct (Parse _ _) as [fecha|] eqn:E; [| done].
  rewrite bool_decide_eq_false_2; [done |].
  specialize (Hall d fecha (list_elem_of_here _ _) E). lia.
Qed.

Lemma legacy_none_selected c rows :
  (forall r date, r ∈ rows ->
     Parse "2006-01-02" (Legacy.df_date r) = Some date -> date <= c) ->
  omap (legacySelected (Some c)) rows = [].
Proof.
  induction rows as [|r rows IH]; intros Hall; [done |].
  cbn [omap list_omap]. rewrite IH by (intros; eapply Hall; [by right | done]).
  unfold legacySelected, newerThan.
  destruct (Parse _ _) as [date|] eqn:E; [| done].
  rewrite bool_decide_eq_false_2; [done |].
  specialize (Hall r date (list_elem_of_here _ _) E). lia.
Qed.

End load_facts.

Section load_theorems.
Import GoTime Proc Spec.
Context (env : Env).

Lemma loads_execAll_from db cols w w0 k sel :
  table w0 = table w -> exec_log w0 = exec_log w ->
  Forall (fun args => length cols = length args) sel ->
  loads env db cols w (execAll env db cols (k, w0) sel).2 sel.
Proof.
  intros Htbl Hlog Harity. unfold loads.
  rewrite execAll_exec_log, execAll_table. simpl. rewrite Htbl, Hlog.
  split_and!; [done | done |].
  intros Hacc. by apply store_all_accepted.
Qed.

Lemma loads_execAll cols w sel :
  Forall (fun args => length cols = length args) sel ->
  loads env Local cols w
        (Close Local (execAll env Local cols (0%nat, connected Local w) sel).2)
        sel.
Proof.
  intros Harity.
  pose proof (loads_execAll_from Local cols w (connected Local w) 0%nat sel
                eq_refl eq_refl Harity) as H.
  exact H.
Qed.

(** Every selected record has its INSERT executed, and its row stored
    when the server accepts every row. *)
Lemma loads_attempted db cols w w' sel args :
  loads env db cols w w' sel -> args ∈ sel ->
  (db, args) ∈ exec_log w'
  /\ ((forall t r, accepts env db t r = true) ->
      insertedRow cols args ∈ table w' db).
Proof.
  intros (Hlog & _ & Hacc) Hin. split.
  - rewrite Hlog. apply elem_of_app. right.
    apply list_elem_of_fmap. by exists args.
  - intros Hall. rewrite (Hacc Hall). apply elem_of_app. right.
    apply list_elem_of_fmap. by exists args.
Qed.

Lemma current_selected_arity cutoff data :
  Forall (fun args => length Current.insertCols = length args)
         (omap (currentSelected cutoff) data).
Proof.
  apply Forall_forall. intros args Hin.
  apply list_elem_of_omap in Hin as (d & _ & Hsel).
  unfold currentSelected in Hsel.
  destruct (Parse _ _) as [fecha|]; [| done].
  destruct (newerThan cutoff fecha); [| done].
  by injection Hsel as <-.
Qed.

Lemma legacy_selected_arity cutoff rows :
  Forall (fun args => length Legacy.insertCols = length args)
         (omap (legacySelected cutoff) rows).
Proof.
  apply Forall_forall. intros args Hin.
  apply list_elem_of_omap in Hin as (r & _ & Hsel).
  unfold legacySelected in Hsel.
  destruct (Parse _ _) as [date|]; [| done].
  destruct (newerThan cutoff date); [| done].
  by injection Hsel as <-.
Qed.

(** The current scraper loads exactly the records selected by the
    effective cut-off. *)
Lemma current_loads data w :
  data <> [] -> connect_ok env Local = true -> prepare_ok env = true ->
  loads env Local Current.insertCols w (final (Current.saveToDatabase env data w))
        (omap (currentSelected (effectiveCutoff env w)) data).
Proof.
  intros Hne Hconn Hprep. rewrite current_save by done. simpl final.
  apply loads_execAll, current_selected_arity.
Qed.

Lemma legacy_loads rows w :
  rows <> [] -> connect_ok env Local = true -> prepare_ok env = true ->
  loads env Local Legacy.insertCols w (final (Legacy.saveToDatabase env (Some rows) w))
        (omap (legacySelected (effectiveCutoff env w)) rows).
Proof.
  intros Hne Hconn Hprep. rewrite legacy_save by done.
  apply loads_execAll, legacy_selected_arity.
Qed.

(** A load that selects nothing leaves the table and the trace as they
    were. *)
Lemma loads_nothing cols w w' :
  loads env Local cols w w' [] ->
  table w' Local = table w Local /\ exec_log w' = exec_log w.
Proof.
  intros (Hlog & Htbl & _). split; [done |].
  rewrite Hlog. simpl. by rewrite app_nil_r.
Qed.

End load_theorems.

(** C1 (amended).  Let [cutoff] be the maximum stored date of the
    destination table, read once before the batch.  For every batch:
    when the cut-off exists and is not the zero time 0001-01-01T00:00:00
    UTC, the load executes an INSERT for exactly the records whose date
    parses and is strictly greater than the cut-off (each row stored
    unless the server rejects it); when the table has no dated row, or
    its maximum is the zero time, every record whose date parses
    qualifies; and a batch whose records are all dated on or before a
    non-zero cut-off adds no row and executes no INSERT, so re-running
    against the unchanged cut-off inserts nothing for them.  Stated for
    the current scraper and for the legacy scraper. *)
Theorem C1_incremental_load_cutoff (env : Proc.Env) (w : Proc.World) :
  Proc.connect_ok env Proc.Local = true ->
  Proc.last_date_ok env = true ->
  Proc.prepare_ok env = true ->
  let cutoff := Proc.maxDate (Proc.table w Proc.Local) in
  (forall data : list Current.ForexData, data <> [] ->
     let w' := Proc.final (Current.saveToDatabase env data w) in
     (forall c, cutoff = Some c -> c <> GoTime.zero ->
        Spec.loads env Proc.Local Current.insertCols w w'
                   (omap (Spec.currentSelected (Some c)) data))
     /\ (cutoff = None \/ cutoff = Some GoTime.zero ->
         Spec.loads env Proc.Local Current.insertCols w w'
                    (omap (Spec.currentSelected None) data))
     /\ (forall c, cutoff = Some c -> c <> GoTime.zero ->
         (forall d fecha, d ∈ data ->
            GoTime.Parse "2006-01-02T15:04:05" (Current.Fecha d) = Some fecha ->
            fecha <= c) ->
         Proc.table w' Proc.Local = Proc.table w Proc.Local
         /\ Proc.exec_log w' = Proc.exec_log w))
  /\ (forall rows : list Legacy.FrameRow, rows <> [] ->
        let w' := Proc.final (Legacy.saveToDatabase env (Some rows) w) in
        (forall c, cutoff = Some c -> c <> GoTime.zero ->
           Spec.loads env Proc.Local Legacy.insertCols w w'
                      (omap (Spec.legacySelected (Some c)) rows))
        /\ (cutoff = None \/ cutoff = Some GoTime.zero ->
            Spec.loads env Proc.Local Legacy.insertCols w w'
                       (omap (Spec.legacySelected None) rows))
        /\ (forall c, cutoff = Some c -> c <> GoTime.zero ->
            (forall r date, r ∈ rows ->
               GoTime.Parse "2006-01-02" (Legacy.df_date r) = Some date ->
               date <= c) ->
            Proc.table w' Proc.Local = Proc.table w Proc.Local
            /\ Proc.exec_log w' = Proc.exec_log w)).
Proof.
  intros Hconn Hq Hprep cutoff. split.
  - intros data Hne w'.
    pose proof (current_loads env data w Hne Hconn Hprep) as Hloads.
    fold w' in Hloads. split_and!.
    + intros c Hc Hnz.
      by rewrite (effectiveCutoff_stored env w c Hq Hc Hnz) in Hloads.
    + intros [Hc | Hc].
      * by rewrite (effectiveCutoff_empty env w Hc) in Hloads.
      * by rewrite (effectiveCutoff_zero env w Hc) in Hloads.
    + intros c Hc Hnz Hall.
      rewrite (effectiveCutoff_stored env w c Hq Hc Hnz) in Hloads.
      rewrite (current_none_selected c data Hall) in Hloads.
      by apply (loads_nothing env) in Hloads.
  - intros rows Hne w'.
    pose proof (legacy_loads env rows w Hne Hconn Hprep) as Hloads.
    fold w' in Hloads. split_and!.
    + intros c Hc Hnz.
      by rewrite (effectiveCutoff_stored env w c Hq Hc Hnz) in Hloads.
    + intros [Hc | Hc].
      * by rewrite (effectiveCutoff_empty env w Hc) in Hloads.
      * by rewrite (effectiveCutoff_zero env w Hc) in Hloads.
    + intros c Hc Hnz Hall.
      rewrite (effectiveCutoff_stored env w c Hq Hc Hnz) in Hloads.
      rewrite (legacy_none_selected c rows Hall) in Hloads.
      by apply (loads_nothing env) in Hloads.
Qed.

(* ===================================================================== *)
(** * Verification: per-record and per-field recovery *)
(* ===================================================================== *)

Section record_facts.
Import GoTime Proc Spec.
Context (env : Env).

(** [Historico.insertData] once the statement is prepared. *)
Lemma historico_insert conn data w :
  prepare_ok env = true ->
  Historico.insertData env conn data w
  = execAll env conn Historico.insertCols (0%nat, w)
            (omap historicoAttempt (allDetails data)).
Proof.
  intros Hprep. unfold Historico.insertData, Prepare. rewrite Hprep. simpl.
  apply historico_days.
Qed.

Lemma historico_attempt_arity details :
  Forall (fun args => length Historico.insertCols = length args)
         (omap historicoAttempt details).
Proof.
  apply Forall_forall. intros args Hin.
  apply list_elem_of_omap in Hin as (d & _ & Hsel).
  unfold historicoAttempt in Hsel.
  destruct (Parse _ _) as [fecha|]; [| done].
  by injection Hsel as <-.
Qed.

Lemma historico_loads data w :
  prepare_ok env = true ->
  loads env Local Historico.insertCols w (Historico.insertData env Local data w).2
        (omap historicoAttempt (allDetails data)).
Proof.
  intros Hprep. rewrite historico_insert by done.
  by apply loads_execAll_from; [| | apply historico_attempt_arity].
Qed.

(** A record whose date does not parse leaves the loop state as it
    was. *)
Lemma current_body_dropped conn lastDate st d :
  Parse "2006-01-02T15:04:05" (Current.Fecha d) = None ->
  Current.loopBody env conn lastDate st d = st.
Proof. intros H. unfold Current.loopBody. destruct st. by rewrite H. Qed.

Lemma historico_body_dropped conn st d :
  Parse "2006-01-02T15:04:05" (Historico.Fecha d) = None ->
  Historico.detailBody env conn st d = st.
Proof. intros H. unfold Historico.detailBody. destruct st. by rewrite H. Qed.

Lemma legacy_body_dropped lastDate acc r :
  Parse "2006-01-02" (Legacy.df_date r) = None ->
  Legacy.collectBody lastDate acc r = acc.
Proof. intros H. unfold Legacy.collectBody. by rewrite H. Qed.

(** The load never ends the process once it is connected. *)
Lemma current_save_returns data w :
  connect_ok env Local = true ->
  returned (Current.saveToDatabase env data w) = true.
Proof.
  intros Hconn. unfold Current.saveToDatabase, bind, Connect, defer, ret.
  case_bool_decide; [done |]. rewrite Hconn.
  destruct (negb _); [done |].
  by destruct (foldl _ _ _).
Qed.

(** A selected record of the current scraper, in the code's own
    terms. *)
Lemma current_selected_intro w d fecha :
  Parse "2006-01-02T15:04:05" (Current.Fecha d) = Some fecha ->
  (let lastDate := default zero (scanMaxDate env Local w) in
   IsZero lastDate = true \/ lastDate < fecha) ->
  currentSelected (effectiveCutoff env w) d = Some (Current.execArgs fecha d).
Proof.
  intros Hp Hkeep. unfold currentSelected, effectiveCutoff. rewrite Hp.
  rewrite <- keep_test. cbv zeta in Hkeep.
  destruct Hkeep as [-> | Hlt]; [done |].
  unfold After. rewrite (proj2 (Z.ltb_lt _ _) Hlt). by rewrite orb_true_r.
Qed.

Lemma legacy_selected_intro w r date :
  Parse "2006-01-02" (Legacy.df_date r) = Some date ->
  (let lastDate := default zero (scanMaxDate env Local w) in
   IsZero lastDate = true \/ lastDate < date) ->
  legacySelected (effectiveCutoff env w) r = Some (Legacy.rowValues date r).
Proof.
  intros Hp Hkeep. unfold legacySelected, effectiveCutoff. rewrite Hp.
  rewrite <- keep_test. cbv zeta in Hkeep.
  destruct Hkeep as [-> | Hlt]; [done |].
  unfold After. rewrite (proj2 (Z.ltb_lt _ _) Hlt). by rewrite orb_true_r.
Qed.

(** A record that passes the date test has its INSERT executed. *)
Lemma current_record_inserted data w d fecha :
  connect_ok env Local = true -> prepare_ok env = true ->
  d ∈ data ->
  Parse "2006-01-02T15:04:05" (Current.Fecha d) = Some fecha ->
  (let lastDate := default zero (scanMaxDate env Local w) in
   IsZero lastDate = true \/ lastDate < fecha) ->
  let w' := final (Current.saveToDatabase env data w) in
  (Local, Current.execArgs fecha d) ∈ exec_log w'
  /\ ((forall t r, accepts env Local t r = true) ->
      insertedRow Current.insertCols (Current.execArgs fecha d) ∈ table w' Local).
Proof.
  intros Hconn Hprep Hin Hp Hkeep w'.
  assert (Hne : data <> []) by (intros ->; by apply elem_of_nil in Hin).
  apply (loads_attempted env Local Current.insertCols w w'
           (omap (currentSelected (effectiveCutoff env w)) data)).
  - by apply current_loads.
  - apply list_elem_of_omap. exists d. split; [done |].
    by apply current_selected_intro.
Qed.

Lemma legacy_record_inserted rows w r date :
  connect_ok env Local = true -> prepare_ok env = true ->
  r ∈ rows ->
  Parse "2006-01-02" (Legacy.df_date r) = Some date ->
  (let lastDate := default zero (scanMaxDate env Local w) in
   IsZero lastDate = true \/ lastDate < date) ->
  let w' := final (Legacy.saveToDatabase env (Some rows) w) in
  (Local, Legacy.rowValues date r) ∈ exec_log w'
  /\ ((forall t r', accepts env Local t r' = true) ->
      insertedRow Legacy.insertCols (Legacy.rowValues date r) ∈ table w' Local).
Proof.
  intros Hconn Hprep Hin Hp Hkeep w'.
  assert (Hne : rows <> []) by (intros ->; by apply elem_of_nil in Hin).
  apply (loads_attempted env Local Legacy.insertCols w w'
           (omap (legacySelected (effectiveCutoff env w)) rows)).
  - by apply legacy_loads.
  - apply list_elem_of_omap. exists r. split; [done |].
    by apply legacy_selected_intro.
Qed.

Lemma historico_record_inserted data w d fecha :
  prepare_ok env = true ->
  d ∈ allDetails data ->
  Parse "2006-01-02T15:04:05" (Historico.Fecha d) = Some fecha ->
  let w' := (Historico.insertData env Local data w).2 in
  (Local, Historico.execArgs fecha d) ∈ exec_log w'
  /\ ((forall t r, accepts env Local t r = true) ->
      insertedRow Historico.insertCols (Historico.execArgs fecha d)
        ∈ table w' Local).
Proof.
  intros Hprep Hin Hp w'.
  apply (loads_attempted env Local Historico.insertCols w w'
           (omap historicoAttempt (allDetails data))).
  - by apply historico_loads.
  - apply list_elem_of_omap. exists d. split; [done |].
    unfold historicoAttempt. by rewrite Hp.
Qed.

End record_facts.

(** C3.  For every record whose settlement-date field is the sentinel
    "0001-01-01T00:00:00", the row inserted has a NULL [settle_date], and
    the record is not rejected for it: in the current scraper it is
    inserted whenever its date parses and passes the date test of the
    loop (the cut-off filter), in the backfill whenever its date parses
    (the backfill has no cut-off test).  "Inserted": its INSERT is
    executed, and the row is in the table afterwards when the server
    accepts every row. *)
Theorem C3_sentinel_settle_date_is_null (env : Proc.Env) (w : Proc.World) :
  Proc.connect_ok env Proc.Local = true ->
  Proc.prepare_ok env = true ->
  (forall (data : list Current.ForexData) d fecha,
     d ∈ data ->
     Current.FechaLiquidacion d = "0001-01-01T00:00:00" ->
     GoTime.Parse "2006-01-02T15:04:05" (Current.Fecha d) = Some fecha ->
     (let lastDate := default GoTime.zero (Proc.scanMaxDate env Proc.Local w) in
      GoTime.IsZero lastDate = true \/ lastDate < fecha) ->
     let args := Current.execArgs fecha d in
     let w' := Proc.final (Current.saveToDatabase env data w) in
     Proc.insertedRow Current.insertCols args !! "settle_date" = Some Proc.VNull
     /\ (Proc.Local, args) ∈ Proc.exec_log w'
     /\ ((forall t r, Proc.accepts env Proc.Local t r = true) ->
         Proc.insertedRow Current.insertCols args ∈ Proc.table w' Proc.Local))
  /\ (forall (data : list Historico.HistoricoResponse) d fecha,
        d ∈ Spec.allDetails data ->
        Historico.FechaLiquidacion d = "0001-01-01T00:00:00" ->
        GoTime.Parse "2006-01-02T15:04:05" (Historico.Fecha d) = Some fecha ->
        let args := Historico.execArgs fecha d in
        let w' := (Historico.insertData env Proc.Local data w).2 in
        Proc.insertedRow Historico.insertCols args !! "settle_date"
        = Some Proc.VNull
        /\ (Proc.Local, args) ∈ Proc.exec_log w'
        /\ ((forall t r, Proc.accepts env Proc.Local t r = true) ->
            Proc.insertedRow Historico.insertCols args ∈ Proc.table w' Proc.Local)).
Proof.
  intros Hconn Hprep. split.
  - intros data d fecha Hin Hsent Hp Hkeep args w'. split.
    + apply (insertedRow_lookup _ _ 6%nat); [apply current_cols_NoDup | done |].
      simpl. unfold Current.settleDateVal. by rewrite Hsent.
    + by apply current_record_inserted.
  - intros data d fecha Hin Hsent Hp args w'. split.
    + apply (insertedRow_lookup _ _ 6%nat); [apply historico_cols_NoDup | done |].
      simpl. unfold Historico.settleDateVal. by rewrite Hsent.
    + by apply historico_record_inserted.
Qed.

(** C4.  A record whose required date fails to parse is dropped: the
    batch is processed exactly as if the record were not in it, so the
    record is not inserted, no counter moves for it, and the records
    before and after it are processed as usual; and the load ends by
    returning, not by a fatal exit.  Stated for the loop of the current
    scraper and for the insertion pass of the backfill. *)
Theorem C4_unparseable_date_dropped (env : Proc.Env) :
  (forall conn lastDate st pre d post,
     GoTime.Parse "2006-01-02T15:04:05" (Current.Fecha d) = None ->
     foldl (Current.loopBody env conn lastDate) st (pre ++ d :: post)
     = foldl (Current.loopBody env conn lastDate) st (pre ++ post))
  /\ (forall data w,
        Proc.connect_ok env Proc.Local = true ->
        Proc.returned (Current.saveToDatabase env data w) = true)
  /\ (forall conn days1 fecha volumen pre d post days2 w,
        GoTime.Parse "2006-01-02T15:04:05" (Historico.Fecha d) = None ->
        Historico.insertData env conn
          (days1 ++ Historico.mkHistoricoResponse fecha volumen (pre ++ d :: post)
                 :: days2) w
        = Historico.insertData env conn
            (days1 ++ Historico.mkHistoricoResponse fecha volumen (pre ++ post)
                   :: days2) w).
Proof.
  split_and!.
  - intros conn lastDate st pre d post Hp.
    rewrite !foldl_app. simpl. by rewrite current_body_dropped.
  - intros data w Hconn. by apply current_save_returns.
  - intros conn days1 fecha volumen pre d post days2 w Hp.
    unfold Historico.insertData. destruct (negb _); [done |].
    rewrite !foldl_app. simpl. rewrite !foldl_app. simpl.
    by rewrite historico_body_dropped.
Qed.

(** C5.  A parse failure on an optional field yields NULL for that field
    only, and the record is still inserted.  For a record of the current
    scraper that passes the date test: when the settlement term does not
    convert, [settle] is NULL and [settle_date] is what the settlement
    date gives; when the settlement date does not parse, [settle_date] is
    NULL and [settle] is what the term gives; either way the INSERT is
    executed.  Likewise for a row of the legacy scraper. *)
Theorem C5_optional_field_failure_is_null (env : Proc.Env) (w : Proc.World) :
  Proc.connect_ok env Proc.Local = true ->
  Proc.prepare_ok env = true ->
  (forall (data : list Current.ForexData) d fecha,
     d ∈ data ->
     GoTime.Parse "2006-01-02T15:04:05" (Current.Fecha d) = Some fecha ->
     (let lastDate := default GoTime.zero (Proc.scanMaxDate env Proc.Local w) in
      GoTime.IsZero lastDate = true \/ lastDate < fecha) ->
     let args := Current.execArgs fecha d in
     let row := Proc.insertedRow Current.insertCols args in
     let w' := Proc.final (Current.saveToDatabase env data w) in
     (Proc.Local, args) ∈ Proc.exec_log w'
     /\ ((forall t r, Proc.accepts env Proc.Local t r = true) ->
         row ∈ Proc.table w' Proc.Local)
     /\ (Strconv.Atoi (Current.Plazo d) = None ->
         row !! "settle" = Some Proc.VNull
         /\ row !! "settle_date"
            = Some (Current.ptrTime (Current.settleDateVal d)))
     /\ (GoTime.Parse "2006-01-02T15:04:05" (Current.FechaLiquidacion d) = None ->
         row !! "settle_date" = Some Proc.VNull
         /\ row !! "settle" = Some (Current.ptrInt (Current.settleVal d))))
  /\ (forall (rows : list Legacy.FrameRow) r date,
        r ∈ rows ->
        GoTime.Parse "2006-01-02" (Legacy.df_date r) = Some date ->
        (let lastDate := default GoTime.zero (Proc.scanMaxDate env Proc.Local w) in
         GoTime.IsZero lastDate = true \/ lastDate < date) ->
        let args := Legacy.rowValues date r in
        let row := Proc.insertedRow Legacy.insertCols args in
        let w' := Proc.final (Legacy.saveToDatabase env (Some rows) w) in
        (Proc.Local, args) ∈ Proc.exec_log w'
        /\ ((forall t r', Proc.accepts env Proc.Local t r' = true) ->
            row ∈ Proc.table w' Proc.Local)
        /\ (forall s, Legacy.df_settle r = Proc.VText s ->
            Strconv.Atoi s = None ->
            row !! "settle" = Some Proc.VNull
            /\ row !! "settle_date" = Some (Legacy.settleDateVal r))
        /\ (forall s, Legacy.df_settle_date r = Proc.VText s ->
            GoTime.Parse "060102" s = None ->
            row !! "settle_date" = Some Proc.VNull
            /\ row !! "settle" = Some (Legacy.settleVal r))).
Proof.
  intros Hconn Hprep. split.
  - intros data d fecha Hin Hp Hkeep args row w'.
    destruct (current_record_inserted env data w d fecha Hconn Hprep Hin Hp Hkeep)
      as [Hlog Htbl].
    split_and!; [done | done | |].
    + intros Hatoi. split.
      * apply (insertedRow_lookup _ _ 5%nat); [apply current_cols_NoDup | done |].
        simpl. unfold Current.settleVal. rewrite Hatoi. by case_bool_decide.
      * by apply (insertedRow_lookup _ _ 6%nat); [apply current_cols_NoDup | |].
    + intros Hparse. split.
      * apply (insertedRow_lookup _ _ 6%nat); [apply current_cols_NoDup | done |].
        simpl. unfold Current.settleDateVal. rewrite Hparse. by destruct (_ && _).
      * by apply (insertedRow_lookup _ _ 5%nat); [apply current_cols_NoDup | |].
  - intros rows r date Hin Hp Hkeep args row w'.
    destruct (legacy_record_inserted env rows w r date Hconn Hprep Hin Hp Hkeep)
      as [Hlog Htbl].
    split_and!; [done | done | |].
    + intros s Hs Hatoi. split.
      * apply (insertedRow_lookup _ _ 5%nat); [apply legacy_cols_NoDup | done |].
        simpl. unfold Legacy.settleVal. rewrite Hs. simpl. rewrite Hatoi.
        by case_bool_decide.
      * by apply (insertedRow_lookup _ _ 6%nat); [apply legacy_cols_NoDup | |].
    + intros s Hs Hparse. split.
      * apply (insertedRow_lookup _ _ 6%nat); [apply legacy_cols_NoDup | done |].
        simpl. unfold Legacy.settleDateVal. rewrite Hs. simpl. rewrite Hparse.
        by case_bool_decide.
      * by apply (insertedRow_lookup _ _ 5%nat); [apply legacy_cols_NoDup | |].
Qed.

(* ===================================================================== *)
(** * Verification: the backfill *)
(* ===================================================================== *)

Section backfill_facts.
Import GoTime Proc Spec.
Context (env : Env) (api : Time -> Time -> option (list Historico.HistoricoResponse)).

Lemma insertData_api_log conn data w :
  api_log (Historico.insertData env conn data w).2 = api_log w.
Proof.
  unfold Historico.insertData. destruct (negb _); [done |].
  rewrite historico_days. by rewrite execAll_api_log.
Qed.

Lemma totalDetails_length (data : list Historico.HistoricoResponse) k :
  foldl (fun n day => (n + length (Historico.Details day))%nat) k data
  = (k + length (allDetails data))%nat.
Proof.
  revert k. induction data as [|day data IH]; intros k.
  - unfold allDetails. simpl. lia.
  - cbn [foldl]. rewrite IH.
    change (allDetails (day :: data))
      with (Historico.Details day ++ allDetails data).
    rewrite length_app. lia.
Qed.

(** [main] when the table is up to date: it returns at once. *)
Lemma historico_main_up_to_date w :
  connect_ok env Local = true ->
  (let lastDate := Historico.getLastDate env Local w in
   IsZero lastDate = false /\ Truncate (now env) (24 * Hour) <= lastDate) ->
  Historico.main env api w = Ok Historico.UpToDate (Close Local (connected Local w)).
Proof.
  intros Hconn [Hnz Hle].
  unfold Historico.main, Historico.connectDB, bind, Connect, defer, ret, fatal.
  rewrite Hconn.
  change (Historico.getLastDate env Local (mkWorld _ _ _ _))
    with (Historico.getLastDate env Local w).
  rewrite Hnz. unfold Before.
  by rewrite (proj2 (Z.ltb_ge _ _) Hle).
Qed.

(** [main] otherwise: one request for the range, then the insertion
    pass over what the request returned. *)
Lemma historico_main_fetch w :
  connect_ok env Local = true ->
  let today := Truncate (now env) (24 * Hour) in
  let lastDate := Historico.getLastDate env Local w in
  let desde := if IsZero lastDate then today else AddDays lastDate 1 in
  (IsZero lastDate = true \/ lastDate < today) ->
  final (Historico.main env api w)
  = Close Local
      (match api desde today with
       | None => requested desde today (connected Local w)
       | Some data =>
           if bool_decide (allDetails data = [])
           then requested desde today (connected Local w)
           else (Historico.insertData env Local data
                   (requested desde today (connected Local w))).2
       end).
Proof.
  intros Hconn today lastDate desde Hgo.
  unfold Historico.main, Historico.connectDB, bind, Connect, defer,
    Historico.fetchHistoricoForex, ret, fatal.
  rewrite Hconn.
  change (Historico.getLastDate env Local (mkWorld _ _ _ _)) with lastDate.
  fold today.
  assert (Hskip : negb (IsZero lastDate) && negb (Before lastDate today) = false).
  { destruct Hgo as [-> | Hlt]; [done |].
    unfold Before. rewrite (proj2 (Z.ltb_lt _ _) Hlt).
    by destruct (IsZero lastDate). }
  rewrite Hskip. fold desde.
  destruct (api desde today) as [data|]; [| done].
  rewrite totalDetails_length. simpl.
  destruct (bool_decide (length (allDetails data) = 0%nat)) eqn:E.
  - apply bool_decide_eq_true in E. apply nil_length_inv in E.
    by rewrite E.
  - apply bool_decide_eq_false in E.
    rewrite bool_decide_eq_false_2 by (intros Hnil; by rewrite Hnil in E).
    by destruct (Historico.insertData _ _ _ _).
Qed.

Lemma historico_main_api_log w :
  connect_ok env Local = true ->
  let today := Truncate (now env) (24 * Hour) in
  let lastDate := Historico.getLastDate env Local w in
  let desde := if IsZero lastDate then today else AddDays lastDate 1 in
  (IsZero lastDate = true \/ lastDate < today) ->
  api_log (final (Historico.main env api w)) = api_log w ++ [(desde, today)].
Proof.
  intros Hconn today lastDate desde Hgo.
  rewrite (historico_main_fetch w Hconn Hgo). fold today lastDate desde.
  change (api_log (Close Local ?x)) with (api_log x).
  destruct (api desde today) as [data|]; [| done].
  case_bool_decide; [done |]. by rewrite insertData_api_log.
Qed.

End backfill_facts.

(** C2 (amended).  Let [lastDate] be what [getLastDate] returns and
    [today] the clock truncated to a multiple of 24 hours.  [getLastDate]
    returns the stored maximum date, 1900-01-01 when the table has no
    dated row, and the zero time only when the query fails.  When
    [lastDate] is not the zero time and is greater than or equal to
    [today], the job returns "nothing to do" at once: no request is sent,
    no INSERT is executed and the table is unchanged.  When [lastDate] is
    not the zero time and is before [today], the job sends exactly one
    request, for the range [lastDate + 1 day, today].  When [lastDate] is
    the zero time, it sends exactly one request, for [today, today]. *)
Theorem C2_backfill_range_planner
        (env : Proc.Env)
        (api : Z -> Z -> option (list Historico.HistoricoResponse))
        (w : Proc.World) :
  Proc.connect_ok env Proc.Local = true ->
  let today := GoTime.Truncate (Proc.now env) (24 * GoTime.Hour) in
  let lastDate := Historico.getLastDate env Proc.Local w in
  let r := Historico.main env api w in
  (lastDate
   = if Proc.last_date_ok env
     then default (GoTime.Date 1900 1 1 0 0 0 0)
                  (Proc.maxDate (Proc.table w Proc.Local))
     else GoTime.zero)
  /\ (lastDate <> GoTime.zero -> today <= lastDate ->
      (exists w', r = Proc.Ok Historico.UpToDate w')
      /\ Proc.api_log (Proc.final r) = Proc.api_log w
      /\ Proc.exec_log (Proc.final r) = Proc.exec_log w
      /\ Proc.table (Proc.final r) = Proc.table w)
  /\ (lastDate <> GoTime.zero -> lastDate < today ->
      Proc.api_log (Proc.final r)
      = Proc.api_log w ++ [(GoTime.AddDays lastDate 1, today)])
  /\ (lastDate = GoTime.zero ->
      Proc.api_log (Proc.final r) = Proc.api_log w ++ [(today, today)]).
Proof.
  intros Hconn today lastDate r. split_and!.
  - unfold lastDate, Historico.getLastDate, Proc.scanMaxDateOr1900.
    by destruct (Proc.last_date_ok env).
  - intros Hnz Hle.
    assert (Hz : GoTime.IsZero lastDate = false)
      by (unfold GoTime.IsZero; by apply Z.eqb_neq).
    unfold r. rewrite (historico_main_up_to_date env api w Hconn (conj Hz Hle)).
    split_and!; [by eexists | done | done | done].
  - intros Hnz Hlt.
    assert (Hz : GoTime.IsZero lastDate = false)
      by (unfold GoTime.IsZero; by apply Z.eqb_neq).
    unfold r. rewrite (historico_main_api_log env api w Hconn (or_intror Hlt)).
    fold lastDate. by rewrite Hz.
  - intros Hz0.
    assert (Hz : GoTime.IsZero lastDate = true)
      by (unfold GoTime.IsZero; by apply Z.eqb_eq).
    unfold r. rewrite (historico_main_api_log env api w Hconn (or_introl Hz)).
    fold lastDate. by rewrite Hz.
Qed.

(** C10.  In the backfill, once the table is not up to date and the
    request returns a response, the insertion pass executes an INSERT for
    exactly the detail records whose date parses, day after day: the
    selection [Spec.historicoAttempt] looks at the record's own date only
    to parse it and never compares it with the last stored date, so a
    record dated on or before the last stored date is inserted like any
    other.  The last stored date only enters through the range that was
    requested. *)
Theorem C10_backfill_inserts_every_parsed_detail
        (env : Proc.Env)
        (api : Z -> Z -> option (list Historico.HistoricoResponse))
        (w : Proc.World) (data : list Historico.HistoricoResponse) :
  Proc.connect_ok env Proc.Local = true ->
  Proc.prepare_ok env = true ->
  let today := GoTime.Truncate (Proc.now env) (24 * GoTime.Hour) in
  let lastDate := Historico.getLastDate env Proc.Local w in
  let desde := if GoTime.IsZero lastDate then today else GoTime.AddDays lastDate 1 in
  (GoTime.IsZero lastDate = true \/ lastDate < today) ->
  api desde today = Some data ->
  let w' := Proc.final (Historico.main env api w) in
  Spec.loads env Proc.Local Historico.insertCols w w'
             (omap Spec.historicoAttempt (Spec.allDetails data))
  /\ (forall d fecha,
        d ∈ Spec.allDetails data ->
        GoTime.Parse "2006-01-02T15:04:05" (Historico.Fecha d) = Some fecha ->
        fecha <= lastDate ->
        (Proc.Local, Historico.execArgs fecha d) ∈ Proc.exec_log w').
Proof.
  intros Hconn Hprep today lastDate desde Hgo Hapi w'.
  assert (Hloads : Spec.loads env Proc.Local Historico.insertCols w w'
                     (omap Spec.historicoAttempt (Spec.allDetails data))).
  { unfold w'. rewrite (historico_main_fetch env api w Hconn Hgo).
    fold today lastDate desde. rewrite Hapi.
    case_bool_decide as Hnil.
    - rewrite Hnil. simpl. unfold Spec.loads. simpl.
      rewrite app_nil_r. split_and!; [done | done |].
      intros _. by rewrite app_nil_r.
    - rewrite historico_insert by done.
      pose proof (loads_execAll_from env Proc.Local Historico.insertCols w
                    (Spec.requested desde today (Spec.connected Proc.Local w)) 0%nat
                    (omap Spec.historicoAttempt (Spec.allDetails data))
                    eq_refl eq_refl (historico_attempt_arity _)) as H.
      exact H. }
  split; [done |].
  intros d fecha Hin Hp _.
  apply (loads_attempted env Proc.Local Historico.insertCols w w' _ _ Hloads).
  apply list_elem_of_omap. exists d. split; [done |].
  unfold Spec.historicoAttempt. by rewrite Hp.
Qed.

(* ===================================================================== *)
(** * Verification: the local -> cloud copy *)
(* ===================================================================== *)

Section sync_facts.
Import GoTime Proc Spec.
Context (env : Env).

#[local] Instance dateLe_total : Total Sync.dateLe.
Proof. intros r1 r2. unfold Sync.dateLe. lia. Qed.

(** The variables scanned are the variables passed on, in the same
    order. *)
Lemma sync_vars_aligned : Sync.destVar <$> Sync.scanDests = Sync.execVars.
Proof. reflexivity. Qed.

(** A tuple of the result set whose date is not NULL scans, and the
    arguments passed to [Exec] are the tuple itself. *)
Lemma sync_scan_exec (tuple : list Value) :
  length tuple = length Sync.selectCols ->
  head tuple <> Some VNull ->
  exists locals, Sync.Scan Sync.scanDests tuple = Some locals
                 /\ Sync.execArgs locals = tuple.
Proof.
  intros Hlen Hdate.
  exists (list_to_map (zip (Sync.destVar <$> Sync.scanDests) tuple)). split.
  - unfold Sync.Scan.
    rewrite bool_decide_eq_true_2 by (by rewrite Hlen).
    assert (Htakes : forallb (fun dv => Sync.destTakes dv.1 dv.2)
                             (zip Sync.scanDests tuple) = true).
    { do 24 (destruct tuple as [|? tuple]; try discriminate Hlen).
      simpl in Hdate. simpl. by destruct v. }
    by rewrite Htakes.
  - unfold Sync.execArgs. rewrite sync_vars_aligned.
    apply bind_read_back; [apply sync_vars_NoDup | by rewrite Hlen].
Qed.

(** The date column of a row the WHERE clause lets through is a date. *)
Lemma newer_date_not_null cutoff r :
  Sync.newer cutoff r = true ->
  head (col r <$> Sync.selectCols) <> Some VNull.
Proof.
  unfold Sync.newer, rowDate, col. simpl.
  destruct (r !! "date") as [[]|]; simpl; congruence.
Qed.

(** The copy loop executes one INSERT per row read, with the tuple read
    as its arguments. *)
Lemma sync_loop cutoff rows st :
  Forall (fun r => Sync.newer cutoff r = true) rows ->
  foldl (Sync.rowBody env Cloud) st ((fun r => col r <$> Sync.selectCols) <$> rows)
  = execAll env Cloud Sync.insertCols st
            ((fun r => col r <$> Sync.selectCols) <$> rows).
Proof.
  intros Hall. revert st.
  induction Hall as [|r rows Hr _ IH]; intros [k w]; [done |].
  rewrite fmap_cons. cbn [foldl]. rewrite IH.
  unfold execAll. cbn [foldl]. f_equal.
  unfold Sync.rowBody, execCount.
  destruct (sync_scan_exec (col r <$> Sync.selectCols)) as (locals & -> & ->).
  - by rewrite length_fmap.
  - by apply (newer_date_not_null cutoff).
  - simpl. by destruct (Exec env Cloud Sync.insertCols _ w) as [[] w'].
Qed.

Lemma sync_selected_arity (rows : list Row) :
  Forall (fun args => length Sync.insertCols = length args)
         ((fun r => col r <$> Sync.selectCols) <$> rows).
Proof.
  apply Forall_forall. intros args Hin.
  apply list_elem_of_fmap in Hin as (r & -> & _). by rewrite length_fmap.
Qed.

(** [Sync.main] when every request to the servers succeeds. *)
Lemma sync_main w :
  connect_ok env Local = true -> connect_ok env Cloud = true ->
  last_date_ok env = true -> select_ok env = true -> prepare_ok env = true ->
  final (Sync.main env w)
  = Close Local (Close Cloud
      (execAll env Cloud Sync.insertCols
         (0%nat, connected Cloud (connected Local w))
         ((fun r => col r <$> Sync.selectCols)
            <$> merge_sort Sync.dateLe
                  (List.filter (Sync.newer (syncCutoff w)) (table w Local)))).2).
Proof.
  intros HcL HcC Hq Hsel Hprep.
  unfold Sync.main, Sync.connectDB, bind, defer, Connect, ret, fatal.
  rewrite HcL, HcC. unfold scanMaxDateOr1900, Sync.Query, Prepare.
  rewrite Hq, Hsel, Hprep. simpl negb. cbv iota.
  change (table (mkWorld (table (mkWorld (table w) _ _ _)) _ _ _)) with (table w).
  fold (syncCutoff w).
  change (mkWorld (table (mkWorld (table w) (Local :: open_conns w) (exec_log w)
                                  (api_log w)))
                  (Cloud :: open_conns (mkWorld (table w) (Local :: open_conns w)
                                                (exec_log w) (api_log w)))
                  (exec_log (mkWorld (table w) (Local :: open_conns w)
                                     (exec_log w) (api_log w)))
                  (api_log (mkWorld (table w) (Local :: open_conns w)
                                    (exec_log w) (api_log w))))
    with (connected Cloud (connected Local w)).
  rewrite (sync_loop (syncCutoff w)).
  - by destruct (execAll _ _ _ _ _).
  - apply Forall_forall. intros r Hr.
    rewrite merge_sort_Permutation in Hr.
    apply list_elem_of_In, filter_In in Hr. by destruct Hr.
Qed.

Lemma sync_copies w :
  connect_ok env Local = true -> connect_ok env Cloud = true ->
  last_date_ok env = true -> select_ok env = true -> prepare_ok env = true ->
  syncCopies env w (final (Sync.main env w)) (syncCutoff w)
  /\ table (final (Sync.main env w)) Local = table w Local.
Proof.
  intros HcL HcC Hq Hsel Hprep. rewrite sync_main by done.
  unfold syncCopies. cbv zeta. split_and!.
  - apply merge_sort_Permutation.
  - apply Sorted_merge_sort. apply _.
  - pose proof (loads_execAll_from env Cloud Sync.insertCols w
                  (connected Cloud (connected Local w)) 0%nat _
                  eq_refl eq_refl (sync_selected_arity
                     (merge_sort Sync.dateLe
                        (List.filter (Sync.newer (syncCutoff w)) (table w Local)))))
      as H.
    exact H.
  - change (table (Close Local (Close Cloud ?x))) with (table x).
    by rewrite execAll_table_other.
Qed.

(** Every column of the column list keeps its value from the source row
    to the row inserted. *)
Lemma sync_row_unmodified (r : Row) c :
  c ∈ Sync.insertCols ->
  col (insertedRow Sync.insertCols (col r <$> Sync.selectCols)) c = col r c.
Proof.
  intros Hc. unfold col at 1.
  change Sync.selectCols with Sync.insertCols.
  by rewrite (insertedRow_copy _ r c sync_cols_NoDup Hc).
Qed.

(** A source row that has exactly the columns of the column list is
    inserted as it is. *)
Lemma sync_row_identical (r : Row) :
  dom r = list_to_set Sync.insertCols ->
  insertedRow Sync.insertCols (col r <$> Sync.selectCols) = r.
Proof.
  intros Hdom. apply map_eq. intros c.
  destruct (decide (c ∈ Sync.insertCols)) as [Hc | Hc].
  - change Sync.selectCols with Sync.insertCols.
    rewrite (insertedRow_copy _ r c sync_cols_NoDup Hc).
    assert (Hin : c ∈ dom r) by (rewrite Hdom; by apply elem_of_list_to_set).
    apply elem_of_dom in Hin as [v Hv]. unfold col. by rewrite Hv.
  - rewrite insertedRow_lookup_None by done. symmetry.
    apply not_elem_of_dom. rewrite Hdom. by rewrite elem_of_list_to_set.
Qed.

End sync_facts.

(** C6 (amended).  When every request to the two servers succeeds, the
    copy reads exactly the source rows whose date is strictly greater
    than the cut-off, in ascending date order, and executes one INSERT on
    the destination per row read (the row is stored unless the
    destination rejects it); each of the 23 columns of the row inserted
    holds the value the source row has in that column, so a source row
    made of these 23 columns is inserted as it is; the source table is
    not changed.  The cut-off is the destination's maximum date, and
    1900-01-01 when the destination has no dated row: an empty
    destination receives the source rows dated strictly after
    1900-01-01. *)
Theorem C6_sync_copies_rows_after_cutoff (env : Proc.Env) (w : Proc.World) :
  Proc.connect_ok env Proc.Local = true ->
  Proc.connect_ok env Proc.Cloud = true ->
  Proc.last_date_ok env = true ->
  Proc.select_ok env = true ->
  Proc.prepare_ok env = true ->
  let w' := Proc.final (Sync.main env w) in
  (forall m, Proc.maxDate (Proc.table w Proc.Cloud) = Some m ->
     Spec.syncCopies env w w' m)
  /\ (Proc.maxDate (Proc.table w Proc.Cloud) = None ->
      Spec.syncCopies env w w' (GoTime.Date 1900 1 1 0 0 0 0))
  /\ (forall (r : gmap string Proc.Value) c,
        c ∈ Sync.insertCols ->
        Proc.col (Proc.insertedRow Sync.insertCols (Proc.col r <$> Sync.selectCols)) c
        = Proc.col r c)
  /\ (forall r : gmap string Proc.Value,
        dom r = list_to_set Sync.insertCols ->
        Proc.insertedRow Sync.insertCols (Proc.col r <$> Sync.selectCols) = r)
  /\ length Sync.insertCols = 23%nat
  /\ Proc.table w' Proc.Local = Proc.table w Proc.Local.
Proof.
  intros HcL HcC Hq Hsel Hprep w'.
  destruct (sync_copies env w HcL HcC Hq Hsel Hprep) as [Hcopies Hsrc].
  fold w' in Hcopies, Hsrc. unfold Spec.syncCutoff in Hcopies.
  split_and!.
  - intros m Hm. by rewrite Hm in Hcopies.
  - intros Hnone. by rewrite Hnone in Hcopies.
  - apply sync_row_unmodified.
  - apply sync_row_identical.
  - reflexivity.
  - exact Hsrc.
Qed.

(* ===================================================================== *)
(** * Verification: connections *)
(* ===================================================================== *)

Section connection_facts.
Import GoTime Proc Spec.
Context (env : Env).

Lemma remove_head_nil (db : Db) : List.remove Db_eq_dec db [db] = [].
Proof. simpl. by destruct (Db_eq_dec db db). Qed.

(** The current scraper ends with no connection open, however it
    ends. *)
Lemma current_main_releases apiKey response w :
  open_conns w = [] ->
  open_conns (final (Current.main env apiKey response w)) = [].
Proof.
  intros Hw. unfold Current.main, Current.fetchForexData, bind, fatal, ret.
  case_bool_decide; [done |].
  assert (Hsave : forall data,
             open_conns (final (Current.saveToDatabase env data w)) = []).
  { intros data.
    unfold Current.saveToDatabase, bind, Connect, defer, fatal, ret.
    case_bool_decide; [done |].
    destruct (connect_ok env Local); [| done].
    destruct (negb (Prepare env Local)).
    - simpl. by rewrite Hw.
    - rewrite current_loop. simpl. rewrite execAll_open_conns. simpl.
      by rewrite Hw. }
  destruct response as [[|d data]|]; try done.
  specialize (Hsave (d :: data)).
  by destruct (Current.saveToDatabase env (d :: data) w).
Qed.

(** So does the legacy scraper. *)
Lemma legacy_main_releases forexData w :
  open_conns w = [] ->
  open_conns (final (Legacy.main env forexData w)) = [].
Proof.
  intros Hw. unfold Legacy.main, bind, ret.
  destruct forexData as [rows|]; [| done].
  assert (Hsave : open_conns (final (Legacy.saveToDatabase env (Some rows) w)) = []).
  { unfold Legacy.saveToDatabase, bind, Connect, defer, fatal, ret.
    destruct rows as [|r rows]; [done |].
    destruct (connect_ok env Local); [| done].
    case_bool_decide.
    - simpl. by rewrite Hw.
    - destruct (negb (Prepare env Local)).
      + simpl. by rewrite Hw.
      + rewrite legacy_insert.
        destruct (execAll env Local Legacy.insertCols _ _) as [n w'] eqn:E.
        simpl.
        replace w' with (execAll env Local Legacy.insertCols
                           (0%nat, mkWorld (table w) (Local :: open_conns w)
                                           (exec_log w) (api_log w))
                           (foldl (Legacy.collectBody
                                     (default zero
                                        (scanMaxDate env Local
                                           (mkWorld (table w) (Local :: open_conns w)
                                              (exec_log w) (api_log w)))))
                                  [] (r :: rows))).2
          by (by rewrite E).
        rewrite execAll_open_conns. simpl. by rewrite Hw. }
  by destruct (Legacy.saveToDatabase env (Some rows) w).
Qed.

(** So does the backfill. *)
Lemma historico_main_releases api w :
  open_conns w = [] ->
  open_conns (final (Historico.main env api w)) = [].
Proof.
  intros Hw.
  unfold Historico.main, Historico.connectDB, bind, Connect, defer, fatal, ret,
    Historico.fetchHistoricoForex.
  destruct (connect_ok env Local); [| done].
  destruct (negb _ && negb _).
  - simpl. by rewrite Hw.
  - destruct (api _ _) as [data|].
    + case_bool_decide.
      * simpl. by rewrite Hw.
      * destruct (Historico.insertData env Local data _) as [n w'] eqn:E.
        simpl.
        assert (Ho : open_conns w' = [Local]).
        { revert E. unfold Historico.insertData.
          destruct (negb (Prepare env Local)).
          - intros [= _ <-]. simpl. by rewrite Hw.
          - rewrite historico_days. intros E.
            replace w' with (n, w').2 by done. rewrite <- E.
            rewrite execAll_open_conns. simpl. by rewrite Hw. }
        rewrite Ho. apply remove_head_nil.
    + simpl. by rewrite Hw.
Qed.

(** The copy job releases both connections when [main] returns. *)
Lemma sync_main_releases_on_return w :
  open_conns w = [] ->
  returned (Sync.main env w) = true ->
  open_conns (final (Sync.main env w)) = [].
Proof.
  intros Hw.
  unfold Sync.main, Sync.connectDB, bind, defer, Connect, ret, fatal.
  destruct (connect_ok env Local); [| done].
  destruct (connect_ok env Cloud); [| done].
  destruct (scanMaxDateOr1900 env Cloud _) as [lastDate|]; [| done].
  destruct (Sync.Query env Local lastDate _) as [rows|]; [| done].
  destruct (negb (Prepare env Cloud)); [done |].
  destruct (foldl (Sync.rowBody env Cloud) _ rows) as [n w'] eqn:E.
  intros _. simpl.
  assert (Ho : open_conns w' = [Cloud; Local]).
  { replace w' with (n, w').2 by done. rewrite <- E. clear E.
    generalize (0%nat). intros k.
    set (w0 := mkWorld _ _ _ _).
    assert (Hw0 : open_conns w0 = [Cloud; Local]) by (simpl; by rewrite Hw).
    clearbody w0. revert k w0 Hw0.
    induction rows as [|tuple rows IH]; intros k w0 Hw0; [done |].
    cbn [foldl]. unfold Sync.rowBody at 2.
    destruct (Sync.Scan Sync.scanDests tuple) as [locals|]; [| by apply IH].
    destruct (Exec env Cloud Sync.insertCols (Sync.execArgs locals) w0)
      as [ok w1] eqn:E1.
    assert (Hw1 : open_conns w1 = [Cloud; Local]).
    { replace w1 with (ok, w1).2 by done. rewrite <- E1.
      by rewrite Exec_open_conns. }
    destruct ok; by apply IH. }
  rewrite Ho. simpl.
  destruct (Db_eq_dec Cloud Cloud); [| done].
  destruct (Db_eq_dec Cloud Local); [done |]. simpl.
  by destruct (Db_eq_dec Local Local).
Qed.

(** The copy job exits with the local connection open when the cloud
    connection fails. *)
Lemma sync_main_fatal_keeps_local w :
  connect_ok env Local = true -> connect_ok env Cloud = false ->
  Sync.main env w = Fatal (connected Local w).
Proof.
  intros HcL HcC.
  unfold Sync.main, Sync.connectDB, bind, defer, Connect, ret, fatal.
  by rewrite HcL, HcC.
Qed.

End connection_facts.

(** Every job but the copy job ends with no connection open, however it
    ends (their only fatal exits come before a connection is open); the
    copy job ends with none open when [main] returns. *)
Theorem connections_released (env : Proc.Env) (w : Proc.World) :
  Proc.open_conns w = [] ->
  (forall apiKey response,
     Proc.open_conns (Proc.final (Current.main env apiKey response w)) = [])
  /\ (forall forexData,
        Proc.open_conns (Proc.final (Legacy.main env forexData w)) = [])
  /\ (forall api,
        Proc.open_conns (Proc.final (Historico.main env api w)) = [])
  /\ (Proc.returned (Sync.main env w) = true ->
      Proc.open_conns (Proc.final (Sync.main env w)) = []).
Proof.
  intros Hw. split_and!.
  - intros apiKey response. by apply current_main_releases.
  - intros forexData. by apply legacy_main_releases.
  - intros api. by apply historico_main_releases.
  - by apply sync_main_releases_on_return.
Qed.

(** The counters the current scraper reports: the rows added to the
    table, and the records left out by the cut-off. *)
Theorem current_counters (env : Proc.Env) (w : Proc.World)
        (data : list Current.ForexData) :
  data <> [] ->
  Proc.connect_ok env Proc.Local = true ->
  Proc.prepare_ok env = true ->
  exists w',
    Current.saveToDatabase env data w
    = Proc.Ok (Current.Loaded
                 (Current.mkCounters
                    (length (Proc.table w' Proc.Local)
                     - length (Proc.table w Proc.Local))
                    (length (List.filter
                               (Spec.currentStale (Spec.effectiveCutoff env w))
                               data))))
              w'.
Proof.
  intros Hne Hconn Hprep. eexists. rewrite current_save by done.
  f_equal. f_equal. f_equal.
  rewrite execAll_count.
  change (Proc.table (Proc.Close Proc.Local ?x)) with (Proc.table x).
  rewrite execAll_table. simpl. reflexivity.
Qed.

(** The other two derivation rules: "T" becomes "ART", "Minorista"
    becomes "CAM2", "Mayorista" becomes "CAM1", and every other value
    passes through. *)
Theorem derive_currency_in_and_rueda :
  (Current.deriveCurrencyIn "T" = "ART"
   /\ Historico.deriveCurrencyIn "T" = "ART"
   /\ (forall X, X <> "T" ->
         Current.deriveCurrencyIn X = X /\ Historico.deriveCurrencyIn X = X))
  /\ (Current.deriveRueda "Minorista" = "CAM2"
      /\ Current.deriveRueda "Mayorista" = "CAM1"
      /\ Historico.deriveRueda "Minorista" = "CAM2"
      /\ Historico.deriveRueda "Mayorista" = "CAM1"
      /\ (forall X, X <> "Minorista" -> X <> "Mayorista" ->
            Current.deriveRueda X = X /\ Historico.deriveRueda X = X)).
Proof.
  split.
  - split_and!; [done | done |].
    intros X HX. unfold Current.deriveCurrencyIn, Historico.deriveCurrencyIn.
    by rewrite bool_decide_eq_false_2.
  - split_and!; [done | done | done | done |].
    intros X H1 H2. unfold Current.deriveRueda, Historico.deriveRueda.
    by rewrite !bool_decide_eq_false_2.
Qed.

(* ===================================================================== *)
(** * The theorems at sample runs *)
(* ===================================================================== *)

(** The specification's example for C1: with cut-off 2024-11-14, the
    candidate dated 2024-11-14 is skipped and the one dated 2024-11-15 is
    inserted. *)
Lemma C1_incremental_load_witness :
  let w := Samples.world [Samples.storedOn (Samples.day 2024 11 14)] [] in
  let q14 := Samples.quote "2024-11-14T00:00:00" "USB$T" "000" "" in
  let q15 := Samples.quote "2024-11-15T00:00:00" "USB$T" "000" "" in
  let w' := Proc.final (Current.saveToDatabase Samples.env [q14; q15] w) in
  Proc.maxDate (Proc.table w Proc.Local) = Some (Samples.day 2024 11 14)
  /\ Spec.loads Samples.env Proc.Local Current.insertCols w w'
                [Current.execArgs (Samples.day 2024 11 15) q15].
Proof.
  intros w q14 q15 w'. split; [vm_compute; reflexivity |].
  refine (proj1 (proj1 (C1_incremental_load_cutoff Samples.env w
                          eq_refl eq_refl eq_refl) [q14; q15] _)
                (Samples.day 2024 11 14) _ _).
  - discriminate.
  - vm_compute. reflexivity.
  - vm_compute. discriminate.
Defined.

(** The claim C1 as stated fails at the cut-off 0001-01-01: the table's
    maximum date is the zero time, the candidate is dated 0001-01-01 too,
    so its date is not strictly greater than the cut-off and the claim
    selects nothing; yet the load executes its INSERT and the table grows
    by one row. *)
Lemma C1_zero_cutoff_counterexample :
  let w := Samples.world [Samples.storedOn GoTime.zero] [] in
  let q := Samples.quote "0001-01-01T00:00:00" "USB$T" "000" "" in
  let w' := Proc.final (Current.saveToDatabase Samples.env [q] w) in
  Proc.maxDate (Proc.table w Proc.Local) = Some GoTime.zero
  /\ GoTime.Parse "2006-01-02T15:04:05" (Current.Fecha q) = Some GoTime.zero
  /\ omap (Spec.currentSelected (Proc.maxDate (Proc.table w Proc.Local))) [q] = []
  /\ Proc.exec_log w' = [(Proc.Local, Current.execArgs GoTime.zero q)]
  /\ length (Proc.table w Proc.Local) = 1%nat
  /\ length (Proc.table w' Proc.Local) = 2%nat.
Proof. vm_compute. repeat split. Qed.

(** The specification's example for C2: last stored date 2024-11-10 and
    today 2024-11-13 give the range [2024-11-11, 2024-11-13]. *)
Lemma C2_backfill_range_witness :
  let w := Samples.world [Samples.storedOn (Samples.day 2024 11 10)] [] in
  let r := Historico.main Samples.env (fun _ _ => None) w in
  Proc.api_log (Proc.final r)
  = [(Samples.day 2024 11 11, Samples.day 2024 11 13)].
Proof.
  intros w r.
  refine (proj1 (proj2 (proj2 (C2_backfill_range_planner Samples.env
                                 (fun _ _ => None) w eq_refl))) _ _).
  - vm_compute. discriminate.
  - vm_compute. reflexivity.
Defined.

(** The claim C2 as stated fails on an empty table: there is no last
    stored date, yet the range requested starts on 1900-01-02, not
    today. *)
Lemma C2_empty_table_counterexample :
  let w := Samples.world [] [] in
  let today := GoTime.Truncate (Proc.now Samples.env) (24 * GoTime.Hour) in
  let r := Historico.main Samples.env (fun _ _ => None) w in
  Proc.maxDate (Proc.table w Proc.Local) = None
  /\ today = Samples.day 2024 11 13
  /\ Proc.api_log (Proc.final r) = [(Samples.day 1900 1 2, today)]
  /\ Samples.day 1900 1 2 <> today.
Proof. vm_compute. repeat split. discriminate. Qed.

Lemma C3_sentinel_witness :
  let w := Samples.world [] [] in
  let q := Samples.quote "2024-11-15T00:00:00" "USB$T" "000"
                         "0001-01-01T00:00:00" in
  let d := Samples.detail "2024-11-15T00:00:00" "USB$T" "000"
                          "0001-01-01T00:00:00" in
  let data := [Historico.mkHistoricoResponse "2024-11-15T00:00:00" 0 [d]] in
  let fecha := Samples.day 2024 11 15 in
  (Proc.insertedRow Current.insertCols (Current.execArgs fecha q) !! "settle_date"
   = Some Proc.VNull
   /\ (Proc.Local, Current.execArgs fecha q)
        ∈ Proc.exec_log (Proc.final (Current.saveToDatabase Samples.env [q] w))
   /\ Proc.insertedRow Current.insertCols (Current.execArgs fecha q)
        ∈ Proc.table (Proc.final (Current.saveToDatabase Samples.env [q] w))
                     Proc.Local)
  /\ (Proc.insertedRow Historico.insertCols (Historico.execArgs fecha d)
        !! "settle_date" = Some Proc.VNull
      /\ (Proc.Local, Historico.execArgs fecha d)
           ∈ Proc.exec_log (Historico.insertData Samples.env Proc.Local data w).2
      /\ Proc.insertedRow Historico.insertCols (Historico.execArgs fecha d)
           ∈ Proc.table (Historico.insertData Samples.env Proc.Local data w).2
                        Proc.Local).
Proof.
  intros w q d data fecha.
  pose proof (C3_sentinel_settle_date_is_null Samples.env w eq_refl eq_refl)
    as [Hcur Hhis].
  split.
  - destruct (Hcur [q] q fecha) as (Hnull & Hlog & Htbl).
    + left.
    + reflexivity.
    + vm_compute. reflexivity.
    + left. vm_compute. reflexivity.
    + split_and!; [exact Hnull | exact Hlog | apply Htbl; reflexivity].
  - destruct (Hhis data d fecha) as (Hnull & Hlog & Htbl).
    + left.
    + reflexivity.
    + vm_compute. reflexivity.
    + split_and!; [exact Hnull | exact Hlog | apply Htbl; reflexivity].
Defined.

Lemma C4_unparseable_date_witness :
  let bad := Samples.quote "not a date" "USB$T" "000" "" in
  let q14 := Samples.quote "2024-11-14T00:00:00" "USB$T" "000" "" in
  let q15 := Samples.quote "2024-11-15T00:00:00" "USB$T" "000" "" in
  let badDetail := Samples.detail "" "USB$T" "000" "" in
  let d14 := Samples.detail "2024-11-14T00:00:00" "USB$T" "000" "" in
  let w := Samples.world [] [] in
  let st := (Current.mkCounters 0 0, w) in
  foldl (Current.loopBody Samples.env Proc.Local GoTime.zero) st
        ([q14] ++ bad :: [q15])
  = foldl (Current.loopBody Samples.env Proc.Local GoTime.zero) st
          ([q14] ++ [q15])
  /\ Proc.returned (Current.saveToDatabase Samples.env [q14; bad; q15] w) = true
  /\ Historico.insertData Samples.env Proc.Local
       ([] ++ Historico.mkHistoricoResponse "2024-11-14T00:00:00" 0
                ([] ++ badDetail :: [d14]) :: []) w
     = Historico.insertData Samples.env Proc.Local
         ([] ++ Historico.mkHistoricoResponse "2024-11-14T00:00:00" 0
                  ([] ++ [d14]) :: []) w.
Proof.
  intros bad q14 q15 badDetail d14 w st.
  pose proof (C4_unparseable_date_dropped Samples.env) as (Hloop & Hret & Hpass).
  split_and!.
  - apply Hloop. vm_compute. reflexivity.
  - apply Hret. reflexivity.
  - apply Hpass. vm_compute. reflexivity.
Defined.

Lemma C5_optional_field_witness :
  let w := Samples.world [] [] in
  let q := Samples.quote "2024-11-15T00:00:00" "USMEP" "CI" "2024-11-15" in
  let fr := Samples.frameRow "2024-11-15" (Proc.VText "48hs") (Proc.VText "241315") in
  let fecha := Samples.day 2024 11 15 in
  ((Proc.Local, Current.execArgs fecha q)
     ∈ Proc.exec_log (Proc.final (Current.saveToDatabase Samples.env [q] w))
   /\ Proc.insertedRow Current.insertCols (Current.execArgs fecha q) !! "settle"
      = Some Proc.VNull
   /\ Proc.insertedRow Current.insertCols (Current.execArgs fecha q) !! "settle_date"
      = Some Proc.VNull)
  /\ ((Proc.Local, Legacy.rowValues fecha fr)
        ∈ Proc.exec_log (Proc.final (Legacy.saveToDatabase Samples.env (Some [fr]) w))
      /\ Proc.insertedRow Legacy.insertCols (Legacy.rowValues fecha fr) !! "settle"
         = Some Proc.VNull
      /\ Proc.insertedRow Legacy.insertCols (Legacy.rowValues fecha fr)
           !! "settle_date" = Some Proc.VNull).
Proof.
  intros w q fr fecha.
  pose proof (C5_optional_field_failure_is_null Samples.env w eq_refl eq_refl)
    as [Hcur Hleg].
  split.
  - destruct (Hcur [q] q fecha) as (Hlog & _ & Hsettle & Hdate).
    + left.
    + vm_compute. reflexivity.
    + left. vm_compute. reflexivity.
    + split_and!.
      * exact Hlog.
      * apply Hsettle. vm_compute. reflexivity.
      * apply Hdate. vm_compute. reflexivity.
  - destruct (Hleg [fr] fr fecha) as (Hlog & _ & Hsettle & Hdate).
    + left.
    + vm_compute. reflexivity.
    + left. vm_compute. reflexivity.
    + split_and!.
      * exact Hlog.
      * apply (Hsettle "48hs"); [reflexivity | vm_compute; reflexivity].
      * apply (Hdate "241315"); [reflexivity | vm_compute; reflexivity].
Defined.

Lemma C6_sync_witness :
  let s13 := Samples.storedOn (Samples.day 2024 11 13) in
  let s14 := Samples.storedOn (Samples.day 2024 11 14) in
  let s15 := Samples.storedOn (Samples.day 2024 11 15) in
  let w := Samples.world [s15; s13; s14] [s13] in
  let w' := Proc.final (Sync.main Samples.env w) in
  Spec.syncCopies Samples.env w w' (Samples.day 2024 11 13)
  /\ Proc.rowDate <$> Proc.table w' Proc.Cloud
     = [Some (Samples.day 2024 11 13); Some (Samples.day 2024 11 14);
        Some (Samples.day 2024 11 15)].
Proof.
  intros s13 s14 s15 w w'.
  pose proof (C6_sync_copies_rows_after_cutoff Samples.env w
                eq_refl eq_refl eq_refl eq_refl eq_refl) as (Hmax & _).
  assert (Hc : Spec.syncCopies Samples.env w w' (Samples.day 2024 11 13)).
  { apply Hmax. vm_compute. reflexivity. }
  split; [exact Hc |].
  vm_compute. reflexivity.
Defined.

(** The claim C6 as stated fails for a source row dated before
    1900-01-01: the destination has no rows, the source has one, and
    after the copy the destination is still empty, so it did not receive
    a full copy. *)
Lemma C6_full_copy_counterexample :
  let old := Samples.storedOn (Samples.day 1899 12 31) in
  let w := Samples.world [old] [] in
  let r := Sync.main Samples.env w in
  Proc.table w Proc.Cloud = []
  /\ Proc.rowDate <$> Proc.table w Proc.Local = [Some (Samples.day 1899 12 31)]
  /\ Proc.returned r = true
  /\ Proc.exec_log (Proc.final r) = []
  /\ Proc.table (Proc.final r) Proc.Cloud = [].
Proof. vm_compute. repeat split. Qed.

(** C9 fails on the copy job's fatal exits.  When the cloud connection
    is refused after the local one was opened, [log.Fatalf] ends the
    process with the local connection still open: the deferred
    [localConn.Close] never runs.  When the last-date query fails, both
    connections are still open. *)
Theorem C9_sync_fatal_exit_keeps_connections_open :
  let w := Samples.world [] [] in
  (Proc.returned (Sync.main Samples.envCloudDown w) = false
   /\ Proc.open_conns (Proc.final (Sync.main Samples.envCloudDown w))
      = [Proc.Local])
  /\ (Proc.returned (Sync.main Samples.envQueryDown w) = false
      /\ Proc.open_conns (Proc.final (Sync.main Samples.envQueryDown w))
         = [Proc.Cloud; Proc.Local]).
Proof. vm_compute. repeat split. Qed.

Lemma C10_backfill_witness :
  let w := Samples.world [Samples.storedOn (Samples.day 2024 11 12)] [] in
  let d10 := Samples.detail "2024-11-10T00:00:00" "USB$T" "000" "" in
  let d13 := Samples.detail "2024-11-13T00:00:00" "USB$T" "000" "" in
  let data := [Historico.mkHistoricoResponse "2024-11-13T00:00:00" 0 [d10; d13]] in
  let w' := Proc.final (Historico.main Samples.env (fun _ _ => Some data) w) in
  Historico.getLastDate Samples.env Proc.Local w = Samples.day 2024 11 12
  /\ Spec.loads Samples.env Proc.Local Historico.insertCols w w'
                [Historico.execArgs (Samples.day 2024 11 10) d10;
                 Historico.execArgs (Samples.day 2024 11 13) d13]
  /\ (Proc.Local, Historico.execArgs (Samples.day 2024 11 10) d10)
       ∈ Proc.exec_log w'.
Proof.
  intros w d10 d13 data w'.
  split; [vm_compute; reflexivity |].
  pose proof (C10_backfill_inserts_every_parsed_detail Samples.env
                (fun _ _ => Some data) w data eq_refl eq_refl) as H.
  cbv zeta in H.
  destruct H as [Hloads Hold].
  - right. vm_compute. reflexivity.
  - reflexivity.
  - split; [exact Hloads |].
    apply (Hold d10 (Samples.day 2024 11 10)).
    + left.
    + vm_compute. reflexivity.
    + vm_compute. discriminate.
Defined.

(* ===================================================================== *)
(** * Examples *)
(* ===================================================================== *)

(** The asymmetry of C8: the term "000" is kept as text in [instrumento]
    while [settle] holds the integer 0. *)
Example instrumento_keeps_raw_term :
  let q := Samples.quote "2024-11-15T00:00:00" "USB$T" "000" "" in
  let row := Proc.insertedRow Current.insertCols
                              (Current.execArgs (Samples.day 2024 11 15) q) in
  row !! "instrumento" = Some (Proc.VText "USB / ART 000")
  /\ row !! "settle" = Some (Proc.VInt 0)
  /\ Current.buildInstrumento "USB" "ART" "000" = "USB / ART 000".
Proof. vm_compute. repeat split. Qed.

Example derive_examples :
  Current.deriveCurrencyOut "USB$T" = "USB"
  /\ Current.deriveCurrencyOut "USMEP" = "USMEP"
  /\ Current.deriveCurrencyOut "$T" = ""
  /\ Current.deriveCurrencyIn "T" = "ART"
  /\ Current.deriveRueda "Minorista" = "CAM2"
  /\ Current.deriveRueda "Mayorista" = "CAM1"
  /\ Current.deriveRueda "Otro" = "Otro".
Proof. vm_compute. repeat split. Qed.

(** A load run twice with the table unchanged in between by anyone else:
    the second run inserts nothing. *)
Example rerun_inserts_nothing :
  let q14 := Samples.quote "2024-11-14T00:00:00" "USB$T" "000" "" in
  let q15 := Samples.quote "2024-11-15T00:00:00" "USMEP" "001" "" in
  let w0 := Samples.world [] [] in
  let w1 := Proc.final (Current.saveToDatabase Samples.env [q14; q15] w0) in
  let w2 := Proc.final (Current.saveToDatabase Samples.env [q14; q15] w1) in
  length (Proc.table w1 Proc.Local) = 2%nat
  /\ length (Proc.table w2 Proc.Local) = 2%nat
  /\ Proc.exec_log w2 = Proc.exec_log w1.
Proof. vm_compute. repeat split. Qed.

Module GoTimeExamples.
Import GoTime.

Example parse_zero : Parse "2006-01-02T15:04:05" "0001-01-01T00:00:00" = Some 0.
Proof. reflexivity. Qed.

Example parse_day_step :
  Parse "2006-01-02T15:04:05" "2024-11-15T00:00:00"
  = (fun t => AddDays t 1) <$> Parse "2006-01-02" "2024-11-14".
Proof. vm_compute. reflexivity. Qed.

Example parse_leap : Parse "2006-01-02" "2023-02-29" = None
                     /\ is_Some (Parse "2006-01-02" "2024-02-29").
Proof. split; [reflexivity | vm_compute; eauto]. Qed.

Example parse_yymmdd : Parse "060102" "241115" = Parse "2006-01-02" "2024-11-15".
Proof. reflexivity. Qed.

Example parse_extra_text : Parse "2006-01-02" "2024-11-15T00:00:00" = None.
Proof. reflexivity. Qed.

Example atoi_examples :
  Strconv.Atoi "000" = Some 0 /\ Strconv.Atoi "48" = Some 48
  /\ Strconv.Atoi "" = None /\ Strconv.Atoi "CI" = None
  /\ Strconv.Atoi "-7" = Some (-7).
Proof. repeat split; reflexivity. Qed.
End GoTimeExamples.

Lemma connections_released_witness :
  let w := Samples.world [] [] in
  Proc.open_conns
    (Proc.final (Current.main Samples.env "key"
                   (Some [Samples.quote "2024-11-15T00:00:00" "USB$T" "000" ""]) w))
  = []
  /\ Proc.open_conns (Proc.final (Sync.main Samples.env w)) = [].
Proof.
  intros w.
  pose proof (connections_released Samples.env w eq_refl) as (Hcur & _ & _ & Hsync).
  split; [apply Hcur | apply Hsync; reflexivity].
Defined.

Lemma current_counters_witness :
  let w := Samples.world [Samples.storedOn (Samples.day 2024 11 14)] [] in
  let q14 := Samples.quote "2024-11-14T00:00:00" "USB$T" "000" "" in
  let q15 := Samples.quote "2024-11-15T00:00:00" "USB$T" "000" "" in
  exists w',
    Current.saveToDatabase Samples.env [q14; q15] w
    = Proc.Ok (Current.Loaded
                 (Current.mkCounters
                    (length (Proc.table w' Proc.Local)
                     - length (Proc.table w Proc.Local))
                    (length (List.filter
                               (Spec.currentStale (Spec.effectiveCutoff Samples.env w))
                               [q14; q15]))))
              w'.
Proof.
  intros w q14 q15.
  apply (current_counters Samples.env w [q14; q15]);
    [discriminate | reflexivity | reflexivity].
Defined.

Example counters_example :
  let w := Samples.world [Samples.storedOn (Samples.day 2024 11 14)] [] in
  let q14 := Samples.quote "2024-11-14T00:00:00" "USB$T" "000" "" in
  let q15 := Samples.quote "2024-11-15T00:00:00" "USB$T" "000" "" in
  match Current.saveToDatabase Samples.env [q14; q15] w with
  | Proc.Ok (Current.Loaded n) _ => Some n
  | _ => None
  end = Some (Current.mkCounters 1 1).
Proof. vm_compute. reflexivity. Qed.

Section trace_facts.
Import GoTime Proc Spec.
Context (env : Env).

Lemma onlyInserts_nothing db cols w w' :
  table w' = table w -> exec_log w' = exec_log w ->
  Trace.onlyInserts env db cols w w' [].
Proof.
  intros Ht Hl. unfold Trace.onlyInserts. rewrite Ht, Hl. simpl.
  rewrite app_nil_r. by split_and!.
Qed.

Lemma onlyInserts_execAll db cols w w0 k sel :
  table w0 = table w -> exec_log w0 = exec_log w ->
  Trace.onlyInserts env db cols w (execAll env db cols (k, w0) sel).2 sel.
Proof.
  intros Ht Hl. unfold Trace.onlyInserts.
  rewrite execAll_exec_log, execAll_table. simpl. rewrite Ht, Hl.
  split_and!; [done | done |].
  intros db' Hne. rewrite execAll_table_other by done. simpl. by rewrite Ht.
Qed.

Lemma current_main_trace apiKey response w :
  Trace.onlyInserts env Local Current.insertCols w
    (final (Current.main env apiKey response w))
    (Trace.current env apiKey response w).
Proof.
  unfold Current.main, Current.fetchForexData, Trace.current, bind, fatal, ret.
  case_bool_decide as Hkey; simpl.
  { destruct response; by apply onlyInserts_nothing. }
  destruct response as [[|d data]|]; simpl;
    [ destruct (_ && _); by apply onlyInserts_nothing
    | | by apply onlyInserts_nothing ].
  destruct (connect_ok env Local) eqn:Hconn; simpl.
  - destruct (prepare_ok env) eqn:Hprep.
    + pose proof (current_save env (d :: data) w) as Hsave.
      rewrite Hsave by done. simpl.
      apply (onlyInserts_execAll Local Current.insertCols w (connected Local w));
        done.
    + unfold Current.saveToDatabase, bind, Connect, defer, Prepare. simpl.
      rewrite Hconn, Hprep. simpl. by apply onlyInserts_nothing.
  - unfold Current.saveToDatabase, bind, Connect, defer, fatal. simpl.
    rewrite Hconn. simpl. by apply onlyInserts_nothing.
Qed.

Lemma legacy_main_trace forexData w :
  Trace.onlyInserts env Local Legacy.insertCols w
    (final (Legacy.main env forexData w))
    (Trace.legacy env forexData w).
Proof.
  unfold Legacy.main, Trace.legacy, bind, ret.
  destruct forexData as [rows|]; [| by apply onlyInserts_nothing].
  assert (Hsave : Trace.onlyInserts env Local Legacy.insertCols w
                    (final (Legacy.saveToDatabase env (Some rows) w))
                    (if connect_ok env Local && prepare_ok env
                     then omap (legacySelected (effectiveCutoff env w)) rows
                     else [])).
  { destruct rows as [|r rows].
    - simpl. destruct (_ && _); by apply onlyInserts_nothing.
    - destruct (connect_ok env Local) eqn:Hconn; cbn [andb].
      + destruct (prepare_ok env) eqn:Hprep.
        * rewrite legacy_save by done.
          apply (onlyInserts_execAll Local Legacy.insertCols w
                   (connected Local w)); done.
        * unfold Legacy.saveToDatabase, bind, Connect, defer, Prepare.
          rewrite Hconn, Hprep. simpl.
          case_bool_decide; by apply onlyInserts_nothing.
      + unfold Legacy.saveToDatabase, bind, Connect, defer, fatal.
        rewrite Hconn. by apply onlyInserts_nothing. }
  by destruct (Legacy.saveToDatabase env (Some rows) w).
Qed.

Lemma historico_main_trace api w :
  Trace.onlyInserts env Local Historico.insertCols w
    (final (Historico.main env api w))
    (Trace.historico env api w).
Proof.
  unfold Trace.historico. cbv zeta.
  destruct (connect_ok env Local) eqn:Hconn; simpl.
  2: { unfold Historico.main, Historico.connectDB, bind, Connect, defer, fatal.
       rewrite Hconn. by apply onlyInserts_nothing. }
  destruct (negb (IsZero (Historico.getLastDate env Local w))
            && negb (Before (Historico.getLastDate env Local w)
                            (Truncate (now env) (24 * Hour)))) eqn:Hup; simpl.
  - apply andb_true_iff in Hup as [Hnz Hnb].
    apply negb_true_iff in Hnz, Hnb. unfold Before in Hnb.
    apply Z.ltb_ge in Hnb.
    rewrite (historico_main_up_to_date env api w Hconn (conj Hnz Hnb)).
    by apply onlyInserts_nothing.
  - assert (Hgo : IsZero (Historico.getLastDate env Local w) = true
                  \/ Historico.getLastDate env Local w
                     < Truncate (now env) (24 * Hour)).
    { apply andb_false_iff in Hup as [Hz | Hb].
      - left. by apply negb_false_iff in Hz.
      - right. apply negb_false_iff in Hb. by apply Z.ltb_lt in Hb. }
    rewrite (historico_main_fetch env api w Hconn Hgo).
    destruct (api _ _) as [data|].
    + case_bool_decide as Hnil.
      * rewrite Hnil. simpl. destruct (prepare_ok env);
          by apply onlyInserts_nothing.
      * destruct (prepare_ok env) eqn:Hprep.
        -- rewrite historico_insert by done.
           apply (onlyInserts_execAll Local Historico.insertCols w); done.
        -- unfold Historico.insertData, Prepare. rewrite Hprep. simpl.
           by apply onlyInserts_nothing.
    + destruct (prepare_ok env); by apply onlyInserts_nothing.
Qed.

Lemma sync_main_trace w :
  Trace.onlyInserts env Cloud Sync.insertCols w
    (final (Sync.main env w)) (Trace.sync env w).
Proof.
  unfold Trace.sync.
  destruct (connect_ok env Local) eqn:HcL; simpl.
  2: { unfold Sync.main, Sync.connectDB, bind, defer, Connect, fatal.
       rewrite HcL. by apply onlyInserts_nothing. }
  destruct (connect_ok env Cloud) eqn:HcC; simpl.
  2: { unfold Sync.main, Sync.connectDB, bind, defer, Connect, fatal, ret.
       rewrite HcL, HcC. by apply onlyInserts_nothing. }
  destruct (last_date_ok env) eqn:Hq; simpl.
  2: { unfold Sync.main, Sync.connectDB, bind, defer, Connect, fatal, ret,
         scanMaxDateOr1900.
       rewrite HcL, HcC, Hq. by apply onlyInserts_nothing. }
  destruct (select_ok env) eqn:Hsel; simpl.
  2: { unfold Sync.main, Sync.connectDB, bind, defer, Connect, fatal, ret,
         scanMaxDateOr1900, Sync.Query.
       rewrite HcL, HcC, Hq, Hsel. by apply onlyInserts_nothing. }
  destruct (prepare_ok env) eqn:Hprep; simpl.
  2: { unfold Sync.main, Sync.connectDB, bind, defer, Connect, fatal, ret,
         scanMaxDateOr1900, Sync.Query, Prepare.
       rewrite HcL, HcC, Hq, Hsel, Hprep. by apply onlyInserts_nothing. }
  rewrite sync_main by done.
  apply (onlyInserts_execAll Cloud Sync.insertCols w
           (connected Cloud (connected Local w))); done.
Qed.

End trace_facts.


(** No job ever updates or deletes a stored row: the table a job writes
    to only grows, by rows of INSERTs the job executed, and the other
    server's table is as it was. *)
Theorem tables_only_grow (env : Proc.Env) (w : Proc.World) :
  (forall apiKey response,
     let w' := Proc.final (Current.main env apiKey response w) in
     (exists added,
        Proc.table w' Proc.Local = Proc.table w Proc.Local ++ added
        /\ added ⊆ Proc.insertedRow Current.insertCols
                    <$> Trace.current env apiKey response w)
     /\ Proc.table w' Proc.Cloud = Proc.table w Proc.Cloud)
  /\ (forall forexData,
        let w' := Proc.final (Legacy.main env forexData w) in
        (exists added,
           Proc.table w' Proc.Local = Proc.table w Proc.Local ++ added
           /\ added ⊆ Proc.insertedRow Legacy.insertCols
                       <$> Trace.legacy env forexData w)
        /\ Proc.table w' Proc.Cloud = Proc.table w Proc.Cloud)
  /\ (forall api,
        let w' := Proc.final (Historico.main env api w) in
        (exists added,
           Proc.table w' Proc.Local = Proc.table w Proc.Local ++ added
           /\ added ⊆ Proc.insertedRow Historico.insertCols
                       <$> Trace.historico env api w)
        /\ Proc.table w' Proc.Cloud = Proc.table w Proc.Cloud)
  /\ (let w' := Proc.final (Sync.main env w) in
      (exists added,
         Proc.table w' Proc.Cloud = Proc.table w Proc.Cloud ++ added
         /\ added ⊆ Proc.insertedRow Sync.insertCols <$> Trace.sync env w)
      /\ Proc.table w' Proc.Local = Proc.table w Proc.Local).
Proof.
  split_and!.
  - intros apiKey response w'.
    destruct (current_main_trace env apiKey response w) as (_ & Ht & Ho).
    fold w' in Ht, Ho. rewrite Ht. split; [apply store_extends | by apply Ho].
  - intros forexData w'.
    destruct (legacy_main_trace env forexData w) as (_ & Ht & Ho).
    fold w' in Ht, Ho. rewrite Ht. split; [apply store_extends | by apply Ho].
  - intros api w'.
    destruct (historico_main_trace env api w) as (_ & Ht & Ho).
    fold w' in Ht, Ho. rewrite Ht. split; [apply store_extends | by apply Ho].
  - intros w'.
    destruct (sync_main_trace env w) as (_ & Ht & Ho).
    fold w' in Ht, Ho. rewrite Ht. split; [apply store_extends | by apply Ho].
Qed.

(** A rejected row never stops a job: the INSERTs a job executes, and
    their order, are the same whatever the servers accept or reject. *)
Theorem rejections_do_not_change_what_is_executed
        (env : Proc.Env) (acc : Proc.Db -> list (gmap string Proc.Value)
                                -> gmap string Proc.Value -> bool)
        (w : Proc.World) :
  (forall apiKey response,
     Proc.exec_log (Proc.final (Current.main (Trace.withAccepts env acc)
                                             apiKey response w))
     = Proc.exec_log (Proc.final (Current.main env apiKey response w)))
  /\ (forall forexData,
        Proc.exec_log (Proc.final (Legacy.main (Trace.withAccepts env acc)
                                               forexData w))
        = Proc.exec_log (Proc.final (Legacy.main env forexData w)))
  /\ (forall api,
        Proc.exec_log (Proc.final (Historico.main (Trace.withAccepts env acc)
                                                  api w))
        = Proc.exec_log (Proc.final (Historico.main env api w)))
  /\ Proc.exec_log (Proc.final (Sync.main (Trace.withAccepts env acc) w))
     = Proc.exec_log (Proc.final (Sync.main env w)).
Proof.
  split_and!.
  - intros apiKey response.
    destruct (current_main_trace env apiKey response w) as (-> & _).
    by destruct (current_main_trace (Trace.withAccepts env acc) apiKey response w)
      as (-> & _).
  - intros forexData.
    destruct (legacy_main_trace env forexData w) as (-> & _).
    by destruct (legacy_main_trace (Trace.withAccepts env acc) forexData w)
      as (-> & _).
  - intros api.
    destruct (historico_main_trace env api w) as (-> & _).
    by destruct (historico_main_trace (Trace.withAccepts env acc) api w)
      as (-> & _).
  - destruct (sync_main_trace env w) as (-> & _).
    by destruct (sync_main_trace (Trace.withAccepts env acc) w) as (-> & _).
Qed.

Section maxDate_facts.
Import GoTime Proc Spec.

Lemma maxDate_fold t : maxDate t = foldl Trace.maxStep None t.
Proof. reflexivity. Qed.

(** The fold that computes the maximum, from any starting value. *)
Lemma maxStep_fold_spec t acc :
  match foldl Trace.maxStep acc t with
  | Some m =>
      (acc = Some m \/ exists r, r ∈ t /\ rowDate r = Some m)
      /\ (forall a, acc = Some a -> a <= m)
      /\ (forall r d, r ∈ t -> rowDate r = Some d -> d <= m)
  | None => acc = None /\ forall r, r ∈ t -> rowDate r = None
  end.
Proof.
  revert acc. induction t as [|r t IH]; intros acc.
  - simpl. destruct acc as [m|].
    + split_and!; [by left | by intros a [= ->] |].
      intros r d Hr. by apply elem_of_nil in Hr.
    + split; [done |]. intros r Hr. by apply elem_of_nil in Hr.
  - cbn [foldl]. specialize (IH (Trace.maxStep acc r)).
    destruct (foldl Trace.maxStep (Trace.maxStep acc r) t) as [m|].
    + destruct IH as (Hwit & Hacc & Hall). split_and!.
      * destruct Hwit as [Hm | (r' & Hr' & Hd)].
        -- unfold Trace.maxStep in Hm.
           destruct (rowDate r) as [d|] eqn:Hd, acc as [a|]; simplify_eq.
           ++ destruct (Z.max_spec a d) as [[_ Hmax] | [_ Hmax]]; rewrite Hmax.
              ** right. exists r. split; [left | done].
              ** by left.
           ++ right. exists r. split; [left | done].
           ++ by left.
        -- right. exists r'. split; [by right | done].
      * intros a ->. unfold Trace.maxStep in Hacc.
        destruct (rowDate r) as [d|].
        -- specialize (Hacc (Z.max a d) eq_refl). lia.
        -- by apply Hacc.
      * intros r' d Hr' Hd. apply elem_of_cons in Hr' as [-> | Hr'].
        -- unfold Trace.maxStep in Hacc. rewrite Hd in Hacc.
           destruct acc as [a|].
           ++ specialize (Hacc (Z.max a d) eq_refl). lia.
           ++ specialize (Hacc d eq_refl). lia.
        -- by apply (Hall r').
    + destruct IH as (Hacc & Hall). unfold Trace.maxStep in Hacc.
      destruct (rowDate r) as [d|] eqn:Hd, acc as [a|]; simplify_eq.
      split; [done |]. intros r' Hr'.
      apply elem_of_cons in Hr' as [-> | Hr']; [done | by apply Hall].
Qed.

(** The maximum is the date of a stored row and bounds every date. *)
Lemma maxDate_Some t m :
  maxDate t = Some m ->
  (exists r, r ∈ t /\ rowDate r = Some m)
  /\ forall r d, r ∈ t -> rowDate r = Some d -> d <= m.
Proof.
  intros H. pose proof (maxStep_fold_spec t None) as Hs.
  rewrite <- maxDate_fold, H in Hs. destruct Hs as ([? | Hw] & _ & Hall); done.
Qed.

Lemma maxDate_None t :
  maxDate t = None -> forall r, r ∈ t -> rowDate r = None.
Proof.
  intros H. pose proof (maxStep_fold_spec t None) as Hs.
  rewrite <- maxDate_fold, H in Hs. by destruct Hs.
Qed.

(** A table that holds a dated row has a maximum, at least that date. *)
Lemma maxDate_bound t r d :
  r ∈ t -> rowDate r = Some d -> exists m, maxDate t = Some m /\ d <= m.
Proof.
  intros Hr Hd. destruct (maxDate t) as [m|] eqn:Hm.
  - exists m. split; [done |]. by apply (proj2 (maxDate_Some t m Hm) r).
  - pose proof (maxDate_None t Hm r Hr). congruence.
Qed.

End maxDate_facts.


Section rerun_facts.
Import GoTime Proc Spec.
Context (env : Env).


Lemma filter_all_false {A} (f : A -> bool) (l : list A) :
  (forall x, x ∈ l -> f x = false) -> List.filter f l = [].
Proof.
  induction l as [|x l IH]; intros H; [done |].
  simpl. rewrite (H x) by left.
  apply IH. intros y Hy. apply H. by right.
Qed.




End rerun_facts.



Section sync_rerun_facts.
Import GoTime Proc Spec.
Context (env : Env).

(** The copy of a dated row carries the same date. *)
Lemma sync_copy_date (r : Row) t :
  rowDate r = Some t ->
  rowDate (insertedRow Sync.insertCols (col r <$> Sync.selectCols)) = Some t.
Proof.
  intros Hr. unfold rowDate.
  change Sync.selectCols with Sync.insertCols.
  rewrite (insertedRow_copy Sync.insertCols r "date" sync_cols_NoDup)
    by (apply list_elem_of_In; vm_compute; tauto).
  unfold col. unfold rowDate in Hr.
  by destruct (r !! "date") as [[]|]; simplify_eq.
Qed.

Lemma newer_inv cutoff r :
  Sync.newer cutoff r = true -> exists t, rowDate r = Some t /\ cutoff < t.
Proof.
  unfold Sync.newer. destruct (rowDate r) as [t|]; [| done].
  intros H. exists t. split; [done | by apply Z.ltb_lt].
Qed.

(** After a copy in which the destination accepted every row, no source
    row is dated after the destination's new cut-off. *)
Lemma sync_nothing_newer w :
  connect_ok env Local = true -> connect_ok env Cloud = true ->
  last_date_ok env = true -> select_ok env = true -> prepare_ok env = true ->
  (forall t r, accepts env Cloud t r = true) ->
  forall r, r ∈ table w Local ->
            Sync.newer (syncCutoff (final (Sync.main env w))) r = false.
Proof.
  intros HcL HcC Hq Hsel Hprep Hacc r Hr.
  destruct (sync_copies env w HcL HcC Hq Hsel Hprep) as [Hcopies _].
  destruct Hcopies as (Hperm & _ & _ & _ & Hall). specialize (Hall Hacc).
  set (w1 := final (Sync.main env w)) in *.
  set (rows := merge_sort Sync.dateLe
                 (List.filter (Sync.newer (syncCutoff w)) (table w Local))) in *.
  unfold Sync.newer at 1.
  destruct (rowDate r) as [t|] eqn:Ht; [| done].
  apply Z.ltb_ge.
  destruct (Sync.newer (syncCutoff w) r) eqn:Hnew.
  - (* the row was copied *)
    assert (Hin : r ∈ rows).
    { unfold rows. rewrite merge_sort_Permutation.
      apply list_elem_of_In, filter_In. split; [by apply list_elem_of_In | done]. }
    destruct (maxDate_bound (table w1 Cloud)
                (insertedRow Sync.insertCols (col r <$> Sync.selectCols)) t)
      as (m & Hm & Hle).
    + rewrite Hall. apply elem_of_app. right.
      apply list_elem_of_fmap. eexists. split; [done |].
      apply list_elem_of_fmap. by exists r.
    + by apply sync_copy_date.
    + unfold syncCutoff. rewrite Hm. simpl. lia.
  - (* the row was already on or before the old cut-off *)
    assert (Hold : t <= syncCutoff w).
    { unfold Sync.newer in Hnew. rewrite Ht in Hnew. by apply Z.ltb_ge. }
    enough (syncCutoff w <= syncCutoff w1) by lia.
    unfold syncCutoff at 1.
    destruct (maxDate (table w Cloud)) as [c|] eqn:Hc; simpl.
    + destruct (maxDate_Some _ _ Hc) as ((r0 & Hr0 & Hd0) & _).
      destruct (maxDate_bound (table w1 Cloud) r0 c) as (m & Hm & Hle);
        [rewrite Hall; apply elem_of_app; by left | done |].
      unfold syncCutoff. rewrite Hm. simpl. lia.
    + unfold syncCutoff.
      destruct (maxDate (table w1 Cloud)) as [m|] eqn:Hm; simpl; [| lia].
      destruct (maxDate_Some _ _ Hm) as ((r1 & Hr1 & Hd1) & _).
      rewrite Hall in Hr1. apply elem_of_app in Hr1 as [Hr1 | Hr1].
      * pose proof (maxDate_None _ Hc r1 Hr1). congruence.
      * apply list_elem_of_fmap in Hr1 as (args & -> & Hargs).
        apply list_elem_of_fmap in Hargs as (r' & -> & Hr').
        unfold rows in Hr'. rewrite merge_sort_Permutation in Hr'.
        apply list_elem_of_In, filter_In in Hr' as [_ Hnew'].
        apply newer_inv in Hnew' as (t' & Ht' & Hlt').
        rewrite (sync_copy_date r' t' Ht') in Hd1.
        unfold syncCutoff in Hlt'. rewrite Hc in Hlt'. simpl in Hlt'.
        simplify_eq. lia.
Qed.

End sync_rerun_facts.

(** Re-running the copy job right after a copy in which the destination
    accepted every row, with the source unchanged, reads no row and
    executes no INSERT. *)
Theorem sync_rerun_copies_nothing (env : Proc.Env) (w : Proc.World) :
  Proc.connect_ok env Proc.Local = true ->
  Proc.connect_ok env Proc.Cloud = true ->
  Proc.last_date_ok env = true ->
  Proc.select_ok env = true ->
  Proc.prepare_ok env = true ->
  (forall t r, Proc.accepts env Proc.Cloud t r = true) ->
  let w1 := Proc.final (Sync.main env w) in
  let w2 := Proc.final (Sync.main env w1) in
  Proc.exec_log w2 = Proc.exec_log w1
  /\ Proc.table w2 Proc.Cloud = Proc.table w1 Proc.Cloud
  /\ Proc.table w2 Proc.Local = Proc.table w Proc.Local.
Proof.
  intros HcL HcC Hq Hsel Hprep Hacc w1 w2.
  destruct (sync_copies env w HcL HcC Hq Hsel Hprep) as [_ Hsrc1].
  fold w1 in Hsrc1.
  destruct (sync_copies env w1 HcL HcC Hq Hsel Hprep) as [Hcopies2 Hsrc2].
  fold w2 in Hcopies2, Hsrc2.
  destruct Hcopies2 as (_ & _ & Hlog & Htbl & _).
  assert (Hnone : List.filter (Sync.newer (Spec.syncCutoff w1))
                              (Proc.table w1 Proc.Local) = []).
  { apply filter_all_false. rewrite Hsrc1. intros r Hr.
    by apply (sync_nothing_newer env w). }
  rewrite Hnone in Hlog, Htbl. simpl in Hlog, Htbl.
  rewrite app_nil_r in Hlog.
  split_and!; [done | done | by rewrite Hsrc2].
Qed.

Section planner_facts.
Import GoTime Proc Spec.
Context (env : Env) (api : Time -> Time -> option (list Historico.HistoricoResponse)).






End planner_facts.



(* ===================================================================== *)
(** * Verification: the legacy scraper's dates *)
(* ===================================================================== *)

Section format_facts.
Import GoTime.

Lemma civilOK_all :
  forallb (fun y => forallb (fun m => forallb (fun d => Enumerate.civilOK y m d)
                                        (seqZ 1 31)) (seqZ 1 12))
          (seqZ 1969 100) = true.
Proof. vm_compute. reflexivity. Qed.

Lemma twoDigitsOK_true : forallb Enumerate.twoDigitsOK (seqZ 0 100) = true.
Proof. vm_compute. reflexivity. Qed.

Lemma fourDigitsOK_true : forallb Enumerate.fourDigitsOK (seqZ 1969 100) = true.
Proof. vm_compute. reflexivity. Qed.

Lemma forallb_seqZ (f : Z -> bool) lo len n :
  forallb f (seqZ lo len) = true -> lo <= n < lo + len -> f n = true.
Proof.
  intros Hall Hn. rewrite forallb_forall in Hall. apply Hall.
  apply list_elem_of_In, elem_of_seqZ. lia.
Qed.

Lemma civilOK_true y m d :
  1969 <= y <= 2068 -> 1 <= m <= 12 -> 1 <= d <= 31 ->
  Enumerate.civilOK y m d = true.
Proof.
  intros Hy Hm Hd.
  apply (forallb_seqZ (fun d => Enumerate.civilOK y m d) 1 31 d); [| lia].
  apply (forallb_seqZ
           (fun m => forallb (fun d => Enumerate.civilOK y m d) (seqZ 1 31))
           1 12 m); [| lia].
  apply (forallb_seqZ
           (fun y => forallb
                       (fun m => forallb (fun d => Enumerate.civilOK y m d)
                                   (seqZ 1 31)) (seqZ 1 12))
           1969 100 y); [| lia].
  exact civilOK_all.
Qed.

Lemma civilOK_spec y m d :
  Enumerate.civilOK y m d = true -> d <= daysIn m y ->
  GoTimeFormat.civil (Date y m d 0 0 0 0) = (y, m, d).
Proof.
  unfold Enumerate.civilOK. intros H Hd.
  rewrite (proj2 (Z.leb_le _ _) Hd) in H.
  destruct (GoTimeFormat.civil (Date y m d 0 0 0 0)) as [[y' m'] d'].
  apply andb_true_iff in H as [H Hd'].
  apply andb_true_iff in H as [Hy' Hm'].
  apply Z.eqb_eq in Hy', Hm', Hd'. by subst.
Qed.

Lemma daysIn_le_31 m y : daysIn m y <= 31.
Proof. unfold daysIn. repeat case_match; lia. Qed.

(** [civil] gives back the date [Date] was given, for the years a
    two-digit year can denote. *)
Lemma civil_Date y m d :
  1969 <= y <= 2068 -> 1 <= m <= 12 -> 1 <= d <= daysIn m y ->
  GoTimeFormat.civil (Date y m d 0 0 0 0) = (y, m, d).
Proof.
  intros Hy Hm Hd. pose proof (daysIn_le_31 m y).
  apply civilOK_spec; [apply civilOK_true |]; lia.
Qed.

Lemma two_digits n :
  0 <= n <= 99 ->
  exists c0 c1, GoTimeFormat.appendInt n 2 = String c0 (String c1 "")
                /\ Strconv.digit c0 = Some (n / 10)
                /\ Strconv.digit c1 = Some (n mod 10).
Proof.
  intros Hn.
  pose proof (forallb_seqZ Enumerate.twoDigitsOK 0 100 n twoDigitsOK_true
                ltac:(lia)) as H.
  unfold Enumerate.twoDigitsOK in H.
  destruct (GoTimeFormat.appendInt n 2) as [|c0 [|c1 [|]]]; try done.
  apply andb_true_iff in H as [H0 H1].
  apply bool_decide_eq_true in H0, H1. by exists c0, c1.
Qed.

Lemma four_digits y :
  1969 <= y <= 2068 ->
  exists c0 c1 c2 c3 d0 d1 d2 d3,
    GoTimeFormat.appendInt y 4
    = String c0 (String c1 (String c2 (String c3 "")))
    /\ Strconv.digit c0 = Some d0 /\ Strconv.digit c1 = Some d1
    /\ Strconv.digit c2 = Some d2 /\ Strconv.digit c3 = Some d3
    /\ ((d0 * 10 + d1) * 10 + d2) * 10 + d3 = y.
Proof.
  intros Hy.
  pose proof (forallb_seqZ Enumerate.fourDigitsOK 1969 100 y fourDigitsOK_true
                ltac:(lia)) as H.
  unfold Enumerate.fourDigitsOK in H.
  destruct (GoTimeFormat.appendInt y 4) as [|c0 [|c1 [|c2 [|c3 [|]]]]]; try done.
  destruct (Strconv.digit c0) as [d0|] eqn:E0; [| done].
  destruct (Strconv.digit c1) as [d1|] eqn:E1; [| done].
  destruct (Strconv.digit c2) as [d2|] eqn:E2; [| done].
  destruct (Strconv.digit c3) as [d3|] eqn:E3; [| done].
  apply Z.eqb_eq in H. by exists c0, c1, c2, c3, d0, d1, d2, d3.
Qed.

Lemma append_String c s t : String c s +:+ t = String c (s +:+ t).
Proof. reflexivity. Qed.

Lemma append_empty t : "" +:+ t = t.
Proof. reflexivity. Qed.

(** [getnum] reads back the two digits of a number, whatever follows
    when two digits are required. *)
Lemma getnum_two_digits n rest fixed :
  0 <= n <= 99 ->
  getnum (GoTimeFormat.appendInt n 2 +:+ rest) fixed = Some (n, rest).
Proof.
  intros Hn. destruct (two_digits n Hn) as (c0 & c1 & -> & H0 & H1).
  rewrite !append_String, append_empty.
  unfold getnum. rewrite H0, H1. do 2 f_equal.
  pose proof (Z.div_mod n 10 ltac:(lia)). lia.
Qed.

Lemma digit_range c d : Strconv.digit c = Some d -> 0 <= d <= 9.
Proof.
  unfold Strconv.digit. case_match eqn:E; [| done]. intros [= <-].
  apply andb_true_iff in E as [E1 E2].
  apply Z.leb_le in E1, E2. lia.
Qed.

Lemma getnum_range s fixed n rest :
  getnum s fixed = Some (n, rest) -> 0 <= n <= 99.
Proof.
  unfold getnum. destruct s as [|c0 s1]; [done |].
  destruct (Strconv.digit c0) as [d0|] eqn:E0; [| done].
  apply digit_range in E0.
  destruct s1 as [|c1 s2].
  - destruct fixed; [done |]. intros [= <- _]. lia.
  - destruct (Strconv.digit c1) as [d1|] eqn:E1.
    + apply digit_range in E1. intros [= <- _]. lia.
    + destruct fixed; [done |]. intros [= <- _]. lia.
Qed.

(** What a successful parse of a 'yymmdd' value returns. *)
Lemma parse_yymmdd_inv value t :
  GoTimeFormat.Parse "060102" value = Some t ->
  exists y m d,
    1969 <= y <= 2068 /\ 1 <= m <= 12 /\ 1 <= d <= daysIn m y
    /\ t = Date y m d 0 0 0 0.
Proof.
  unfold GoTimeFormat.Parse.
  change (GoTimeFormat.layoutChunks "060102")
    with (Some [stdYear; stdZeroMonth; stdZeroDay]).
  cbn [parseChunks].
  destruct (parseChunk stdYear fields0 value) as [[f1 v1]|] eqn:E1; [| done].
  destruct (parseChunk stdZeroMonth f1 v1) as [[f2 v2]|] eqn:E2; [| done].
  destruct (parseChunk stdZeroDay f2 v2) as [[f3 v3]|] eqn:E3; [| done].
  (* the year *)
  assert (Hy : 1969 <= f_year f1 <= 2068
               /\ f_hour f1 = 0 /\ f_min f1 = 0 /\ f_sec f1 = 0 /\ f_nsec f1 = 0).
  { revert E1. unfold parseChunk.
    destruct value as [|c0 [|c1 rest]]; try done.
    destruct (if bool_decide (c0 = "-"%char) then _ else _) as [yy|] eqn:Eyy;
      [| done].
    intros [= <- _]. simpl.
    assert (-9 <= yy <= 99).
    { revert Eyy. case_bool_decide; [| case_bool_decide].
      - destruct (Strconv.digit c1) as [d1|] eqn:Ed; [| done].
        apply digit_range in Ed. intros [= <-]. lia.
      - intros Hd. apply digit_range in Hd. lia.
      - destruct (Strconv.digit c0) as [d0|] eqn:Ed0; [| done].
        destruct (Strconv.digit c1) as [d1|] eqn:Ed1; [| done].
        apply digit_range in Ed0, Ed1. intros [= <-]. lia. }
    destruct (69 <=? yy) eqn:E69;
      [apply Z.leb_le in E69 | apply Z.leb_gt in E69];
      split_and!; try done; lia. }
  (* the month *)
  assert (Hm : 1 <= f_month f2 <= 12 /\ f_year f2 = f_year f1
               /\ f_hour f2 = 0 /\ f_min f2 = 0 /\ f_sec f2 = 0 /\ f_nsec f2 = 0).
  { revert E2. unfold parseChunk.
    destruct (getnum v1 true) as [[m r]|]; [| done].
    destruct ((m <=? 0) || (12 <? m)) eqn:Em; [done |].
    intros [= <- _]. simpl.
    apply orb_false_iff in Em as [Em1 Em2].
    apply Z.leb_gt in Em1. apply Z.ltb_ge in Em2.
    destruct Hy as (_ & -> & -> & -> & ->). split_and!; try done; lia. }
  (* the day *)
  assert (Hd : f_month f3 = f_month f2 /\ f_year f3 = f_year f2
               /\ f_hour f3 = 0 /\ f_min f3 = 0 /\ f_sec f3 = 0 /\ f_nsec f3 = 0
               /\ 0 <= f_day f3).
  { revert E3. unfold parseChunk.
    destruct (getnum v2 true) as [[d r]|] eqn:Eg; [| done].
    apply getnum_range in Eg.
    intros [= <- _]. simpl.
    destruct Hm as (_ & _ & -> & -> & -> & ->). split_and!; try done; lia. }
  destruct v3; [| done].
  destruct Hy as (Hy & _), Hm as (Hm & Hmy & _),
    Hd as (Hdm & Hdy & -> & -> & -> & -> & Hd0).
  rewrite Hdm, Hdy, Hmy.
  rewrite (proj2 (Z.ltb_ge _ _) (proj1 (conj (ltac:(lia) : 0 <= f_month f2) I))).
  rewrite (proj2 (Z.ltb_ge _ _) Hd0).
  destruct ((f_day f3 <? 1) || (daysIn (f_month f2) (f_year f1) <? f_day f3))
    eqn:Ed; [done |].
  apply orb_false_iff in Ed as [Ed1 Ed2].
  apply Z.ltb_ge in Ed1, Ed2.
  intros [= <-]. exists (f_year f1), (f_month f2), (f_day f3).
  split_and!; try done; lia.
Qed.

(** Formatting a date as 'yyyy-mm-dd' and parsing it gives the date. *)
Lemma parse_format_date y m d :
  1969 <= y <= 2068 -> 1 <= m <= 12 -> 1 <= d <= daysIn m y ->
  GoTime.Parse "2006-01-02"
    (GoTimeFormat.Format "2006-01-02" (Date y m d 0 0 0 0))
  = Some (Date y m d 0 0 0 0).
Proof.
  intros Hy Hm Hd.
  assert (Hd99 : d <= 99). { pose proof (daysIn_le_31 m y). lia. }
  unfold GoTimeFormat.Format.
  change (GoTimeFormat.layoutChunks "2006-01-02")
    with (Some [stdLongYear; Lit "-"; stdZeroMonth; Lit "-"; stdZeroDay]).
  cbn [foldr]. unfold GoTimeFormat.formatChunk.
  rewrite (civil_Date y m d Hy Hm Hd).
  destruct (GoTimeFormat.clock (Date y m d 0 0 0 0)) as [[hh mm] ss].
  destruct (four_digits y Hy)
    as (c0 & c1 & c2 & c3 & d0 & d1 & d2 & d3 & -> & E0 & E1 & E2 & E3 & Hval).
  unfold GoTime.Parse.
  change (GoTime.layoutChunks "2006-01-02")
    with (Some [stdLongYear; Lit "-"; stdZeroMonth; Lit "-"; stdZeroDay]).
  repeat (rewrite append_String || rewrite append_empty).
  cbn [parseChunks parseChunk].
  rewrite E0, E1, E2, E3. rewrite Hval.
  rewrite bool_decide_eq_true_2 by done.
  rewrite (getnum_two_digits m) by lia.
  replace ((m <=? 0) || (12 <? m)) with false
    by (symmetry; apply orb_false_iff; split;
        [apply Z.leb_gt | apply Z.ltb_ge]; lia).
  rewrite bool_decide_eq_true_2 by done.
  rewrite (getnum_two_digits d) by lia.
  cbn [f_year f_month f_day f_hour f_min f_sec f_nsec fields0].
  replace (m <? 0) with false by (symmetry; apply Z.ltb_ge; lia).
  replace (d <? 0) with false by (symmetry; apply Z.ltb_ge; lia).
  replace ((d <? 1) || (daysIn m y <? d)) with false
    by (symmetry; apply orb_false_iff; split; apply Z.ltb_ge; lia).
  reflexivity.
Qed.

(** A formatted date starts with a digit. *)
Lemma format_date_not_NaN y m d :
  1969 <= y <= 2068 -> 1 <= m <= 12 -> 1 <= d <= daysIn m y ->
  GoTimeFormat.Format "2006-01-02" (Date y m d 0 0 0 0) <> "NaN".
Proof.
  intros Hy Hm Hd. unfold GoTimeFormat.Format.
  change (GoTimeFormat.layoutChunks "2006-01-02")
    with (Some [stdLongYear; Lit "-"; stdZeroMonth; Lit "-"; stdZeroDay]).
  cbn [foldr]. unfold GoTimeFormat.formatChunk.
  rewrite (civil_Date y m d Hy Hm Hd).
  destruct (GoTimeFormat.clock (Date y m d 0 0 0 0)) as [[hh mm] ss].
  destruct (four_digits y Hy)
    as (c0 & c1 & c2 & c3 & d0 & d1 & d2 & d3 & -> & E0 & _).
  rewrite append_String. intros [= -> _]; try done.
Qed.

End format_facts.

(** The legacy scraper's date column round-trips: a 'yymmdd' date that
    parses is rewritten to a string that the load parses back to the same
    instant, and a date that does not parse is rewritten to a string the
    load rejects, so that record is dropped. *)
Theorem legacy_date_round_trip (fecha : string) :
  (forall t, GoTimeFormat.Parse "060102" fecha = Some t ->
             GoTime.Parse "2006-01-02" (LegacyFetch.processFecha fecha) = Some t)
  /\ (GoTimeFormat.Parse "060102" fecha = None ->
      LegacyFetch.processFecha fecha = ""
      /\ GoTime.Parse "2006-01-02" (LegacyFetch.processFecha fecha) = None).
Proof.
  unfold LegacyFetch.processFecha. split.
  - intros t Ht. rewrite Ht.
    destruct (parse_yymmdd_inv fecha t Ht) as (y & m & d & Hy & Hm & Hd & ->).
    by apply parse_format_date.
  - intros ->. by split.
Qed.

(** The date column of the DataFrame never holds a missing value: the
    rewritten date is never the string that the DataFrame reads as
    missing, so the load always finds a string in that column. *)
Theorem legacy_date_cell_is_text (fecha : string) :
  LegacyFetch.stringCell (LegacyFetch.processFecha fecha)
  = Proc.VText (LegacyFetch.processFecha fecha).
Proof.
  unfold LegacyFetch.stringCell. case_bool_decide as HNaN; [| done].
  exfalso. revert HNaN. unfold LegacyFetch.processFecha.
  destruct (GoTimeFormat.Parse "060102" fecha) as [t|] eqn:E; [| done].
  destruct (parse_yymmdd_inv fecha t E) as (y & m & d & Hy & Hm & Hd & ->).
  by apply format_date_not_NaN.
Qed.


(* ===================================================================== *)
(** * Verification: the legacy scraper's title pattern *)
(* ===================================================================== *)

Section regexp_facts.
Import Regexp LegacySpec.

Lemma tryDown_first {A} (f : nat -> option A) lo n r :
  f (lo + n)%nat = Some r -> tryDown f lo n = Some r.
Proof. intros H. destruct n; simpl; by rewrite H. Qed.

Lemma tryDown_Some {A} (f : nat -> option A) lo n r :
  tryDown f lo n = Some r ->
  exists k, (lo <= k <= lo + n)%nat /\ f k = Some r.
Proof.
  induction n as [|n IH]; simpl.
  - destruct (f (lo + 0)%nat) eqn:E; [| done].
    intros [= <-]. exists (lo + 0)%nat. split; [lia | done].
  - destruct (f (lo + S n)%nat) eqn:E.
    + intros [= <-]. exists (lo + S n)%nat. split; [lia | done].
    + intros H. destruct (IH H) as (k & Hk & Hf). exists k. split; [lia | done].
Qed.

Lemma run_None_app cls s tail :
  allOf cls s = true -> headNot cls tail = true ->
  run cls None (s +:+ tail) = String.length s.
Proof.
  intros Hs Ht. induction s as [|c s IH]; simpl in *.
  - destruct tail as [|c t]; [done |]. simpl in *.
    by destruct (cls c).
  - apply andb_true_iff in Hs as [Hc Hs]. rewrite Hc. f_equal. by apply IH.
Qed.

Lemma run_Some_app cls s tail :
  allOf cls s = true ->
  run cls (Some (String.length s)) (s +:+ tail) = String.length s.
Proof.
  intros Hs. induction s as [|c s IH]; simpl in *; [by destruct tail |].
  apply andb_true_iff in Hs as [Hc Hs]. rewrite Hc. f_equal. by apply IH.
Qed.

Lemma dropS_app s tail : dropS (String.length s) (s +:+ tail) = tail.
Proof. induction s as [|c s IH]; simpl; [by destruct tail | done]. Qed.

Lemma takeS_app s tail : takeS (String.length s) (s +:+ tail) = s.
Proof. induction s as [|c s IH]; simpl; [by destruct tail | by f_equal]. Qed.

Lemma run_le_Some cls h s : (run cls (Some h) s <= h)%nat.
Proof.
  revert h. induction s as [|c s IH]; intros [|h]; simpl; try lia.
  destruct (cls c); [| lia]. specialize (IH h). lia.
Qed.

Lemma takeS_run cls hi s k :
  (k <= run cls hi s)%nat ->
  allOf cls (takeS k s) = true /\ String.length (takeS k s) = k.
Proof.
  revert hi k. induction s as [|c s IH]; intros hi k Hk.
  - assert (k = 0%nat) as -> by (destruct hi as [[|h]|]; simpl in Hk; lia).
    done.
  - destruct k as [|k]; [done |].
    assert (Hc : cls c = true /\ (k <= run cls (pred <$> hi) s)%nat).
    { destruct hi as [[|h]|]; simpl in Hk |- *; [lia | |];
        (destruct (cls c); [split; [done | lia] | exfalso; lia]). }
    destruct Hc as [Hc Hk']. destruct (IH _ _ Hk') as [Hall Hlen].
    simpl. rewrite Hc, Hall, Hlen. done.
Qed.

(** A greedy repetition that can take all of [s] and be followed by
    the rest of the pattern does so. *)
Lemma matchHere_rep cls lo capture rest s tail caps :
  allOf cls s = true -> headNot cls tail = true ->
  (lo <= String.length s)%nat ->
  matchHere rest tail = Some caps ->
  matchHere (Rep cls lo None capture :: rest) (s +:+ tail)
  = Some (if capture then s :: caps else caps).
Proof.
  intros Hs Ht Hlo Hrest. cbn [matchHere].
  rewrite run_None_app by done.
  destruct (String.length s <? lo)%nat eqn:E;
    [apply Nat.ltb_lt in E; lia |].
  apply tryDown_first.
  replace (lo + (String.length s - lo))%nat with (String.length s) by lia.
  by rewrite dropS_app, Hrest, takeS_app.
Qed.

Lemma matchHere_exactly cls capture rest s tail caps :
  allOf cls s = true ->
  matchHere rest tail = Some caps ->
  matchHere (Rep cls (String.length s) (Some (String.length s)) capture :: rest)
            (s +:+ tail)
  = Some (if capture then s :: caps else caps).
Proof.
  intros Hs Hrest. cbn [matchHere].
  rewrite run_Some_app by done.
  rewrite Nat.ltb_irrefl.
  apply tryDown_first.
  replace (String.length s + (String.length s - String.length s))%nat
    with (String.length s) by lia.
  by rewrite dropS_app, Hrest, takeS_app.
Qed.

Lemma matchHere_lit c rest tail caps :
  matchHere rest tail = Some caps ->
  matchHere (Lit c :: rest) (String c tail) = Some caps.
Proof. intros H. cbn [matchHere]. by rewrite bool_decide_eq_true_2. Qed.

Lemma matchHere_rep_inv cls lo hi capture rest s caps :
  matchHere (Rep cls lo hi capture :: rest) s = Some caps ->
  exists k caps',
    (lo <= k <= run cls hi s)%nat
    /\ matchHere rest (dropS k s) = Some caps'
    /\ caps = if capture then takeS k s :: caps' else caps'.
Proof.
  cbn [matchHere].
  destruct (run cls hi s <? lo)%nat eqn:E; [done |].
  apply Nat.ltb_ge in E.
  intros H. apply tryDown_Some in H as (k & Hk & Hf).
  destruct (matchHere rest (dropS k s)) as [caps'|] eqn:Hrest; [| done].
  injection Hf as <-. exists k, caps'. split; [lia | done].
Qed.

Lemma matchHere_lit_inv c rest s caps :
  matchHere (Lit c :: rest) s = Some caps ->
  exists s', s = String c s' /\ matchHere rest s' = Some caps.
Proof.
  cbn [matchHere]. destruct s as [|c' s']; [done |].
  case_bool_decide as Hc; [| done]. subst c'. intros H. by exists s'.
Qed.

Lemma find_first atoms s caps :
  matchHere atoms s = Some caps -> find atoms s = Some caps.
Proof. intros H. destruct s; simpl; by rewrite H. Qed.

Lemma find_inv atoms s caps :
  find atoms s = Some caps -> exists s', matchHere atoms s' = Some caps.
Proof.
  induction s as [|c s IH]; simpl.
  - destruct (matchHere atoms "") eqn:E; [| done].
    intros [= <-]. by exists "".
  - destruct (matchHere atoms (String c s)) eqn:E.
    + intros [= <-]. by exists (String c s).
    + apply IH.
Qed.

(** The classes of the pattern do not overlap, and "/" is in none. *)
Lemma space_not_upper c : space c = true -> upper c = false.
Proof. destruct c as [[] [] [] [] [] [] [] []]; done. Qed.
Lemma space_not_digit c : space c = true -> digit c = false.
Proof. destruct c as [[] [] [] [] [] [] [] []]; done. Qed.
Lemma upper_not_space c : upper c = true -> space c = false.
Proof. destruct c as [[] [] [] [] [] [] [] []]; done. Qed.
Lemma upper_not_digit c : upper c = true -> digit c = false.
Proof. destruct c as [[] [] [] [] [] [] [] []]; done. Qed.
Lemma digit_not_space c : digit c = true -> space c = false.
Proof. destruct c as [[] [] [] [] [] [] [] []]; done. Qed.
Lemma digit_not_upper c : digit c = true -> upper c = false.
Proof. destruct c as [[] [] [] [] [] [] [] []]; done. Qed.

Lemma headNot_app cls cls' s tail :
  (forall c, cls' c = true -> cls c = false) ->
  allOf cls' s = true -> headNot cls tail = true ->
  headNot cls (s +:+ tail) = true.
Proof.
  intros Hdis Hs Ht. destruct s as [|c s]; [done |].
  simpl in *. apply andb_true_iff in Hs as [Hc _].
  by rewrite (Hdis c Hc).
Qed.

Lemma headNot_app_nonempty cls cls' s tail :
  (forall c, cls' c = true -> cls c = false) ->
  allOf cls' s = true -> s <> "" ->
  headNot cls (s +:+ tail) = true.
Proof.
  intros Hdis Hs Hne. destruct s as [|c s]; [done |].
  simpl in *. apply andb_true_iff in Hs as [Hc _].
  by rewrite (Hdis c Hc).
Qed.

Lemma length_nonempty s : s <> "" -> (1 <= String.length s)%nat.
Proof. destruct s; [done | simpl; lia]. Qed.

Lemma length_positive s : (1 <= String.length s)%nat -> s <> "".
Proof. destruct s; [simpl; lia | done]. Qed.

(** The shape of the groups of any match of the title pattern. *)
Lemma title_groups_shape titulo groups :
  LegacyFetch.FindStringSubmatch titulo = Some groups ->
  exists co ci settle date6,
    groups = [co; ci; settle; date6]
    /\ isCurrency co /\ isCurrency ci /\ isNumber settle /\ isDate6 date6.
Proof.
  unfold LegacyFetch.FindStringSubmatch, LegacyFetch.pattern.
  intros H. apply find_inv in H as (s0 & H).
  apply matchHere_rep_inv in H as (k1 & caps1 & Hk1 & H & ->).
  apply matchHere_rep_inv in H as (k2 & caps2 & Hk2 & H & ->).
  apply matchHere_lit_inv in H as (s3 & _ & H).
  apply matchHere_rep_inv in H as (k4 & caps4 & Hk4 & H & ->).
  apply matchHere_rep_inv in H as (k5 & caps5 & Hk5 & H & ->).
  apply matchHere_rep_inv in H as (k6 & caps6 & Hk6 & H & ->).
  apply matchHere_rep_inv in H as (k7 & caps7 & Hk7 & H & ->).
  apply matchHere_rep_inv in H as (k8 & caps8 & Hk8 & H & ->).
  apply matchHere_rep_inv in H as (k9 & caps9 & Hk9 & H & ->).
  injection H as <-.
  destruct (takeS_run _ _ _ _ (proj2 Hk1)) as [Ha1 Hl1].
  destruct (takeS_run _ _ _ _ (proj2 Hk5)) as [Ha5 Hl5].
  destruct (takeS_run _ _ _ _ (proj2 Hk7)) as [Ha7 Hl7].
  destruct (takeS_run _ _ _ _ (proj2 Hk9)) as [Ha9 Hl9].
  eexists _, _, _, _. split; [reflexivity |].
  unfold isCurrency, isNumber, isDate6.
  split_and!; try done.
  - apply length_positive. lia.
  - apply length_positive. lia.
  - apply length_positive. lia.
  - rewrite Hl9. pose proof (run_le_Some Regexp.digit 6
        (Regexp.dropS k8 (Regexp.dropS k7 (Regexp.dropS k6 (Regexp.dropS k5
           (Regexp.dropS k4 s3)))))). lia.
Qed.

End regexp_facts.

(** The title pattern reads back a title written in the expected shape.
    For currencies [co] and [ci] (capital letters), a term [settle]
    (digits) and a six-digit date, a title made of [co], a slash, [ci],
    [settle] and the date, with any blanks around the slash and after
    [ci], at least one blank before the date and anything after it, is
    split into exactly those four groups. *)
Theorem legacy_title_groups_round_trip
        (co ci settle date6 ws1 ws2 ws3 ws4 tail : string) :
  LegacySpec.isCurrency co -> LegacySpec.isCurrency ci ->
  LegacySpec.isNumber settle -> LegacySpec.isDate6 date6 ->
  LegacySpec.isBlank ws1 -> LegacySpec.isBlank ws2 ->
  LegacySpec.isBlank ws3 -> LegacySpec.isBlank ws4 -> ws4 <> "" ->
  LegacyFetch.FindStringSubmatch
    (co +:+ ws1 +:+ "/" +:+ ws2 +:+ ci +:+ ws3 +:+ settle +:+ ws4
        +:+ date6 +:+ tail)
  = Some [co; ci; settle; date6].
Proof.
  intros [Hco Hco1] [Hci Hci1] [Hst Hst1] [Hd Hd6] H1 H2 H3 H4 H41.
  unfold LegacySpec.isBlank in *.
  unfold LegacyFetch.FindStringSubmatch, LegacyFetch.pattern.
  apply find_first.
  apply (matchHere_rep Regexp.upper 1 true _ co); [done | | by apply length_nonempty |].
  { apply (headNot_app _ Regexp.space); [apply space_not_upper | done | done]. }
  apply (matchHere_rep Regexp.space 0 false _ ws1); [done | done | lia |].
  change ("/" +:+ ?x) with (String "/" x).
  apply matchHere_lit.
  apply (matchHere_rep Regexp.space 0 false _ ws2); [done | | lia |].
  { by apply (headNot_app_nonempty _ Regexp.upper); [apply upper_not_space | |]. }
  apply (matchHere_rep Regexp.upper 1 true _ ci); [done | | by apply length_nonempty |].
  { apply (headNot_app _ Regexp.space); [apply space_not_upper | done |].
    by apply (headNot_app_nonempty _ Regexp.digit); [apply digit_not_upper | |]. }
  apply (matchHere_rep Regexp.space 0 false _ ws3); [done | | lia |].
  { by apply (headNot_app_nonempty _ Regexp.digit); [apply digit_not_space | |]. }
  apply (matchHere_rep Regexp.digit 1 true _ settle); [done | | by apply length_nonempty |].
  { by apply (headNot_app_nonempty _ Regexp.space); [apply space_not_digit | |]. }
  apply (matchHere_rep Regexp.space 0 false _ ws4); [done | | lia |].
  { apply (headNot_app_nonempty _ Regexp.digit); [apply digit_not_space | done |].
    apply length_positive. rewrite Hd6. lia. }
  rewrite <- Hd6.
  by apply (matchHere_exactly Regexp.digit true []).
Qed.

(** What the title pattern can extract.  Whenever it matches, the four
    groups are a non-empty run of capital letters, another one, a
    non-empty run of digits and exactly six digits. *)
Theorem legacy_title_groups_sound (titulo : string) (groups : list string) :
  LegacyFetch.FindStringSubmatch titulo = Some groups ->
  exists co ci settle date6,
    groups = [co; ci; settle; date6]
    /\ LegacySpec.isCurrency co /\ LegacySpec.isCurrency ci
    /\ LegacySpec.isNumber settle /\ LegacySpec.isDate6 date6.
Proof. apply title_groups_shape. Qed.


(* ===================================================================== *)
(** * Verification: the legacy scraper's derived columns *)
(* ===================================================================== *)

Section legacy_fetch_facts.
Import GoTime Proc Spec Regexp LegacySpec.
Context (ParseFloat : string -> option float64).

Lemma upper_not_NaN s : allOf upper s = true -> s <> "NaN".
Proof. intros H ->. done. Qed.

Lemma digit_not_NaN s : allOf digit s = true -> s <> "NaN".
Proof. intros H ->. done. Qed.

Lemma stringCell_text s : s <> "NaN" -> LegacyFetch.stringCell s = VText s.
Proof. intros H. unfold LegacyFetch.stringCell. by case_bool_decide. Qed.

Lemma regexp_digit_value c :
  digit c = true -> exists d, Strconv.digit c = Some d /\ 0 <= d <= 9.
Proof.
  destruct c as [[] [] [] [] [] [] [] []]; try done;
    intros _; eexists; (split; [reflexivity | done]).
Qed.

(** A run of digits read in base 10. *)
Lemma digits_allOf s acc :
  allOf digit s = true -> 0 <= acc ->
  exists n, Strconv.digits acc s = Some n
            /\ acc * 10 ^ Z.of_nat (String.length s) <= n
               < (acc + 1) * 10 ^ Z.of_nat (String.length s).
Proof.
  revert acc. induction s as [|c s IH]; intros acc Hs Hacc.
  - exists acc. simpl. split; [done | lia].
  - simpl in Hs. apply andb_true_iff in Hs as [Hc Hs].
    destruct (regexp_digit_value c Hc) as (d & Hd & Hr).
    destruct (IH (acc * 10 + d) Hs ltac:(lia)) as (n & Hn & Hb).
    exists n. cbn [Strconv.digits]. rewrite Hd. split; [done |].
    change (String.length (String c s)) with (S (String.length s)).
    rewrite Nat2Z.inj_succ, Z.pow_succ_r by lia.
    pose proof (Z.pow_pos_nonneg 10 (Z.of_nat (String.length s))
                  ltac:(lia) ltac:(lia)).
    nia.
Qed.

(** [Atoi] on a run of digits has no sign to read. *)
Lemma Atoi_allOf s :
  allOf digit s = true -> s <> "" ->
  Strconv.Atoi s
  = match Strconv.digits 0 s with
    | Some n =>
        if (Strconv.minInt <=? n) && (n <=? Strconv.maxInt) then Some n
        else None
    | None => None
    end.
Proof.
  intros Hs Hne. destruct s as [|c s]; [done |].
  simpl in Hs. apply andb_true_iff in Hs as [Hc _].
  destruct c as [[] [] [] [] [] [] [] []]; try done.
Qed.

(** The row built for a record whose title matches. *)
Lemma frameRow_matched d co ci settle date6 :
  LegacyFetch.FindStringSubmatch (LegacyFetch.Titulo d)
  = Some [co; ci; settle; date6] ->
  let r := LegacyFetch.frameRow ParseFloat d in
  Legacy.df_currency_out r = VText co
  /\ Legacy.df_currency_in r = VText ci
  /\ Legacy.df_settle r = VText settle
  /\ Legacy.df_settle_date r = VText date6.
Proof.
  intros Hm.
  destruct (title_groups_shape _ _ Hm)
    as (co' & ci' & st' & d6' & [= <- <- <- <-] & [Hco _] & [Hci _]
        & [Hst _] & [Hd6 _]).
  unfold LegacyFetch.frameRow. rewrite Hm. simpl.
  rewrite !stringCell_text
    by first [by apply upper_not_NaN | by apply digit_not_NaN].
  done.
Qed.

Lemma legacy_selected_frameRow cutoff d :
  legacySelected cutoff (LegacyFetch.frameRow ParseFloat d)
  = selected ParseFloat cutoff d.
Proof.
  unfold legacySelected, selected.
  change (Legacy.df_date (LegacyFetch.frameRow ParseFloat d))
    with (LegacyFetch.processFecha (LegacyFetch.Fecha d)).
  unfold LegacyFetch.processFecha.
  destruct (GoTimeFormat.Parse "060102" (LegacyFetch.Fecha d)) as [t|] eqn:E;
    [| done].
  destruct (parse_yymmdd_inv _ t E) as (y & m & dd & Hy & Hm & Hd & ->).
  by rewrite parse_format_date.
Qed.

End legacy_fetch_facts.

(** The four columns derived from the title are all text or all NULL:
    when the title matches the pattern they hold its four groups as
    text (a group is never mistaken for a missing value), otherwise all
    four are NULL, and so are the term and the settlement date that are
    stored. *)
Theorem legacy_derived_columns_all_or_none
        (ParseFloat : string -> option Proc.float64) (d : LegacyFetch.ForexData) :
  let r := LegacyFetch.frameRow ParseFloat d in
  (exists co ci settle date6,
      LegacyFetch.FindStringSubmatch (LegacyFetch.Titulo d)
      = Some [co; ci; settle; date6]
      /\ Legacy.df_currency_out r = Proc.VText co
      /\ Legacy.df_currency_in r = Proc.VText ci
      /\ Legacy.df_settle r = Proc.VText settle
      /\ Legacy.df_settle_date r = Proc.VText date6)
  \/ (LegacyFetch.FindStringSubmatch (LegacyFetch.Titulo d) = None
      /\ Legacy.df_currency_out r = Proc.VNull
      /\ Legacy.df_currency_in r = Proc.VNull
      /\ Legacy.df_settle r = Proc.VNull
      /\ Legacy.df_settle_date r = Proc.VNull
      /\ Legacy.settleVal r = Proc.VNull
      /\ Legacy.settleDateVal r = Proc.VNull).
Proof.
  intros r.
  destruct (LegacyFetch.FindStringSubmatch (LegacyFetch.Titulo d))
    as [groups|] eqn:Hm.
  - left.
    destruct (title_groups_shape _ _ Hm)
      as (co & ci & st & d6 & -> & _).
    exists co, ci, st, d6. split; [done |].
    by apply frameRow_matched.
  - right. split; [done |].
    subst r. unfold LegacyFetch.frameRow, Legacy.settleVal, Legacy.settleDateVal.
    rewrite Hm. by simpl.
Qed.

(** The term of a matched title is stored as an integer: when the title
    matches and its term has at most 18 digits, the value stored in the
    settle column is the number those digits write, never NULL. *)
Theorem legacy_settle_stored_as_integer
        (ParseFloat : string -> option Proc.float64) (d : LegacyFetch.ForexData)
        (co ci settle date6 : string) :
  LegacyFetch.FindStringSubmatch (LegacyFetch.Titulo d)
  = Some [co; ci; settle; date6] ->
  (String.length settle <= 18)%nat ->
  exists n, Strconv.digits 0 settle = Some n
            /\ 0 <= n < 10 ^ 18
            /\ Legacy.settleVal (LegacyFetch.frameRow ParseFloat d) = Proc.VInt n.
Proof.
  intros Hm Hlen.
  destruct (title_groups_shape _ _ Hm)
    as (co' & ci' & st' & d6' & [= <- <- <- <-] & _ & _ & [Hst Hne] & _).
  destruct (frameRow_matched ParseFloat d _ _ _ _ Hm) as (_ & _ & Hsettle & _).
  destruct (digits_allOf settle 0 Hst ltac:(lia)) as (n & Hn & Hb).
  assert (Hn18 : 0 <= n < 10 ^ 18).
  { assert (10 ^ Z.of_nat (String.length settle) <= 10 ^ 18)
      by (apply Z.pow_le_mono_r; lia).
    lia. }
  exists n. split_and!; [done | lia | lia |].
  unfold Legacy.settleVal. rewrite Hsettle. cbn [Legacy.asString].
  rewrite bool_decide_eq_true_2 by done. cbn [andb].
  rewrite (Atoi_allOf settle Hst Hne), Hn.
  assert (Hin : (Strconv.minInt <=? n) && (n <=? Strconv.maxInt) = true).
  { apply andb_true_iff. unfold Strconv.minInt, Strconv.maxInt.
    split; apply Z.leb_le; lia. }
  by rewrite Hin.
Qed.

(** The legacy job from the response to the table.  When the response
    has records, the connection opens and the statement is prepared, the
    job executes one INSERT for each record whose 'yymmdd' date parses
    and is newer than the cut-off, in the order of the response, dated
    with that very date, and no other; a record whose date does not
    parse is never inserted. *)
Theorem legacy_job_loads_parsed_dates
        (ParseFloat : string -> option Proc.float64)
        (env : Proc.Env) (data : list LegacyFetch.ForexData) (w : Proc.World) :
  data <> [] ->
  Proc.connect_ok env Proc.Local = true ->
  Proc.prepare_ok env = true ->
  Spec.loads env Proc.Local Legacy.insertCols w
    (Proc.final (LegacyFetch.main ParseFloat env (Some data) w))
    (omap (LegacySpec.selected ParseFloat (Spec.effectiveCutoff env w)) data).
Proof.
  intros Hne Hconn Hprep.
  unfold LegacyFetch.main, LegacyFetch.fetchForexData.
  destruct data as [|d data]; [done |].
  set (rows := LegacyFetch.frameRow ParseFloat <$> d :: data).
  assert (Hrows : rows <> []) by done.
  assert (Hmain : Proc.final (Legacy.main env (Some rows) w)
                  = Proc.final (Legacy.saveToDatabase env (Some rows) w)).
  { unfold Legacy.main, Proc.bind, Proc.ret.
    by destruct (Legacy.saveToDatabase env (Some rows) w). }
  rewrite Hmain.
  replace (omap (LegacySpec.selected ParseFloat (Spec.effectiveCutoff env w))
                (d :: data))
    with (omap (Spec.legacySelected (Spec.effectiveCutoff env w)) rows).
  { by apply legacy_loads. }
  subst rows. generalize (d :: data). intros l.
  induction l as [|x l IH]; [done |].
  rewrite fmap_cons. cbn [omap list_omap].
  change (list_omap ?f ?l) with (omap f l).
  by rewrite IH, legacy_selected_frameRow.
Qed.


(* ===================================================================== *)
(** * Verification: the legacy scraper's hour column *)
(* ===================================================================== *)

Section clock_facts.
Import GoTime.

Lemma foldl_digits_bound (l : list Z) acc :
  Forall (fun d => 0 <= d <= 9) l -> 0 <= acc ->
  acc * 10 ^ Z.of_nat (length l)
  <= foldl (fun a d => a * 10 + d) acc l
  < (acc + 1) * 10 ^ Z.of_nat (length l).
Proof.
  intros Hl. revert acc. induction Hl as [|d l Hd Hl IH]; intros acc Hacc.
  - simpl. lia.
  - cbn [foldl length]. specialize (IH (acc * 10 + d) ltac:(lia)).
    rewrite Nat2Z.inj_succ, Z.pow_succ_r by lia.
    pose proof (Z.pow_pos_nonneg 10 (Z.of_nat (length l)) ltac:(lia) ltac:(lia)).
    nia.
Qed.

Lemma nanoseconds_range ds :
  Forall (fun d => 0 <= d <= 9) ds -> 0 <= nanoseconds ds < 10 ^ 9.
Proof.
  intros Hds. unfold nanoseconds.
  assert (Hk : Forall (fun d => 0 <= d <= 9) (take 9 ds))
    by (by apply Forall_take).
  pose proof (foldl_digits_bound (take 9 ds) 0 Hk ltac:(lia)) as Hb.
  assert (Hlen : (length (take 9 ds) <= 9)%nat)
    by (rewrite length_take; lia).
  set (k := length (take 9 ds)) in *.
  set (v := foldl (fun a d => a * 10 + d) 0 (take 9 ds)) in *.
  assert (Hpow : 10 ^ 9 = 10 ^ Z.of_nat k * 10 ^ Z.of_nat (9 - k)).
  { rewrite <- Z.pow_add_r by lia. f_equal. lia. }
  pose proof (Z.pow_pos_nonneg 10 (Z.of_nat k) ltac:(lia) ltac:(lia)).
  pose proof (Z.pow_pos_nonneg 10 (Z.of_nat (9 - k)) ltac:(lia) ltac:(lia)).
  rewrite Hpow. nia.
Qed.

Lemma spanDigits_range s : Forall (fun d => 0 <= d <= 9) (spanDigits s).1.
Proof.
  induction s as [|c s IH]; simpl; [constructor |].
  destruct (Strconv.digit c) as [d|] eqn:Ed; [| constructor].
  destruct (spanDigits s) as [ds r]. simpl in *.
  constructor; [by apply digit_range in Ed | done].
Qed.

Lemma parseChunk_second_inv f v f' v' :
  parseChunk stdZeroSecond f v = Some (f', v') ->
  0 <= f_nsec f < 10 ^ 9 ->
  exists s ns,
    0 <= s < 60 /\ 0 <= ns < 10 ^ 9
    /\ f' = mkFields (f_year f) (f_month f) (f_day f) (f_hour f) (f_min f) s ns.
Proof.
  unfold parseChunk. intros H Hns.
  destruct (getnum v true) as [[s v3]|] eqn:Es; [| done].
  pose proof (getnum_range _ _ _ _ Es) as Hs.
  destruct (60 <=? s) eqn:Es60; [done |]. apply Z.leb_gt in Es60.
  destruct v3 as [|c0 [|c1 frac]].
  - injection H as <- _. exists s, (f_nsec f). split_and!; try done; lia.
  - injection H as <- _. exists s, (f_nsec f). split_and!; try done; lia.
  - destruct (commaOrPeriod c0 && bool_decide (is_Some (Strconv.digit c1))).
    + pose proof (spanDigits_range (String c1 frac)) as Hr.
      destruct (spanDigits (String c1 frac)) as [ds rest'].
      injection H as <- _. apply nanoseconds_range in Hr. simpl in Hr.
      exists s, (nanoseconds ds). split_and!; try done; lia.
    + injection H as <- _. exists s, (f_nsec f). split_and!; try done; lia.
Qed.

Lemma parseChunks_clock_inv value f v :
  parseChunks [stdHour; Lit ":"; stdZeroMinute; Lit ":"; stdZeroSecond]
              fields0 value = Some (f, v) ->
  exists h m s ns,
    0 <= h < 24 /\ 0 <= m < 60 /\ 0 <= s < 60 /\ 0 <= ns < 10 ^ 9
    /\ f = mkFields 0 (-1) (-1) h m s ns.
Proof.
  cbn [parseChunks].
  (* the hour *)
  unfold parseChunk at 1.
  destruct (getnum value false) as [[h v1]|] eqn:Eh; [| done].
  pose proof (getnum_range _ _ _ _ Eh) as Hh.
  destruct (24 <=? h) eqn:Eh24; [done |]. apply Z.leb_gt in Eh24.
  unfold parseChunk at 1.
  destruct v1 as [|c1 v1]; [done |]. case_bool_decide; [| done].
  (* the minute *)
  unfold parseChunk at 1.
  destruct (getnum v1 true) as [[m v2]|] eqn:Em; [| done].
  pose proof (getnum_range _ _ _ _ Em) as Hm.
  destruct (60 <=? m) eqn:Em60; [done |]. apply Z.leb_gt in Em60.
  unfold parseChunk at 1.
  destruct v2 as [|c2 v2]; [done |]. case_bool_decide; [| done].
  (* the second, and a fraction *)
  cbn [f_year f_month f_day f_hour f_min f_sec f_nsec fields0].
  destruct (parseChunk stdZeroSecond _ v2) as [[f3 v3]|] eqn:Es; [| done].
  intros [= <- <-].
  apply parseChunk_second_inv in Es as (s & ns & Hs & Hns & ->);
    [| simpl; lia].
  exists h, m, s, ns. split_and!; try done; lia.
Qed.

(** What a successful parse of a clock value returns. *)
Lemma parse_clock_inv value t :
  GoTimeFormat.Parse "15:04:05" value = Some t ->
  exists h m s ns,
    0 <= h < 24 /\ 0 <= m < 60 /\ 0 <= s < 60 /\ 0 <= ns < 10 ^ 9
    /\ t = Date 0 1 1 h m s ns.
Proof.
  unfold GoTimeFormat.Parse.
  change (GoTimeFormat.layoutChunks "15:04:05")
    with (Some [stdHour; Lit ":"; stdZeroMinute; Lit ":"; stdZeroSecond]).
  cbv beta iota.
  destruct (parseChunks [stdHour; Lit ":"; stdZeroMinute; Lit ":"; stdZeroSecond]
              fields0 value) as [[f v]|] eqn:E; [| done].
  destruct v; [| done].
  apply parseChunks_clock_inv in E as (h & m & s & ns & Hh & Hm & Hs & Hns & ->).
  cbn [f_year f_month f_day f_hour f_min f_sec f_nsec].
  change (-1 <? 0) with true. cbv iota.
  change ((1 <? 1) || (daysIn 1 0 <? 1)) with false. cbv iota.
  intros [= <-]. by exists h, m, s, ns.
Qed.

(** The clock of an instant of the first day of year 0 is the clock it
    was built from. *)
Lemma clock_Date h m s ns :
  0 <= h < 24 -> 0 <= m < 60 -> 0 <= s < 60 -> 0 <= ns < 10 ^ 9 ->
  GoTimeFormat.clock (Date 0 1 1 h m s ns) = (h, m, s).
Proof.
  intros Hh Hm Hs Hns. unfold GoTimeFormat.clock, Date.
  change (daysBeforeYear 0) with (-366).
  change (daysBeforeMonth 1 0) with 0.
  unfold nsPerSecond.
  set (sec := h * 3600 + m * 60 + s).
  assert (Hsec : 0 <= sec < 86400) by (unfold sec; lia).
  replace ((((-366 + 0 + (1 - 1)) * 86400 + h * 3600 + m * 60 + s) * 1000000000
            + ns) / 1000000000)
    with (-366 * 86400 + sec).
  2: { apply (Z.div_unique_pos _ 1000000000 _ ns); unfold sec; lia. }
  replace ((-366 * 86400 + sec) mod 86400) with sec.
  2: { apply (Z.mod_unique_pos _ 86400 (-366) sec); lia. }
  replace (sec / 3600) with h.
  2: { apply (Z.div_unique_pos sec 3600 h (m * 60 + s)); unfold sec; lia. }
  replace (sec mod 3600) with (m * 60 + s).
  2: { apply (Z.mod_unique_pos sec 3600 h (m * 60 + s)); unfold sec; lia. }
  replace ((m * 60 + s) / 60) with m.
  2: { apply (Z.div_unique_pos _ 60 m s); lia. }
  replace (sec mod 60) with s.
  2: { apply (Z.mod_unique_pos sec 60 (h * 60 + m) s); unfold sec; lia. }
  done.
Qed.

Lemma format_clock h m s ns :
  0 <= h < 24 -> 0 <= m < 60 -> 0 <= s < 60 -> 0 <= ns < 10 ^ 9 ->
  GoTimeFormat.Format "15:04:05" (Date 0 1 1 h m s ns)
  = GoTimeFormat.appendInt h 2 +:+ ":" +:+ GoTimeFormat.appendInt m 2
      +:+ ":" +:+ GoTimeFormat.appendInt s 2.
Proof.
  intros Hh Hm Hs Hns. unfold GoTimeFormat.Format.
  change (GoTimeFormat.layoutChunks "15:04:05")
    with (Some [stdHour; Lit ":"; stdZeroMinute; Lit ":"; stdZeroSecond]).
  cbn [foldr]. unfold GoTimeFormat.formatChunk.
  rewrite clock_Date by done.
  destruct (GoTimeFormat.civil (Date 0 1 1 h m s ns)) as [[yy mm] dd].
  destruct (two_digits s ltac:(lia)) as (c4 & c5 & -> & _).
  reflexivity.
Qed.

Lemma parse_clock_string h m s :
  0 <= h < 24 -> 0 <= m < 60 -> 0 <= s < 60 ->
  GoTimeFormat.Parse "15:04:05"
    (GoTimeFormat.appendInt h 2 +:+ ":" +:+ GoTimeFormat.appendInt m 2
       +:+ ":" +:+ GoTimeFormat.appendInt s 2)
  = Some (Date 0 1 1 h m s 0).
Proof.
  intros Hh Hm Hs. unfold GoTimeFormat.Parse.
  change (GoTimeFormat.layoutChunks "15:04:05")
    with (Some [stdHour; Lit ":"; stdZeroMinute; Lit ":"; stdZeroSecond]).
  cbn [parseChunks].
  unfold parseChunk at 1. rewrite getnum_two_digits by lia.
  replace (24 <=? h) with false by (symmetry; apply Z.leb_gt; lia).
  change (":" +:+ ?x) with (String ":" x).
  unfold parseChunk at 1.
  rewrite bool_decide_eq_true_2 by done.
  unfold parseChunk at 1. rewrite getnum_two_digits by lia.
  replace (60 <=? m) with false by (symmetry; apply Z.leb_gt; lia).
  change (":" +:+ ?x) with (String ":" x).
  unfold parseChunk at 1.
  rewrite bool_decide_eq_true_2 by done.
  unfold parseChunk at 1.
  replace (GoTimeFormat.appendInt s 2)
    with (GoTimeFormat.appendInt s 2 +:+ "").
  2: { destruct (two_digits s ltac:(lia)) as (c4 & c5 & -> & _). done. }
  rewrite getnum_two_digits by lia.
  replace (60 <=? s) with false by (symmetry; apply Z.leb_gt; lia).
  reflexivity.
Qed.

Lemma clock_string_length h m s :
  0 <= h < 24 -> 0 <= m < 60 -> 0 <= s < 60 ->
  String.length
    (GoTimeFormat.appendInt h 2 +:+ ":" +:+ GoTimeFormat.appendInt m 2
       +:+ ":" +:+ GoTimeFormat.appendInt s 2) = 8%nat.
Proof.
  intros Hh Hm Hs.
  destruct (two_digits h ltac:(lia)) as (c0 & c1 & -> & _).
  destruct (two_digits m ltac:(lia)) as (c2 & c3 & -> & _).
  destruct (two_digits s ltac:(lia)) as (c4 & c5 & -> & _).
  reflexivity.
Qed.

End clock_facts.

(** The hour column always holds a clock.  Whatever the API sends as
    hour, the value the legacy job puts in the column has eight
    characters, is never read as a missing value, parses as 'HH:MM:SS',
    and is left as it is when processed again; an hour that parses keeps
    its hour, minute and second (a fraction of a second is dropped), so
    it parses to the same second. *)
Theorem legacy_hora_is_canonical (hora : string) :
  String.length (LegacyFetch.processHora hora) = 8%nat
  /\ LegacyFetch.stringCell (LegacyFetch.processHora hora)
     = Proc.VText (LegacyFetch.processHora hora)
  /\ is_Some (GoTimeFormat.Parse "15:04:05" (LegacyFetch.processHora hora))
  /\ LegacyFetch.processHora (LegacyFetch.processHora hora)
     = LegacyFetch.processHora hora
  /\ (forall t, GoTimeFormat.Parse "15:04:05" hora = Some t ->
        GoTimeFormat.Parse "15:04:05" (LegacyFetch.processHora hora)
        = Some (GoTime.Truncate t GoTime.nsPerSecond)).
Proof.
  assert (Hlen : String.length (LegacyFetch.processHora hora) = 8%nat
                 -> LegacyFetch.stringCell (LegacyFetch.processHora hora)
                    = Proc.VText (LegacyFetch.processHora hora)).
  { intros H8. unfold LegacyFetch.stringCell.
    case_bool_decide as HNaN; [| done]. by rewrite HNaN in H8. }
  cut (String.length (LegacyFetch.processHora hora) = 8%nat
       /\ is_Some (GoTimeFormat.Parse "15:04:05" (LegacyFetch.processHora hora))
       /\ LegacyFetch.processHora (LegacyFetch.processHora hora)
          = LegacyFetch.processHora hora
       /\ (forall t, GoTimeFormat.Parse "15:04:05" hora = Some t ->
             GoTimeFormat.Parse "15:04:05" (LegacyFetch.processHora hora)
             = Some (GoTime.Truncate t GoTime.nsPerSecond))).
  { intros (H8 & H). split; [done |]. split; [by apply Hlen | done]. }
  clear Hlen.
  unfold LegacyFetch.processHora at 1 2 4 5 6.
  destruct (GoTimeFormat.Parse "15:04:05" hora) as [t|] eqn:E.
  - destruct (parse_clock_inv hora t E)
      as (h & m & s & ns & Hh & Hm & Hs & Hns & ->).
    rewrite format_clock by done.
    split_and!.
    + by apply clock_string_length.
    + rewrite parse_clock_string by done. by eexists.
    + unfold LegacyFetch.processHora.
      rewrite parse_clock_string by done.
      by rewrite format_clock by (done || lia).
    + intros t' [= <-]. rewrite parse_clock_string by done.
      f_equal. unfold GoTime.Truncate, GoTime.nsPerSecond, GoTime.Date.
      change (1000000000 <=? 0) with false. cbv iota.
      unfold GoTime.nsPerSecond.
      set (S := (GoTime.daysBeforeYear 0 + GoTime.daysBeforeMonth 1 0 + (1 - 1))
                * 86400 + h * 3600 + m * 60 + s).
      replace ((S * 1000000000 + ns) mod 1000000000) with ns.
      2: { apply (Z.mod_unique_pos _ 1000000000 S ns); lia. }
      lia.
  - split_and!; [done | by eexists | done | done].
Qed.


(* ===================================================================== *)
(** * The further theorems at sample runs *)
(* ===================================================================== *)


Lemma sync_rerun_copies_nothing_witness :
  let w := Samples.world [Samples.storedOn (Samples.day 2024 11 14);
                          Samples.storedOn (Samples.day 2024 11 15)]
                         [Samples.storedOn (Samples.day 2024 11 14)] in
  let w1 := Proc.final (Sync.main Samples.env w) in
  let w2 := Proc.final (Sync.main Samples.env w1) in
  Proc.exec_log w2 = Proc.exec_log w1
  /\ Proc.table w2 Proc.Cloud = Proc.table w1 Proc.Cloud
  /\ Proc.table w2 Proc.Local = Proc.table w Proc.Local.
Proof.
  intros w w1 w2.
  apply (sync_rerun_copies_nothing Samples.env w);
    [reflexivity | reflexivity | reflexivity | reflexivity | reflexivity
     | intros; reflexivity].
Defined.


Lemma legacy_title_groups_round_trip_witness :
  LegacyFetch.FindStringSubmatch "USD / ART 000 241115"
  = Some ["USD"; "ART"; "000"; "241115"].
Proof.
  apply (legacy_title_groups_round_trip "USD" "ART" "000" "241115"
           " " " " " " " " "");
    try (split; [reflexivity | done]); try reflexivity; done.
Defined.

Lemma legacy_title_groups_sound_witness :
  exists co ci settle date6,
    ["USD"; "ART"; "1"; "234567"] = [co; ci; settle; date6]
    /\ LegacySpec.isCurrency co /\ LegacySpec.isCurrency ci
    /\ LegacySpec.isNumber settle /\ LegacySpec.isDate6 date6.
Proof.
  apply (legacy_title_groups_sound "x USD/ART1234567").
  reflexivity.
Defined.

Lemma legacy_settle_stored_as_integer_witness :
  let d := LegacyFetch.mkForexData "241115" "USD / ART 048 241118" "CAM1"
                                   "1,500.25" 0 "15:00:00" in
  exists n, Strconv.digits 0 "048" = Some n
            /\ 0 <= n < 10 ^ 18
            /\ Legacy.settleVal (LegacyFetch.frameRow (fun _ => None) d)
               = Proc.VInt n.
Proof.
  intros d.
  apply (legacy_settle_stored_as_integer (fun _ => None) d
           "USD" "ART" "048" "241118");
    [reflexivity | simpl; lia].
Defined.

Lemma legacy_job_loads_parsed_dates_witness :
  let w := Samples.world [] [] in
  let data := [LegacyFetch.mkForexData "241115" "USD / ART 048 241118" "CAM1"
                                       "1,500.25" 0 "15:00:00";
               LegacyFetch.mkForexData "241332" "USD / ART 000 241115" "CAM1"
                                       "10" 0 "15:00:00"] in
  Spec.loads Samples.env Proc.Local Legacy.insertCols w
    (Proc.final (LegacyFetch.main (fun _ => None) Samples.env (Some data) w))
    (omap (LegacySpec.selected (fun _ => None)
                               (Spec.effectiveCutoff Samples.env w)) data).
Proof.
  intros w data.
  apply (legacy_job_loads_parsed_dates (fun _ => None) Samples.env data w);
    [discriminate | reflexivity | reflexivity].
Defined.

(** ** Examples *)

Example legacy_fetch_examples :
  LegacyFetch.processFecha "241115" = "2024-11-15"
  /\ LegacyFetch.processFecha "240230" = ""
  /\ LegacyFetch.processFecha "690101" = "1969-01-01"
  /\ LegacyFetch.processHora "9:05:03" = "09:05:03"
  /\ LegacyFetch.processHora "13:04:05.999" = "13:04:05"
  /\ LegacyFetch.processHora "25:00:00" = "00:00:00"
  /\ LegacyFetch.FindStringSubmatch "USD / ART 12345" = None
  /\ LegacyFetch.FindStringSubmatch "USD / ART 1234567"
     = Some ["USD"; "ART"; "1"; "234567"]
  /\ LegacyFetch.FindStringSubmatch "aUSD /B 1 2 ABC/DEF 12 345678"
     = Some ["ABC"; "DEF"; "12"; "345678"].
Proof. split_and!; vm_compute; reflexivity. Qed.

Example legacy_job_example :
  let w := Samples.world [] [] in
  let data := [LegacyFetch.mkForexData "241115" "USD / ART 048 241118" "CAM1"
                                       "1,500.25" 0 "15:00:00";
               LegacyFetch.mkForexData "241332" "USD / ART 000 241115" "CAM1"
                                       "10" 0 "15:00:00"] in
  let w' := Proc.final (LegacyFetch.main (fun _ => None) Samples.env
                                         (Some data) w) in
  Proc.rowDate <$> Proc.table w' Proc.Local = [Some (Samples.day 2024 11 15)]
  /\ (fun r => r !! "settle") <$> Proc.table w' Proc.Local
     = [Some (Proc.VInt 48)]
  /\ (fun r => r !! "settle_date") <$> Proc.table w' Proc.Local
     = [Some (Proc.VTime (Samples.day 2024 11 18))].
Proof. split_and!; vm_compute; reflexivity. Qed.
